(** * Call quality analyser: the scoring engine, the coaching generator and
      the call processing pipeline.

    A shallow embedding of [backend/services/openaiService.js] (class
    [OpenAIService]) and of [processCallAsync] from the call controller,
    with the properties of the processing pipeline proved about them; then
    of the handlers [getCallAnalysis] and [getCoachingPlan], of the analyze
    and coaching routes of [backend/routes/analysis.js], and of the
    authentication and rate limiter middleware.

    Conventions of the embedding.
    - A JavaScript number is a [num]: [NaN] or a rational.  IEEE doubles are
      idealised as exact rationals; the integer-valued scores (every result
      of [Math.round], every literal score) are represented exactly.  Where
      a quotient is multiplied before it is rounded ([analyzeRelevance],
      the means of the classifier scores), the product in doubles can fall
      just under a half that the exact product reaches (23 keywords in 40
      words: 57.49999999999999 in doubles, 57.5 here), and the rounded
      score of the program is then one less than the one here; what is
      proved of these scores are ranges and relations between reported
      scores, which hold of both.
    - Text is a [string] of 8-bit characters read as the code units
      U+0000..U+00FF.
    - The external HTTP services are oracles ([Services]); a [None] reply
      stands for any way the request or the decoding of its payload throws.
    - [async] functions run to completion one after the other; a rejected
      promise is a [Throw].
    - The Call model is not among the sources; its schema and its method
      [addProcessingStep] are taken from their listing in
      TECHNICAL_ARCHITECTURE.md.  The store holds one document per
      identifier; [save] validates the document against the schema
      ([CallController.Schema]) and then writes the paths assigned since the
      document was loaded or saved; [updateOne] writes without validation,
      as the ODM does by default.  The text of a validation error is the
      ODM's and is a parameter of the environment. *)

From Stdlib Require Import ZArith QArith Qround Qminmax List Bool Ascii String.
From Stdlib Require Import DecimalString Lia Lqa.
Import ListNotations.

Open Scope string_scope.
Open Scope Z_scope.

(** ** JavaScript numbers *)

Module JS.

Inductive num : Type :=
| NaN
| Num (q : Q).

Definition Int (z : Z) : num := Num (inject_Z z).

Definition add (a b : num) : num :=
  match a, b with
  | Num x, Num y => Num (x + y)
  | _, _ => NaN
  end.

Definition mul (a b : num) : num :=
  match a, b with
  | Num x, Num y => Num (x * y)
  | _, _ => NaN
  end.

(** [a / b].  A zero divisor gives [NaN]: the only zero divisors of this
    program are the lengths of empty arrays, whose sums are [0], and
    [0 / 0] is [NaN]. *)
Definition div (a b : num) : num :=
  match a, b with
  | Num x, Num y => if Qeq_bool y 0 then NaN else Num (x / y)
  | _, _ => NaN
  end.

(** [Math.round]: the nearest integer, ties towards plus infinity. *)
Definition Math_round (a : num) : num :=
  match a with
  | NaN => NaN
  | Num x => Int (Qfloor (x + (1 # 2)))
  end.

(** Comparisons; every comparison with [NaN] is false. *)
Definition geb (a b : num) : bool :=
  match a, b with
  | Num x, Num y => Qle_bool y x
  | _, _ => false
  end.

Definition ltb (a b : num) : bool :=
  match a, b with
  | Num x, Num y => negb (Qle_bool y x)
  | _, _ => false
  end.

Definition gtb (a b : num) : bool := ltb b a.

(** Truthiness of a number and [a || d]. *)
Definition truthy (a : num) : bool :=
  match a with
  | NaN => false
  | Num x => negb (Qeq_bool x 0)
  end.

Definition or_else (a d : num) : num := if truthy a then a else d.

(** An [Error] object: [message], the optional [code], the [stack] (the
    trace itself is not modelled: [new Error] keeps the message there). *)
Record Error : Type := mkError {
  err_message : string;
  err_code : option string;
  err_stack : string
}.

Definition new_Error (msg : string) : Error :=
  {| err_message := msg; err_code := None; err_stack := msg |}.

(** The outcome of a call that may throw. *)
Inductive result (A : Type) : Type :=
| Ok (a : A)
| Throw (e : Error).

Arguments Ok {A} a.
Arguments Throw {A} e.

(** [try { body } catch (error) { handler }] *)
Definition try_catch {A : Type} (body : result A) (handler : Error -> result A)
  : result A :=
  match body with
  | Ok a => Ok a
  | Throw e => handler e
  end.

(** [s || d] on strings: the empty string is falsy. *)
Definition str_or (s d : string) : string :=
  match s with
  | EmptyString => d
  | _ => s
  end.

End JS.

(** ** Text primitives *)

Module Text.

Definition code (c : ascii) : nat := nat_of_ascii c.

(** White space of [\s] and of [trim] among U+0000..U+00FF. *)
Definition is_space (c : ascii) : bool :=
  let n := code c in
  ((9 <=? n) && (n <=? 13))%nat || (n =? 32)%nat || (n =? 160)%nat.

(** [[.!?]] *)
Definition is_terminator (c : ascii) : bool :=
  let n := code c in
  (n =? 46)%nat || (n =? 33)%nat || (n =? 63)%nat.

Definition lower_ascii (c : ascii) : ascii :=
  let n := code c in
  if ((65 <=? n) && (n <=? 90))%nat then ascii_of_nat (n + 32) else c.

(** [toLowerCase] on one code unit: A-Z and the capital letters of
    U+00C0..U+00DE (but the multiplication sign U+00D7). *)
Definition lower_char (c : ascii) : ascii :=
  let n := code c in
  if ((65 <=? n) && (n <=? 90))%nat then ascii_of_nat (n + 32)
  else if ((192 <=? n) && (n <=? 222) && negb (n =? 215))%nat
       then ascii_of_nat (n + 32)
       else c.

Fixpoint map_string (f : ascii -> ascii) (s : string) : string :=
  match s with
  | EmptyString => EmptyString
  | String c s' => String (f c) (map_string f s')
  end.

Definition toLowerCase (s : string) : string := map_string lower_char s.

Fixpoint rev_onto (s acc : string) : string :=
  match s with
  | EmptyString => acc
  | String c s' => rev_onto s' (String c acc)
  end.

Definition rev (s : string) : string := rev_onto s EmptyString.

Fixpoint trimStart (s : string) : string :=
  match s with
  | EmptyString => EmptyString
  | String c s' => if is_space c then trimStart s' else s
  end.

Definition trim (s : string) : string := rev (trimStart (rev (trimStart s))).

(** [s.split(/[class]+/)]: the pieces between the maximal runs of
    separator characters; [cur] is the piece being read, backwards, and
    [inrun] tells that the last character read was a separator. *)
Fixpoint split_runs (sep : ascii -> bool) (s cur : string) (inrun : bool)
  : list string :=
  match s with
  | EmptyString => [rev cur]
  | String c s' =>
      if sep c then
        if inrun then split_runs sep s' EmptyString true
        else rev cur :: split_runs sep s' EmptyString true
      else split_runs sep s' (String c cur) false
  end.

Definition split_regex (sep : ascii -> bool) (s : string) : list string :=
  split_runs sep s EmptyString false.

(** [s.split(' ')]: one piece per separator occurrence, empty pieces kept. *)
Fixpoint split_at (sep : ascii) (s cur : string) : list string :=
  match s with
  | EmptyString => [rev cur]
  | String c s' =>
      if Ascii.eqb c sep then rev cur :: split_at sep s' EmptyString
      else split_at sep s' (String c cur)
  end.

Definition split_char (sep : ascii) (s : string) : list string :=
  split_at sep s EmptyString.

Fixpoint starts_with (p s : string) : bool :=
  match p, s with
  | EmptyString, _ => true
  | String a p', String b s' => Ascii.eqb a b && starts_with p' s'
  | String _ _, EmptyString => false
  end.

Fixpoint contains (p s : string) : bool :=
  starts_with p s ||
  match s with
  | EmptyString => false
  | String _ s' => contains p s'
  end.

(** [/a|b|c/i.test(s)] for literal alternatives: some alternative occurs
    in [s], letters compared without case. *)
Definition regex_test_i (alternatives : list string) (s : string) : bool :=
  let s' := map_string lower_ascii s in
  existsb (fun p => contains (map_string lower_ascii p) s') alternatives.

(** [array.includes(word)] *)
Definition includes (l : list string) (w : string) : bool :=
  existsb (String.eqb w) l.

(** [new Set(words).size] *)
Definition distinct_count (l : list string) : nat :=
  List.length (nodup string_dec l).

End Text.

(** ** backend/services/openaiService.js *)

Module OpenAIService.

Import JS.

(** *** The external services *)

(** [response.data[0]] of a classification request: labelled scores. *)
Definition Classification : Type := list (string * Q).

(** The reply of the speech-to-text request: [response.data.text] (absent
    when the payload has no such field), or the failure with the HTTP
    status of [error.response], if any. *)
Inductive SttReply : Type :=
| SttOk (text : option string)
| SttFail (httpStatus : option Z).

(** *** Results *)

Record Segment : Type := mkSegment {
  seg_start : Z;
  seg_end : Z;
  seg_text : option string;
  speaker : string
}.

Record Transcription : Type := mkTranscription {
  text : option string;
  segments : list Segment;
  language : string;
  duration : Z;
  confidence : Q
}.

Record SentimentScore : Type := mkSentimentScore {
  s_sentence : string;
  positive : Q;
  negative : Q
}.

(** The fallback objects carry [sentence] and [politeness] only. *)
Record ToxicityScore : Type := mkToxicityScore {
  t_sentence : string;
  toxic : option Q;
  hate : option Q;
  obscene : option Q;
  threat : option Q;
  insult : option Q;
  t_politeness : Q
}.

Record Metrics : Type := mkMetrics {
  callOpening : num;
  issueUnderstanding : num;
  sentimentAnalysis : num;
  politeness : num;
  clarity : num;
  engagement : num;
  relevance : num;
  csatScore : num;
  resolutionQuality : num
}.

Record Feedback : Type := mkFeedback {
  fb_callOpening : string;
  fb_issueUnderstanding : string;
  fb_sentimentAnalysis : string;
  fb_politeness : string;
  fb_clarity : string;
  fb_engagement : string;
  fb_relevance : string;
  fb_csatScore : string;
  fb_resolutionQuality : string
}.

(** [overallScore] is [None] when the property is absent: the analyses
    posted to the coaching route are free-form objects. *)
Record Analysis : Type := mkAnalysis {
  overallScore : option num;
  metrics : Metrics;
  feedback : Feedback;
  keyPoints : list string;
  issues : list string;
  recommendations : list string
}.

Record Recommendation : Type := mkRecommendation {
  category : string;
  rec_title : string;
  rec_description : string;
  priority : string
}.

Record Resource : Type := mkResource {
  res_type : string;
  res_title : string;
  res_description : string;
  url : string
}.

Record QuizItem : Type := mkQuizItem {
  question : string;
  options : list string;
  correctAnswer : Z;
  explanation : string
}.

Module Plan.
Record t : Type := mk {
  feedback : string;
  recommendations : list Recommendation;
  resources : list Resource;
  quiz : list QuizItem;
  completionCriteria : string
}.
End Plan.

Record Services : Type := mkServices {
  (** Whisper, by file path *)
  whisper : string -> SttReply;
  (** the sentiment model: the i-th request of a call, its sentence *)
  sentimentApi : nat -> string -> option Classification;
  (** the toxicity model: the i-th request of a call, its sentence *)
  toxicityApi : nat -> string -> option Classification;
  (** the text generation model, by the analysis and the transcript of the
      prompt; the reply is never read *)
  generationApi : Analysis -> option string -> option unit
}.

(** *** transcribeAudio *)

Definition transcribeAudio (svc : Services) (filePath : string)
  : result Transcription :=
  match whisper svc filePath with
  | SttOk transcript =>
      Ok {| text := transcript;
            segments := [ {| seg_start := 0; seg_end := 30;
                             seg_text := transcript; speaker := "agent" |} ];
            language := "en";
            duration := 45;
            confidence := 9 # 10 |}
  | SttFail httpStatus =>
      Throw (new_Error
        ("Transcription failed: " ++
         match httpStatus with
         | Some 404 => "Model not found"
         | _ => "Service unavailable"
         end))
  end.

(** *** The sentence classifiers *)

(** [result.find(r => r.label === label)?.score || 0] *)
Definition score_of (label : string) (result : Classification) : Q :=
  match find (fun r => String.eqb (fst r) label) result with
  | Some r => snd r
  | None => 0
  end.

(** [transcript.split(/[.!?]+/).filter(s => s.trim().length > 0)] *)
Definition sentences_of (transcript : string) : list string :=
  filter (fun s => (0 <? String.length (Text.trim s))%nat)
         (Text.split_regex Text.is_terminator transcript).

(** [array.slice(0, 3)] *)
Definition slice_0_3 {A : Type} (l : list A) : list A := firstn 3 l.

(** The [for] loop of [analyzeSentiment]; [None] when a request throws. *)
Fixpoint sentiment_loop (svc : Services) (i : nat) (sentences : list string)
  (scores : list SentimentScore) : option (list SentimentScore) :=
  match sentences with
  | [] => Some scores
  | sentence :: rest =>
      match sentimentApi svc i sentence with
      | None => None
      | Some result =>
          sentiment_loop svc (S i) rest
            (scores ++ [ {| s_sentence := sentence;
                            positive := score_of "POSITIVE" result;
                            negative := score_of "NEGATIVE" result |} ])
      end
  end.

Definition sentiment_fallback (s : string) : SentimentScore :=
  {| s_sentence := s; positive := 7 # 10; negative := 3 # 10 |}.

Definition analyzeSentiment (svc : Services) (sentences : list string)
  : list SentimentScore :=
  match sentiment_loop svc 0 sentences [] with
  | Some scores => scores
  | None => map sentiment_fallback sentences
  end.

Definition Math_max5 (a b c d e : Q) : Q :=
  Qmax a (Qmax b (Qmax c (Qmax d e))).

(** The [for] loop of [analyzeToxicity]; [None] when a request throws. *)
Fixpoint toxicity_loop (svc : Services) (i : nat) (sentences : list string)
  (scores : list ToxicityScore) : option (list ToxicityScore) :=
  match sentences with
  | [] => Some scores
  | sentence :: rest =>
      match toxicityApi svc i sentence with
      | None => None
      | Some result =>
          let toxicScore := score_of "toxic" result in
          let hateScore := score_of "hate" result in
          let obsceneScore := score_of "obscene" result in
          let threatScore := score_of "threat" result in
          let insultScore := score_of "insult" result in
          toxicity_loop svc (S i) rest
            (scores ++ [ {| t_sentence := sentence;
                            toxic := Some toxicScore;
                            hate := Some hateScore;
                            obscene := Some obsceneScore;
                            threat := Some threatScore;
                            insult := Some insultScore;
                            t_politeness :=
                              1 - Math_max5 toxicScore hateScore obsceneScore
                                            threatScore insultScore |} ])
      end
  end.

Definition toxicity_fallback (s : string) : ToxicityScore :=
  {| t_sentence := s; toxic := None; hate := None; obscene := None;
     threat := None; insult := None; t_politeness := 8 # 10 |}.

Definition analyzeToxicity (svc : Services) (sentences : list string)
  : list ToxicityScore :=
  match toxicity_loop svc 0 sentences [] with
  | Some scores => scores
  | None => map toxicity_fallback sentences
  end.

(** *** Local analysis methods *)

Definition len {A : Type} (l : list A) : num := Int (Z.of_nat (List.length l)).

(** [Math.max(0, Math.min(100, n))] and [Math.min(100, n)] on integers *)
Definition clamp_0_100 (n : Z) : Z := Z.max 0 (Z.min 100 n).

Definition analyzeClarity (transcript : string) : num :=
  let sentences := sentences_of transcript in
  let avgSentenceLength :=
    div (Int (fold_left
                (fun sum s => sum + Z.of_nat (List.length (Text.split_char " " s)))
                sentences 0))
        (len sentences) in
  let clarityScore := 80 in
  let clarityScore :=
    if gtb avgSentenceLength (Int 20) then clarityScore - 10 else clarityScore in
  let clarityScore :=
    if ltb avgSentenceLength (Int 5) then clarityScore - 15 else clarityScore in
  let clarityScore :=
    if (List.length sentences <? 3)%nat then clarityScore - 10 else clarityScore in
  Int (clamp_0_100 clarityScore).

(** [transcript.toLowerCase().split(/\s+/)] *)
Definition words_of (transcript : string) : list string :=
  Text.split_regex Text.is_space (Text.toLowerCase transcript).

Definition analyzeEngagement (transcript : string) : num :=
  let words := words_of transcript in
  let vocabularyRichness :=
    div (Int (Z.of_nat (Text.distinct_count words))) (len words) in
  let engagementScore := 70 in
  let engagementScore :=
    if gtb vocabularyRichness (Num (6 # 10)) then engagementScore + 15
    else engagementScore in
  let engagementScore :=
    if (50 <? List.length words)%nat then engagementScore + 10
    else engagementScore in
  let engagementScore :=
    if (100 <? List.length words)%nat then engagementScore + 5
    else engagementScore in
  Int (Z.min 100 engagementScore).

Definition customerServiceKeywords : list string :=
  [ "help"; "assist"; "support"; "issue"; "problem"; "resolve"; "fix";
    "order"; "account"; "service"; "customer"; "thank"; "apologize";
    "understand"; "solution"; "process" ].

Definition analyzeRelevance (transcript : string) : num :=
  let words := words_of transcript in
  let relevantWords := filter (Text.includes customerServiceKeywords) words in
  let relevanceRatio := div (len relevantWords) (len words) in
  Math_round (mul relevanceRatio (Int 100)).

Definition calculateOverallSentiment (sentimentScores : list SentimentScore)
  : num :=
  let avgPositive :=
    div (Num (fold_left (fun sum s => (sum + positive s)%Q) sentimentScores 0%Q))
        (len sentimentScores) in
  Math_round (mul avgPositive (Int 100)).

Definition calculateOverallPoliteness (toxicityScores : list ToxicityScore)
  : num :=
  let avgPoliteness :=
    div (Num (fold_left (fun sum s => (sum + t_politeness s)%Q) toxicityScores 0%Q))
        (len toxicityScores) in
  Math_round (mul avgPoliteness (Int 100)).

Definition bonus (b : bool) (n : Z) : Z := if b then n else 0.

Definition analyzeCallOpening (transcript : string) : num :=
  let hasGreeting :=
    Text.regex_test_i ["hello"; "hi"; "good"; "thank you"] transcript in
  let hasIntroduction :=
    Text.regex_test_i ["my name is"; "i'm"; "this is"] transcript in
  let hasOffer :=
    Text.regex_test_i ["how can i help"; "what can i do"; "assist"] transcript in
  let score := 60 in
  let score := score + bonus hasGreeting 15 in
  let score := score + bonus hasIntroduction 15 in
  let score := score + bonus hasOffer 10 in
  Int (Z.min 100 score).

Definition analyzeIssueUnderstanding (transcript : string) : num :=
  let hasIssue :=
    Text.regex_test_i ["issue"; "problem"; "concern"; "matter"] transcript in
  let hasUnderstanding :=
    Text.regex_test_i ["understand"; "see"; "look"; "check"] transcript in
  let hasClarification :=
    Text.regex_test_i ["clarify"; "confirm"; "verify"] transcript in
  let score := 60 in
  let score := score + bonus hasIssue 20 in
  let score := score + bonus hasUnderstanding 15 in
  let score := score + bonus hasClarification 5 in
  Int (Z.min 100 score).

Definition analyzeResolutionQuality (transcript : string) : num :=
  let hasResolution :=
    Text.regex_test_i ["resolve"; "fix"; "solve"; "address"] transcript in
  let hasSolution :=
    Text.regex_test_i ["solution"; "answer"; "result"] transcript in
  let hasFollowUp :=
    Text.regex_test_i ["follow"; "check"; "ensure"; "confirm"] transcript in
  let score := 60 in
  let score := score + bonus hasResolution 20 in
  let score := score + bonus hasSolution 15 in
  let score := score + bonus hasFollowUp 5 in
  Int (Z.min 100 score).

(** *** Feedback strings *)

Definition getCallOpeningFeedback (transcript : string) : string :=
  let score := analyzeCallOpening transcript in
  if geb score (Int 85)
  then "Excellent call opening with professional greeting and clear introduction"
  else if geb score (Int 70)
  then "Good call opening, could improve introduction clarity"
  else "Call opening needs improvement - add greeting and clear introduction".

Definition getIssueUnderstandingFeedback (transcript : string) : string :=
  let score := analyzeIssueUnderstanding transcript in
  if geb score (Int 85)
  then "Excellent problem identification and understanding"
  else if geb score (Int 70)
  then "Good issue understanding, could improve clarification"
  else "Issue understanding needs work - practice active listening".

Definition getSentimentFeedback (score : num) : string :=
  if geb score (Int 85) then "Excellent positive sentiment throughout the call"
  else if geb score (Int 70) then "Good sentiment, maintain positive tone"
  else "Sentiment needs improvement - focus on positive language".

Definition getPolitenessFeedback (score : num) : string :=
  if geb score (Int 85) then "Excellent politeness and professional tone"
  else if geb score (Int 70) then "Good politeness, maintain professional language"
  else "Politeness needs improvement - avoid negative language".

Definition getClarityFeedback (score : num) : string :=
  if geb score (Int 85) then "Excellent clarity and coherent communication"
  else if geb score (Int 70) then "Good clarity, could improve sentence structure"
  else "Clarity needs improvement - use shorter, clearer sentences".

Definition getEngagementFeedback (score : num) : string :=
  if geb score (Int 85) then "Excellent engagement with rich vocabulary"
  else if geb score (Int 70) then "Good engagement, could expand vocabulary"
  else "Engagement needs improvement - use more descriptive language".

Definition getRelevanceFeedback (score : num) : string :=
  if geb score (Int 85) then "Excellent topic relevance throughout the call"
  else if geb score (Int 70) then "Good relevance, stay focused on customer needs"
  else "Relevance needs improvement - stay on topic".

Definition getCSATFeedback (sentiment politeness relevance : num) : string :=
  let avgScore := div (add (add sentiment politeness) relevance) (Int 3) in
  if geb avgScore (Int 85) then "Excellent customer satisfaction potential"
  else if geb avgScore (Int 70) then "Good customer satisfaction, maintain quality"
  else "Customer satisfaction needs improvement".

Definition getResolutionFeedback (transcript : string) : string :=
  let score := analyzeResolutionQuality transcript in
  if geb score (Int 85) then "Excellent problem resolution and follow-up"
  else if geb score (Int 70) then "Good resolution, could improve follow-up"
  else "Resolution quality needs improvement - provide clear solutions".

(** [if (cond) array.push(item)] *)
Definition push_if {A : Type} (cond : bool) (item : A) (array : list A) : list A :=
  if cond then array ++ [item] else array.

(** [array.length > 0 ? array : [fallback]] *)
Definition or_default {A : Type} (array : list A) (fallback : A) : list A :=
  match array with
  | [] => [fallback]
  | _ => array
  end.

Definition extractKeyPoints (transcript : string) : list string :=
  let keyPoints := [] in
  let keyPoints :=
    push_if (Text.regex_test_i ["hello"; "greeting"] transcript)
            "Professional greeting" keyPoints in
  let keyPoints :=
    push_if (Text.regex_test_i ["issue"; "problem"] transcript)
            "Problem identification" keyPoints in
  let keyPoints :=
    push_if (Text.regex_test_i ["understand"; "clarify"] transcript)
            "Active listening" keyPoints in
  let keyPoints :=
    push_if (Text.regex_test_i ["resolve"; "fix"] transcript)
            "Problem resolution" keyPoints in
  let keyPoints :=
    push_if (Text.regex_test_i ["thank"; "appreciate"] transcript)
            "Gratitude expressed" keyPoints in
  or_default keyPoints "Customer service interaction".

(** [toxicityScores.some(s => s.politeness < 0.7)] *)
Definition some_impolite (toxicityScores : list ToxicityScore) : bool :=
  existsb (fun s => negb (Qle_bool (7 # 10) (t_politeness s))) toxicityScores.

Definition identifyIssues (sentimentScores : list SentimentScore)
  (toxicityScores : list ToxicityScore)
  (clarityScore engagementScore relevanceScore : num) : list string :=
  let issues := [] in
  let issues :=
    push_if (ltb clarityScore (Int 70))
            "Communication clarity needs improvement" issues in
  let issues :=
    push_if (ltb engagementScore (Int 70))
            "Engagement level could be higher" issues in
  let issues :=
    push_if (ltb relevanceScore (Int 70))
            "Stay more focused on customer needs" issues in
  let issues :=
    push_if (some_impolite toxicityScores)
            "Language politeness needs attention" issues in
  issues.

Definition generateRecommendations (sentimentScores : list SentimentScore)
  (toxicityScores : list ToxicityScore)
  (clarityScore engagementScore relevanceScore : num) : list string :=
  let recommendations := [] in
  let recommendations :=
    push_if (ltb clarityScore (Int 70))
            "Practice clear, concise communication" recommendations in
  let recommendations :=
    push_if (ltb engagementScore (Int 70))
            "Expand vocabulary and be more descriptive" recommendations in
  let recommendations :=
    push_if (ltb relevanceScore (Int 70))
            "Stay focused on customer issues" recommendations in
  let recommendations :=
    push_if (some_impolite toxicityScores)
            "Use more polite and professional language" recommendations in
  or_default recommendations "Continue current good practices".

(** *** analyzeCall *)

(** The body of the [try] block, once [transcript.split] is known to
    exist, that is for a transcript that is a string. *)
Definition analyze (svc : Services) (transcript : string) : Analysis :=
  let sentences := sentences_of transcript in
  let sentimentScores := analyzeSentiment svc (slice_0_3 sentences) in
  let toxicityScores := analyzeToxicity svc (slice_0_3 sentences) in
  let clarityScore := analyzeClarity transcript in
  let engagementScore := analyzeEngagement transcript in
  let relevanceScore := analyzeRelevance transcript in
  let overallSentiment := calculateOverallSentiment sentimentScores in
  let overallPoliteness := calculateOverallPoliteness toxicityScores in
  {| overallScore :=
       Some (Math_round
               (div (add (add (add (add overallSentiment overallPoliteness)
                                   clarityScore) engagementScore) relevanceScore)
                    (Int 5)));
     metrics :=
       {| callOpening := analyzeCallOpening transcript;
          issueUnderstanding := analyzeIssueUnderstanding transcript;
          sentimentAnalysis := overallSentiment;
          politeness := overallPoliteness;
          clarity := clarityScore;
          engagement := engagementScore;
          relevance := relevanceScore;
          csatScore :=
            Math_round
              (div (add (add overallSentiment overallPoliteness) relevanceScore)
                   (Int 3));
          resolutionQuality := analyzeResolutionQuality transcript |};
     feedback :=
       {| fb_callOpening := getCallOpeningFeedback transcript;
          fb_issueUnderstanding := getIssueUnderstandingFeedback transcript;
          fb_sentimentAnalysis := getSentimentFeedback overallSentiment;
          fb_politeness := getPolitenessFeedback overallPoliteness;
          fb_clarity := getClarityFeedback clarityScore;
          fb_engagement := getEngagementFeedback engagementScore;
          fb_relevance := getRelevanceFeedback relevanceScore;
          fb_csatScore :=
            getCSATFeedback overallSentiment overallPoliteness relevanceScore;
          fb_resolutionQuality := getResolutionFeedback transcript |};
     keyPoints := extractKeyPoints transcript;
     issues :=
       identifyIssues sentimentScores toxicityScores
                      clarityScore engagementScore relevanceScore;
     recommendations :=
       generateRecommendations sentimentScores toxicityScores
                               clarityScore engagementScore relevanceScore |}.

(** The [TypeError] of [transcript.split] on a value without that method. *)
Definition split_TypeError : Error :=
  new_Error "Cannot read properties of undefined (reading 'split')".

(** [transcript] is [None] for a value that is not a string ([undefined]
    when the speech-to-text payload had no text). *)
Definition analyzeCall (svc : Services) (transcript : option string)
  : result Analysis :=
  try_catch
    match transcript with
    | None => Throw split_TypeError
    | Some t => Ok (analyze svc t)
    end
    (fun error => Throw (new_Error ("Analysis failed: " ++ err_message error))).

(** *** generateCoachingPlan *)

(** [Array.isArray] of an array *)
Definition Array_isArray {A : Type} (a : list A) : bool := true.

Definition generateCoachingPlanFromAnalysis (analysis : Analysis)
  (transcript : option string) : result Plan.t :=
  let overallScore :=
    match overallScore analysis with
    | Some n => or_else n (Int 75)
    | None => Int 75
    end in
  let feedback :=
    if geb overallScore (Int 85)
    then "Excellent performance! Keep up the great work."
    else if geb overallScore (Int 70)
    then "Good performance with specific areas for improvement."
    else "Performance needs improvement. Focus on the recommendations below." in
  let coachingPlan :=
    {| Plan.feedback := feedback;
       Plan.recommendations :=
         [ {| category := "Communication";
              rec_title := "Improve Active Listening";
              rec_description :=
                "Practice active listening techniques to better understand customer needs";
              priority := "high" |};
           {| category := "Professionalism";
              rec_title := "Enhance Greeting Skills";
              rec_description :=
                "Work on creating more welcoming and professional call openings";
              priority := "medium" |};
           {| category := "Problem Solving";
              rec_title := "Better Issue Resolution";
              rec_description :=
                "Improve problem identification and resolution techniques";
              priority := "high" |} ];
       Plan.resources :=
         [ {| res_type := "video";
              res_title := "Active Listening Techniques";
              res_description := "Learn effective active listening skills";
              url := "https://www.youtube.com/watch?v=WzZNuQwQoQY" |};
           {| res_type := "article";
              res_title := "Customer Service Best Practices";
              res_description := "Essential tips for excellent customer service";
              url := "https://www.zendesk.com/blog/customer-service-best-practices/" |} ];
       Plan.quiz :=
         [ {| question := "What is the most important aspect of call opening?";
              options := [ "Speed"; "Professional greeting";
                           "Getting to the point"; "Asking questions" ];
              correctAnswer := 1;
              explanation :=
                "A professional greeting sets the tone for the entire call" |};
           {| question := "How should you handle an angry customer?";
              options := [ "Hang up"; "Listen actively and empathize";
                           "Argue back"; "Transfer immediately" ];
              correctAnswer := 1;
              explanation :=
                "Active listening and empathy help de-escalate situations" |} ];
       Plan.completionCriteria :=
         "Complete all recommendations and score 80% or higher on the quiz" |} in
  if negb (Array_isArray (Plan.resources coachingPlan)) then
    Throw (new_Error "Invalid coaching plan structure: resources must be an array")
  else if negb (Array_isArray (Plan.recommendations coachingPlan)) then
    Throw (new_Error
             "Invalid coaching plan structure: recommendations must be an array")
  else if negb (Array_isArray (Plan.quiz coachingPlan)) then
    Throw (new_Error "Invalid coaching plan structure: quiz must be an array")
  else Ok coachingPlan.

(** The request to the generation model inside the [try] block. *)
Definition generation_request (svc : Services) (analysis : Analysis)
  (transcript : option string) : result unit :=
  match generationApi svc analysis transcript with
  | Some reply => Ok reply
  | None => Throw (new_Error "Request failed")
  end.

Definition generateCoachingPlan (svc : Services) (analysis : Analysis)
  (transcript : option string) : result Plan.t :=
  try_catch
    match generation_request svc analysis transcript with
    | Ok response => generateCoachingPlanFromAnalysis analysis transcript
    | Throw e => Throw e
    end
    (fun error => generateCoachingPlanFromAnalysis analysis transcript).

End OpenAIService.

(** ** The call controller: the Call document and [processCallAsync] *)

Module CallController.

Import JS.
Module AI := OpenAIService.

(** *** The Call document (models/Call, as TECHNICAL_ARCHITECTURE.md lists it) *)

Module Status.
Inductive t : Type :=
| uploaded | transcribing | transcribed | analyzing | analyzed
| generating_coaching | completed | error.
End Status.

Module Step.
Inductive t : Type := started | completed | failed.
End Step.

Definition CallId : Type := nat.

Record HistoryEntry : Type := mkHistoryEntry {
  step : string;
  h_status : Step.t;
  h_message : string;
  h_timestamp : Z;
  h_duration : Z;
  h_error : option Error
}.

(** [retryCount] is [None] when the property is absent. *)
Record CallError : Type := mkCallError {
  e_message : string;
  e_code : string;
  e_timestamp : Z;
  e_step : string;
  retryCount : option Z
}.

Record Performance : Type := mkPerformance {
  processingTime : option Z;
  transcriptionTime : option Z;
  analysisTime : option Z;
  coachingTime : option Z
}.

(** The text [JSON.stringify(a)], kept as the value it encodes. *)
Inductive json (A : Type) : Type := JSON_stringify (a : A).
Arguments JSON_stringify {A} a.

Record StoredPlan : Type := mkStoredPlan {
  generated : bool;
  sp_feedback : option string;
  sp_recommendations : option (json (list AI.Recommendation));
  sp_resources : option (json (list AI.Resource));
  sp_quiz : option (json (list AI.QuizItem));
  sp_completionCriteria : option string
}.

Record Call : Type := mkCall {
  filePath : string;
  originalName : string;
  duration : Z;
  status : Status.t;
  transcript : option AI.Transcription;
  analysis : option AI.Analysis;
  coachingPlan : StoredPlan;
  processingHistory : list HistoryEntry;
  error : option CallError;
  performance : Performance
}.

(** The paths of a document that the pipeline assigns. *)
Inductive Path : Type :=
| PStatus | PTranscript | PDuration | PAnalysis | PHistory | PError
| PTranscriptionTime | PAnalysisTime.

Definition is_PStatus (p : Path) : bool :=
  match p with PStatus => true | _ => false end.

Definition set_status (v : Status.t) (c : Call) : Call :=
  mkCall (filePath c) (originalName c) (duration c) v (transcript c)
         (analysis c) (coachingPlan c) (processingHistory c) (error c)
         (performance c).

Definition set_transcript (v : option AI.Transcription) (c : Call) : Call :=
  mkCall (filePath c) (originalName c) (duration c) (status c) v
         (analysis c) (coachingPlan c) (processingHistory c) (error c)
         (performance c).

Definition set_duration (v : Z) (c : Call) : Call :=
  mkCall (filePath c) (originalName c) v (status c) (transcript c)
         (analysis c) (coachingPlan c) (processingHistory c) (error c)
         (performance c).

Definition set_analysis (v : option AI.Analysis) (c : Call) : Call :=
  mkCall (filePath c) (originalName c) (duration c) (status c) (transcript c)
         v (coachingPlan c) (processingHistory c) (error c) (performance c).

Definition set_coachingPlan (v : StoredPlan) (c : Call) : Call :=
  mkCall (filePath c) (originalName c) (duration c) (status c) (transcript c)
         (analysis c) v (processingHistory c) (error c) (performance c).

Definition set_processingHistory (v : list HistoryEntry) (c : Call) : Call :=
  mkCall (filePath c) (originalName c) (duration c) (status c) (transcript c)
         (analysis c) (coachingPlan c) v (error c) (performance c).

Definition set_error (v : option CallError) (c : Call) : Call :=
  mkCall (filePath c) (originalName c) (duration c) (status c) (transcript c)
         (analysis c) (coachingPlan c) (processingHistory c) v (performance c).

Definition set_performance (v : Performance) (c : Call) : Call :=
  mkCall (filePath c) (originalName c) (duration c) (status c) (transcript c)
         (analysis c) (coachingPlan c) (processingHistory c) (error c) v.

Definition set_transcriptionTime (v : option Z) (p : Performance) : Performance :=
  mkPerformance (processingTime p) v (analysisTime p) (coachingTime p).

Definition set_analysisTime (v : option Z) (p : Performance) : Performance :=
  mkPerformance (processingTime p) (transcriptionTime p) v (coachingTime p).

(** *** The schema of a Call

    The constraints that the schema of TECHNICAL_ARCHITECTURE.md ("Call
    Schema") puts on the paths the pipeline assigns: the [step] of a
    history entry is one of four words, and the scores of an analysis are
    numbers (NaN does not cast to a number) from 0 to 100.  The other
    constraints of the schema (the [status] and entry status enumerations,
    the types of the other paths) hold of every [Call] by its type. *)

Module Schema.

(** [enum: ['upload', 'transcribe', 'analyze', 'coaching']] *)
Definition steps : list string := ["upload"; "transcribe"; "analyze"; "coaching"].

Definition valid_entry (h : HistoryEntry) : bool := Text.includes steps (step h).

(** [{ type: Number, min: 0, max: 100 }] *)
Definition score (n : num) : bool :=
  match n with
  | NaN => false
  | Num q => Qle_bool 0 q && Qle_bool q 100
  end.

Definition valid_metrics (m : AI.Metrics) : bool :=
  score (AI.callOpening m) && score (AI.issueUnderstanding m) &&
  score (AI.sentimentAnalysis m) && score (AI.politeness m) &&
  score (AI.clarity m) && score (AI.engagement m) && score (AI.relevance m) &&
  score (AI.csatScore m) && score (AI.resolutionQuality m).

Definition valid_analysis (a : AI.Analysis) : bool :=
  match AI.overallScore a with
  | Some n => score n
  | None => true
  end && valid_metrics (AI.metrics a).

(** The document passes the validation that [save] runs. *)
Definition valid (c : Call) : bool :=
  forallb valid_entry (processingHistory c) &&
  match analysis c with
  | Some a => valid_analysis a
  | None => true
  end.

End Schema.

(** *** Notifications *)

Inductive Payload : Type :=
| NoPayload
| WithTranscript (text : option string)
| WithAnalysis (a : AI.Analysis)
| WithCoachingPlan (p : AI.Plan.t)
| WithError (message : string).

(** [global.io.to(`call-${room}`).emit('call-status-update', {...})] *)
Record Event : Type := mkEvent {
  room : CallId;
  ev_callId : CallId;
  ev_status : Status.t;
  ev_message : string;
  progress : option Z;
  payload : Payload
}.

(** *** The world a run acts on *)

Record Env : Type := mkEnv {
  svc : AI.Services;
  (** the value of the n-th reading of the clock *)
  clock : nat -> Z;
  (** whether [global.io] is set *)
  global_io : bool;
  (** the message of the [ValidationError] that the ODM builds for a
      document its schema refuses *)
  validation_message : Call -> string
}.

(** [statusWrites] is the log of the values written to the stored
    [status] of a document, in order. *)
Record World : Type := mkWorld {
  db : CallId -> option Call;
  emitted : list Event;
  statusWrites : list (CallId * Status.t);
  ticks : nat
}.

Definition upd (m : CallId -> option Call) (k : CallId) (v : Call)
  : CallId -> option Call :=
  fun k' => if Nat.eqb k' k then Some v else m k'.

(** One reading of the clock. *)
Definition tick (w : World) : World :=
  mkWorld (db w) (emitted w) (statusWrites w) (S (ticks w)).

(** One event sent to its room. *)
Definition publish (e : Event) (w : World) : World :=
  mkWorld (db w) (emitted w ++ [e]) (statusWrites w) (ticks w).

(** One write of the document [k]; [written] holds the value written to
    its [status], if the write sets it. *)
Definition store (k : CallId) (v : Call) (written : list Status.t) (w : World)
  : World :=
  mkWorld (upd (db w) k v) (emitted w)
          (statusWrites w ++ map (pair k) written) (ticks w).

(** A document in memory: its identifier, its content, and the paths
    assigned since it was loaded or saved. *)
Record Document : Type := mkDocument {
  doc_id : CallId;
  doc : Call;
  modified : list Path
}.

Definition assign (p : Path) (f : Call -> Call) (d : Document) : Document :=
  mkDocument (doc_id d) (f (doc d)) (modified d ++ [p]).

(** *** The monad of the controller: state and exceptions *)

Definition M (A : Type) : Type := World -> result A * World.

Definition ret {A : Type} (a : A) : M A := fun w => (Ok a, w).

Definition bind {A B : Type} (m : M A) (k : A -> M B) : M B :=
  fun w =>
    match m w with
    | (Ok a, w') => k a w'
    | (Throw e, w') => (Throw e, w')
    end.

Notation "x <- m ;; k" := (bind m (fun x => k))
  (at level 61, m at next level, right associativity).
Notation "m ;;; k" := (bind m (fun _ => k))
  (at level 61, right associativity).

Definition lift {A : Type} (r : result A) : M A := fun w => (r, w).

(** [try { body } catch (error) { handler }] *)
Definition try_catch_m {A : Type} (body : M A) (handler : Error -> M A) : M A :=
  fun w =>
    match body w with
    | (Ok a, w') => (Ok a, w')
    | (Throw e, w') => handler e w'
    end.

Section Controller.

Variable env : Env.

(** [Date.now()], [new Date()] *)
Definition now : M Z :=
  fun w => (Ok (clock env (ticks w)), tick w).

(** [if (global.io) { global.io.to(...).emit(...) }] *)
Definition emit (e : Event) : M unit :=
  fun w => (Ok tt, if global_io env then publish e w else w).

(** [Call.findById(callId)] *)
Definition findById (callId : CallId) : M (option Document) :=
  fun w =>
    (Ok match db w callId with
        | Some c => Some (mkDocument callId c [])
        | None => None
        end, w).

Definition write_path (src : Call) (dst : Call) (p : Path) : Call :=
  match p with
  | PStatus => set_status (status src) dst
  | PTranscript => set_transcript (transcript src) dst
  | PDuration => set_duration (duration src) dst
  | PAnalysis => set_analysis (analysis src) dst
  | PHistory => set_processingHistory (processingHistory src) dst
  | PError => set_error (error src) dst
  | PTranscriptionTime =>
      set_performance
        (set_transcriptionTime (transcriptionTime (performance src))
                               (performance dst)) dst
  | PAnalysisTime =>
      set_performance
        (set_analysisTime (analysisTime (performance src)) (performance dst)) dst
  end.

(** The error of a [save] that the validation refuses. *)
Definition ValidationError (c : Call) : Error :=
  new_Error (validation_message env c).

(** [document.save()]: the document is validated against the schema, then
    its modified paths are written to the stored document; the save of a
    document that the schema refuses throws and writes nothing, and so
    does the save of a document that is no longer stored. *)
Definition save (d : Document) : M Document :=
  fun w =>
    if Schema.valid (doc d) then
      match db w (doc_id d) with
      | None =>
          (Throw (new_Error "No document found for query"), w)
      | Some stored =>
          (Ok (mkDocument (doc_id d) (doc d) []),
           store (doc_id d)
                 (fold_left (write_path (doc d)) (modified d) stored)
                 (if existsb is_PStatus (modified d) then [status (doc d)] else [])
                 w)
      end
    else (Throw (ValidationError (doc d)), w).

(** [Call.updateOne({ _id: callId }, { $set: ... })]; [newStatus] is the
    value the update sets [status] to, if it does. *)
Definition updateOne (callId : CallId) (set : Call -> Call)
  (newStatus : option Status.t) : M unit :=
  fun w =>
    match db w callId with
    | None => (Ok tt, w)
    | Some stored =>
        (Ok tt,
         store callId (set stored)
               match newStatus with
               | Some s => [s]
               | None => []
               end
               w)
    end.

(** [callSchema.methods.addProcessingStep], as listed under "Processing
    Error Handling" in TECHNICAL_ARCHITECTURE.md; the entry's [timestamp]
    is the schema default [Date.now].  For a [failed] step the method
    assigns a new [error] object, which has no [retryCount].  Its [save]
    validates the document with the new entry: an entry whose [step] is
    not in the enumeration of the schema makes it throw. *)
Definition addProcessingStep (d : Document) (step : string) (status : Step.t)
  (message : string) (duration : Z) (error : option Error) : M Document :=
  timestamp <- now ;;
  let d :=
    assign PHistory
      (fun c => set_processingHistory
                  (processingHistory c ++
                   [ {| step := step; h_status := status; h_message := message;
                        h_timestamp := timestamp; h_duration := duration;
                        h_error := error |} ]) c) d in
  d <- match status with
       | Step.failed =>
           date <- now ;;
           ret (assign PError
                  (set_error
                     (Some {| e_message :=
                                match error with
                                | Some err => str_or (err_message err) message
                                | None => message
                                end;
                              e_code :=
                                match error with
                                | Some {| err_code := Some c |} =>
                                    str_or c "PROCESSING_ERROR"
                                | _ => "PROCESSING_ERROR"
                                end;
                              e_timestamp := date;
                              e_step := step;
                              retryCount := None |})) d)
       | _ => ret d
       end ;;
  save d.

(** [(call.error?.retryCount || 0) + 1] *)
Definition next_retryCount (e : option CallError) : Z :=
  match e with
  | Some {| retryCount := Some n |} => (if Z.eqb n 0 then 0 else n) + 1
  | _ => 0 + 1
  end.

(** [transcription.duration || 0] *)
Definition z_or (n d : Z) : Z := if Z.eqb n 0 then d else n.

(** The body of the [try] block of [processCallAsync]. *)
Definition pipeline (callId : CallId) (startTime : Z) : M unit :=
  found <- findById callId ;;
  match found with
  | None => ret tt
  | Some call =>
      t <- now ;;
      call <- addProcessingStep call "upload" Step.completed
                "File uploaded successfully" (t - startTime) None ;;
      emit (mkEvent callId callId Status.uploaded
                    "Call uploaded successfully" None NoPayload) ;;;
      (* Step 1: Transcribe *)
      transcriptionStartTime <- now ;;
      let call := assign PStatus (set_status Status.transcribing) call in
      call <- save call ;;
      call <- addProcessingStep call "transcribe" Step.started
                "Starting transcription" 0 None ;;
      emit (mkEvent callId callId Status.transcribing
                    "Transcribing audio..." (Some 33) NoPayload) ;;;
      transcription <- lift (AI.transcribeAudio (svc env) (filePath (doc call))) ;;
      t <- now ;;
      let transcriptionTime := t - transcriptionStartTime in
      let call := assign PTranscript (set_transcript (Some transcription)) call in
      let call :=
        assign PDuration (set_duration (z_or (AI.duration transcription) 0)) call in
      let call := assign PStatus (set_status Status.transcribed) call in
      let call :=
        assign PTranscriptionTime
          (fun c => set_performance
                      (set_transcriptionTime (Some transcriptionTime)
                                             (performance c)) c) call in
      call <- save call ;;
      call <- addProcessingStep call "transcribe" Step.completed
                "Transcription completed successfully" transcriptionTime None ;;
      emit (mkEvent callId callId Status.transcribed "Transcription completed"
                    (Some 66) (WithTranscript (AI.text transcription))) ;;;
      (* Step 2: Analyze *)
      analysisStartTime <- now ;;
      let call := assign PStatus (set_status Status.analyzing) call in
      call <- save call ;;
      call <- addProcessingStep call "analyze" Step.started
                "Starting analysis" 0 None ;;
      emit (mkEvent callId callId Status.analyzing "Analyzing call..."
                    (Some 80) NoPayload) ;;;
      analysis <- lift (AI.analyzeCall (svc env) (AI.text transcription)) ;;
      t <- now ;;
      let analysisTime := t - analysisStartTime in
      let call := assign PAnalysis (set_analysis (Some analysis)) call in
      let call := assign PStatus (set_status Status.analyzed) call in
      let call :=
        assign PAnalysisTime
          (fun c => set_performance
                      (set_analysisTime (Some analysisTime) (performance c)) c)
          call in
      call <- save call ;;
      call <- addProcessingStep call "analyze" Step.completed
                "Analysis completed successfully" analysisTime None ;;
      emit (mkEvent callId callId Status.analyzed "Analysis completed"
                    (Some 90) (WithAnalysis analysis)) ;;;
      (* Step 3: Generate coaching plan *)
      coachingStartTime <- now ;;
      call <- addProcessingStep call "coaching" Step.started
                "Starting coaching plan generation" 0 None ;;
      emit (mkEvent callId callId Status.generating_coaching
                    "Generating coaching plan..." (Some 95) NoPayload) ;;;
      coachingPlan <- lift (AI.generateCoachingPlan (svc env) analysis
                                                    (AI.text transcription)) ;;
      t <- now ;;
      let coachingTime := t - coachingStartTime in
      let simplifiedCoachingPlan :=
        {| generated := true;
           sp_feedback := Some (AI.Plan.feedback coachingPlan);
           sp_recommendations :=
             Some (JSON_stringify (AI.Plan.recommendations coachingPlan));
           sp_resources := Some (JSON_stringify (AI.Plan.resources coachingPlan));
           sp_quiz := Some (JSON_stringify (AI.Plan.quiz coachingPlan));
           sp_completionCriteria :=
             Some (AI.Plan.completionCriteria coachingPlan) |} in
      updateOne callId (set_coachingPlan simplifiedCoachingPlan) None ;;;
      call <- addProcessingStep call "coaching" Step.completed
                "Coaching plan generated successfully" coachingTime None ;;
      t <- now ;;
      let totalProcessingTime := t - startTime in
      updateOne callId
        (fun c =>
           set_performance
             (mkPerformance (Some totalProcessingTime)
                            (CallController.transcriptionTime (performance c))
                            (CallController.analysisTime (performance c))
                            (Some coachingTime))
             (set_status Status.completed c))
        (Some Status.completed) ;;;
      emit (mkEvent callId callId Status.completed
                    "Call processing completed successfully" (Some 100)
                    (WithCoachingPlan coachingPlan))
  end.

(** The [catch] block of [processCallAsync]. *)
Definition on_failure (callId : CallId) (error : Error) : M unit :=
  found <- findById callId ;;
  match found with
  | Some call =>
      call <- addProcessingStep call "error" Step.failed (err_message error) 0
                (Some error) ;;
      date <- now ;;
      let retry := next_retryCount (CallController.error (doc call)) in
      let call := assign PStatus (set_status Status.error) call in
      let call :=
        assign PError
          (set_error
             (Some {| e_message := err_message error;
                      e_code :=
                        match err_code error with
                        | Some c => str_or c "PROCESSING_ERROR"
                        | None => "PROCESSING_ERROR"
                        end;
                      e_timestamp := date;
                      e_step := "processing";
                      retryCount := Some retry |})) call in
      save call ;;; ret tt
  | None => ret tt
  end ;;;
  emit (mkEvent callId callId Status.error
                ("Processing failed: " ++ err_message error) None
                (WithError (err_message error))).

Definition processCallAsync (callId : CallId) : M unit :=
  startTime <- now ;;
  try_catch_m (pipeline callId startTime) (on_failure callId).

End Controller.

End CallController.

(** ** The aggregates, in the words of the specification *)

Module Spec.

Import JS.

(** [round(mean(values))]: the sum of the values over their number, rounded. *)
Definition rounded_mean (values : list num) : num :=
  Math_round (div (fold_left add values (Int 0))
                  (Int (Z.of_nat (List.length values)))).

(** The five metrics of the overall score. *)
Definition overall_components (m : OpenAIService.Metrics) : list num :=
  [ OpenAIService.sentimentAnalysis m; OpenAIService.politeness m;
    OpenAIService.clarity m; OpenAIService.engagement m;
    OpenAIService.relevance m ].

(** The three metrics of the CSAT score. *)
Definition csat_components (m : OpenAIService.Metrics) : list num :=
  [ OpenAIService.sentimentAnalysis m; OpenAIService.politeness m;
    OpenAIService.relevance m ].

End Spec.

(** ** The status sequence, in the words of the specification *)

Module Lifecycle.

Import CallController.

(** The state that follows a state in the forward order
    uploaded, transcribing, transcribed, analyzing, analyzed,
    generating-coaching, completed. *)
Definition next (s : Status.t) : option Status.t :=
  match s with
  | Status.uploaded => Some Status.transcribing
  | Status.transcribing => Some Status.transcribed
  | Status.transcribed => Some Status.analyzing
  | Status.analyzing => Some Status.analyzed
  | Status.analyzed => Some Status.generating_coaching
  | Status.generating_coaching => Some Status.completed
  | Status.completed => None
  | Status.error => None
  end.

Definition eqb (a b : Status.t) : bool :=
  match a, b with
  | Status.uploaded, Status.uploaded
  | Status.transcribing, Status.transcribing
  | Status.transcribed, Status.transcribed
  | Status.analyzing, Status.analyzing
  | Status.analyzed, Status.analyzed
  | Status.generating_coaching, Status.generating_coaching
  | Status.completed, Status.completed
  | Status.error, Status.error => true
  | _, _ => false
  end.

(** A transition is allowed when it goes to the next state of the
    forward order, or to [error]. *)
Definition allowed (a b : Status.t) : bool :=
  match b with
  | Status.error => true
  | _ => match next a with
         | Some n => eqb n b
         | None => false
         end
  end.

(** The successive values of [status], from the value [from], make
    allowed transitions only. *)
Fixpoint follows (from : Status.t) (values : list Status.t) : bool :=
  match values with
  | [] => true
  | v :: rest => allowed from v && follows v rest
  end.

End Lifecycle.

(** ** Ranges of the scores *)

Module Ranges.

Import JS.

(** A number that is an integer between [lo] and [hi]. *)
Definition between (lo hi : Z) (n : num) : Prop :=
  exists z, n = Int z /\ lo <= z <= hi.

(** A percentage: an integer from 0 to 100. *)
Definition percentage (n : num) : Prop := between 0 100 n.

(** Every score of a classification lies in [0, 1]. *)
Definition unit_scores (r : OpenAIService.Classification) : Prop :=
  Forall (fun entry => (0 <= snd entry <= 1)%Q) r.

(** The classifiers answer with scores in [0, 1] when they answer. *)
Definition classifiers_in_unit (svc : OpenAIService.Services) : Prop :=
  (forall i s r, OpenAIService.sentimentApi svc i s = Some r -> unit_scores r) /\
  (forall i s r, OpenAIService.toxicityApi svc i s = Some r -> unit_scores r).

End Ranges.

(** ** Scores of the classifiers, by the reply they are read from *)

Module Scores.

Module AI := OpenAIService.

(** A number of the interval [0, 1]. *)
Definition unit (q : Q) : Prop := (0 <= q <= 1)%Q.

(** The object [analyzeSentiment] pushes for a sentence and the reply [r]. *)
Definition sentiment_of (sentence : string) (r : AI.Classification)
  : AI.SentimentScore :=
  AI.mkSentimentScore sentence (AI.score_of "POSITIVE" r)
                      (AI.score_of "NEGATIVE" r).

(** The object [analyzeToxicity] pushes for a sentence and the reply [r]. *)
Definition toxicity_of (sentence : string) (r : AI.Classification)
  : AI.ToxicityScore :=
  AI.mkToxicityScore sentence
    (Some (AI.score_of "toxic" r)) (Some (AI.score_of "hate" r))
    (Some (AI.score_of "obscene" r)) (Some (AI.score_of "threat" r))
    (Some (AI.score_of "insult" r))
    (1 - AI.Math_max5 (AI.score_of "toxic" r) (AI.score_of "hate" r)
                      (AI.score_of "obscene" r) (AI.score_of "threat" r)
                      (AI.score_of "insult" r)).

(** The issues of [identifyIssues], each with the recommendation that
    [generateRecommendations] pushes under the same condition. *)
Definition advice : list (string * string) :=
  [ ("Communication clarity needs improvement",
     "Practice clear, concise communication");
    ("Engagement level could be higher",
     "Expand vocabulary and be more descriptive");
    ("Stay more focused on customer needs",
     "Stay focused on customer issues");
    ("Language politeness needs attention",
     "Use more polite and professional language") ].

End Scores.

(** ** The call controller: the handlers that read a Call *)

Module CallHandlers.

Import JS.
Module AI := OpenAIService.
Module CC := CallController.

(** [req.user]: the fields the handlers read. *)
Record User : Type := mkUser {
  id : string;
  role : string
}.

(** The document [Call.findById] returns: the Call with [call.user.toString()]. *)
Record OwnedCall : Type := mkOwnedCall {
  user : string;
  call : CC.Call
}.

(** [JSON.parse] of a text kept as the value it encodes. *)
Definition JSON_parse {A : Type} (text : CC.json A) : A :=
  match text with CC.JSON_stringify a => a end.

Record ParsedCoachingPlan : Type := mkParsedCoachingPlan {
  generated : bool;
  feedback : option string;
  recommendations : list AI.Recommendation;
  resources : list AI.Resource;
  quiz : list AI.QuizItem;
  completionCriteria : option string
}.

(** The JSON bodies of the two handlers. *)
Inductive Body : Type :=
| Failure (error : string) (status : option CC.Status.t)
| AnalysisData (analysis : option AI.Analysis)
               (transcript : option AI.Transcription) (status : CC.Status.t)
| CoachingData (coachingPlan : ParsedCoachingPlan)
               (analysis : option AI.Analysis) (status : CC.Status.t).

Record Response : Type := mkResponse {
  code : Z;
  body : Body
}.

(** [call.user.toString() !== req.user.id &&
     !['admin', 'supervisor'].includes(req.user.role)] *)
Definition not_authorized (found : OwnedCall) (reqUser : User) : bool :=
  negb (String.eqb (user found) (id reqUser)) &&
  negb (Text.includes ["admin"; "supervisor"] (role reqUser)).

Definition is_analyzed (s : CC.Status.t) : bool :=
  match s with CC.Status.analyzed => true | _ => false end.

(** [getCallAnalysis]; [found] is the result of [Call.findById(req.params.id)]. *)
Definition getCallAnalysis (found : option OwnedCall) (reqUser : User)
  : Response :=
  match found with
  | None => mkResponse 404 (Failure "Call not found" None)
  | Some c =>
      if not_authorized c reqUser then
        mkResponse 403 (Failure "Not authorized to access this call" None)
      else if negb (is_analyzed (CC.status (call c))) then
        mkResponse 400 (Failure "Call analysis not completed yet"
                                (Some (CC.status (call c))))
      else
        mkResponse 200 (AnalysisData (CC.analysis (call c))
                                     (CC.transcript (call c))
                                     (CC.status (call c)))
  end.

(** [stored ? JSON.parse(stored) : []] *)
Definition parse_or_empty {A : Type} (stored : option (CC.json (list A)))
  : list A :=
  match stored with
  | Some text => JSON_parse text
  | None => []
  end.

(** [getCoachingPlan] *)
Definition getCoachingPlan (found : option OwnedCall) (reqUser : User)
  : Response :=
  match found with
  | None => mkResponse 404 (Failure "Call not found" None)
  | Some c =>
      if not_authorized c reqUser then
        mkResponse 403 (Failure "Not authorized to access this call" None)
      else if negb (CC.generated (CC.coachingPlan (call c))) then
        mkResponse 400 (Failure "Coaching plan not generated yet"
                                (Some (CC.status (call c))))
      else
        let stored := CC.coachingPlan (call c) in
        let parsedCoachingPlan :=
          {| generated := CC.generated stored;
             feedback := CC.sp_feedback stored;
             recommendations := parse_or_empty (CC.sp_recommendations stored);
             resources := parse_or_empty (CC.sp_resources stored);
             quiz := parse_or_empty (CC.sp_quiz stored);
             completionCriteria := CC.sp_completionCriteria stored |} in
        mkResponse 200 (CoachingData parsedCoachingPlan
                                     (CC.analysis (call c))
                                     (CC.status (call c)))
  end.

End CallHandlers.

(** ** backend/routes/analysis.js: the analyze and coaching routes *)

Module AnalysisRoutes.

Import JS.
Module AI := OpenAIService.

Inductive Body : Type :=
| Failure (error : string)
| AnalysisData (data : AI.Analysis)
| CoachingData (data : AI.Plan.t).

Record Response : Type := mkResponse {
  code : Z;
  body : Body
}.

(** [!transcript] for a field that is absent or a string. *)
Definition missing (field : option string) : bool :=
  match field with
  | None => true
  | Some EmptyString => true
  | Some _ => false
  end.

(** [router.post('/analyze', ...)]; [transcript] is [req.body.transcript],
    absent or a string. *)
Definition analyze (svc : AI.Services) (transcript : option string) : Response :=
  if missing transcript then
    mkResponse 400 (Failure "Transcript is required")
  else
    match AI.analyzeCall svc transcript with
    | Ok analysis => mkResponse 200 (AnalysisData analysis)
    | Throw error => mkResponse 500 (Failure (err_message error))
    end.

(** [router.post('/coaching', ...)]; [analysis] is [req.body.analysis],
    absent or an object. *)
Definition coaching (svc : AI.Services) (analysis : option AI.Analysis)
  (transcript : option string) : Response :=
  match analysis with
  | None => mkResponse 400 (Failure "Analysis and transcript are required")
  | Some a =>
      if missing transcript then
        mkResponse 400 (Failure "Analysis and transcript are required")
      else
        match AI.generateCoachingPlan svc a transcript with
        | Ok coachingPlan => mkResponse 200 (CoachingData coachingPlan)
        | Throw error => mkResponse 500 (Failure (err_message error))
        end
  end.

End AnalysisRoutes.

(** ** The authentication middleware *)

Module Auth.

Import JS.

Record User : Type := mkUser {
  id : string;
  role : string;
  isActive : bool
}.

(** The outcome of [User.findById]. *)
Inductive Lookup : Type :=
| Found (user : User)
| NotFound
| LookupFails.

Record Env : Type := mkEnv {
  (** [process.env.JWT_SECRET] *)
  JWT_SECRET : option string;
  (** [jwt.verify(token, secret)]: [decoded.id], or [None] when it throws *)
  jwt_verify : string -> string -> option string;
  (** [User.findById(id)] *)
  findById : string -> Lookup
}.

(** What a middleware does with the request: it calls [next], with
    [req.user] as it has set it, or it answers. *)
Inductive Outcome : Type :=
| Next (user : option User)
| Answer (code : Z) (error : string).

(** The token of the [authorization] header: the second piece of the
    header cut at the spaces, when the header starts with [Bearer]. *)
Definition bearer_token (authorization : option string) : option string :=
  match authorization with
  | Some header =>
      if Text.starts_with "Bearer" header
      then nth_error (Text.split_char " " header) 1
      else None
  | None => None
  end.

Definition protect (env : Env) (authorization : option string) : Outcome :=
  let token := bearer_token authorization in
  match token with
  | None => Answer 401 "Not authorized to access this route"
  | Some EmptyString => Answer 401 "Not authorized to access this route"
  | Some tok =>
      let jwtSecret :=
        match JWT_SECRET env with
        | Some s => str_or s "omind_ai_fallback_jwt_secret_2024"
        | None => "omind_ai_fallback_jwt_secret_2024"
        end in
      match jwt_verify env tok jwtSecret with
      | None => Answer 401 "Not authorized to access this route"
      | Some decoded_id =>
          match findById env decoded_id with
          | LookupFails => Answer 401 "Not authorized to access this route"
          | NotFound => Answer 401 "User not found"
          | Found user =>
              if negb (isActive user)
              then Answer 401 "User account is deactivated"
              else Next (Some user)
          end
      end
  end.

(** [authorize(...roles)] *)
Definition authorize (roles : list string) (reqUser : option User) : Outcome :=
  match reqUser with
  | None => Answer 401 "Not authorized to access this route"
  | Some user =>
      if negb (Text.includes roles (role user))
      then Answer 403 ("User role " ++ role user ++
                       " is not authorized to access this route")
      else Next (Some user)
  end.

End Auth.

(** ** The rate limiter middleware *)

Module RateLimiter.

Import JS.

(** [Math.round(rejRes.msBeforeNext / 1000) || 1] *)
Definition retry_seconds (msBeforeNext : num) : num :=
  or_else (Math_round (div msBeforeNext (Int 1000))) (Int 1).

(** [String(n)] for an integer. *)
Definition String_of_integer (z : Z) : string :=
  NilZero.string_of_int (Z.to_int z).

(** [String(secs)] and [`${secs}`], for the integers that [retry_seconds]
    returns. *)
Definition String_of (n : num) : string :=
  match n with
  | NaN => "NaN"
  | Num q => String_of_integer (Qfloor q)
  end.

Record TooManyRequests : Type := mkTooManyRequests {
  Retry_After : string;
  error : string;
  message : string;
  retryAfter : num
}.

Inductive Outcome : Type :=
| Next
| Answer429 (body : TooManyRequests).

(** [rateLimiterMiddleware]; [consumed] is the outcome of
    [rateLimiter.consume(key)]: [None] when it resolves, the
    [msBeforeNext] of the rejection otherwise. *)
Definition rateLimiterMiddleware (consumed : option num) : Outcome :=
  match consumed with
  | None => Next
  | Some msBeforeNext =>
      let secs := retry_seconds msBeforeNext in
      Answer429
        {| Retry_After := String_of secs;
           error := "Too many requests";
           message := "Rate limit exceeded. Try again in " ++ String_of secs ++
                      " seconds.";
           retryAfter := secs |}
  end.

End RateLimiter.

(** ** What a run on one call may change in a world *)

Module Confinement.

Import JS.
Import CallController.

(** The world [w'] comes from [w] by work on the call [k] alone: the other
    documents are the same, the events sent went to the room of [k], the
    status values written are those of [k], the document of [k] is still
    stored with its file, and the clock has not gone back. *)
Record confined (k : CallId) (w w' : World) : Prop := mkConfined {
  others_same : forall k', k' <> k -> db w' k' = db w k';
  events_in_room :
    exists evs,
      emitted w' = (emitted w ++ evs)%list /\
      Forall (fun e => room e = k /\ ev_callId e = k) evs;
  writes_of_call :
    exists values,
      statusWrites w' = (statusWrites w ++ map (pair k) values)%list;
  file_kept :
    forall c, db w k = Some c ->
      exists c', db w' k = Some c' /\
                 filePath c' = filePath c /\ originalName c' = originalName c;
  clock_forward : (ticks w <= ticks w')%nat
}.

(** The computation [m] is confined to the call [k] from every world, and
    its result, when it returns one, satisfies [P]. *)
Definition keeps {A : Type} (k : CallId) (P : A -> Prop) (m : M A) : Prop :=
  forall w,
    confined k w (snd (m w)) /\
    forall a, fst (m w) = Ok a -> P a.

(** A document of the call [k]. *)
Definition of_call (k : CallId) (d : Document) : Prop := doc_id d = k.

(** An update that leaves the file of a Call alone. *)
Definition keeps_file (set : Call -> Call) : Prop :=
  forall c, filePath (set c) = filePath c /\
            originalName (set c) = originalName c.

End Confinement.

(** ** Sample services, documents and worlds *)

Module Samples.

Import JS.
Module AI := OpenAIService.
Module CC := CallController.

(** Every external service is unreachable. *)
Definition all_down : AI.Services :=
  {| AI.whisper := fun _ => AI.SttFail None;
     AI.sentimentApi := fun _ _ => None;
     AI.toxicityApi := fun _ _ => None;
     AI.generationApi := fun _ _ => None |}.

(** Speech-to-text answers; the classifiers and the generator answer too. *)
Definition all_up : AI.Services :=
  {| AI.whisper :=
       fun _ => AI.SttOk (Some "Hello, thank you for calling. How can I help?");
     AI.sentimentApi :=
       fun _ _ => Some [("POSITIVE", 9 # 10); ("NEGATIVE", 1 # 10)];
     AI.toxicityApi := fun _ _ => Some [("toxic", 1 # 100)];
     AI.generationApi := fun _ _ => Some tt |}.

Definition greeting : string := "Hello, thank you for calling. How can I help?".

Definition fresh_call : CC.Call :=
  CC.mkCall "uploads/call.mp3" "call.mp3" 0 CC.Status.uploaded None None
    (CC.mkStoredPlan false None None None None
       (Some "Complete all recommendations and pass the quiz"))
    [] None (CC.mkPerformance None None None None).

Definition store_of (c : CC.Call) : CC.World :=
  CC.mkWorld (fun k => if Nat.eqb k 7 then Some c else None) [] [] 0.

Definition env_of (s : AI.Services) : CC.Env :=
  CC.mkEnv s (fun n => Z.of_nat n) true (fun _ => "Call validation failed").

Definition analysis_scored (score : option num) : AI.Analysis :=
  AI.mkAnalysis score
    (AI.mkMetrics NaN NaN NaN NaN NaN NaN NaN NaN NaN)
    (AI.mkFeedback EmptyString EmptyString EmptyString EmptyString EmptyString
                   EmptyString EmptyString EmptyString EmptyString)
    [] [] [].

(** As [all_up], but the sentiment request for the second sentence fails. *)
Definition flaky : AI.Services :=
  {| AI.whisper :=
       fun _ => AI.SttOk (Some "Hello, thank you for calling. How can I help?");
     AI.sentimentApi :=
       fun i _ => if Nat.eqb i 1 then None
                  else Some [("POSITIVE", 9 # 10); ("NEGATIVE", 1 # 10)];
     AI.toxicityApi := fun _ _ => Some [("toxic", 1 # 100)];
     AI.generationApi := fun _ _ => Some tt |}.



(** Twenty words, thirteen of them customer service keywords. *)
Definition borderline : string :=
  "help help help help help help help help help help help help help a b c d e f g".

Definition agent : Auth.User := Auth.mkUser "u1" "agent" true.

(** One token is valid, under the fallback secret, and names [agent]. *)
Definition auth_env : Auth.Env :=
  Auth.mkEnv None
    (fun token secret =>
       if String.eqb token "good" &&
          String.eqb secret "omind_ai_fallback_jwt_secret_2024"
       then Some "u1" else None)
    (fun id => if String.eqb id "u1" then Auth.Found agent else Auth.NotFound).

End Samples.

(** * Properties *)

Import JS.
Module AI := OpenAIService.
Module CC := CallController.

(** ** The coaching generator *)

Section CoachingGenerator.

Lemma generateCoachingPlanFromAnalysis_Ok (analysis : AI.Analysis)
  (transcript : option string) :
  exists plan, AI.generateCoachingPlanFromAnalysis analysis transcript = Ok plan.
Proof.
  unfold AI.generateCoachingPlanFromAnalysis. cbv zeta.
  unfold AI.Array_isArray. cbn [negb]. eexists. reflexivity.
Qed.

Lemma generateCoachingPlan_local (svc : AI.Services) (analysis : AI.Analysis)
  (transcript : option string) :
  AI.generateCoachingPlan svc analysis transcript =
  AI.generateCoachingPlanFromAnalysis analysis transcript.
Proof.
  unfold AI.generateCoachingPlan, AI.generation_request, try_catch.
  destruct (AI.generationApi svc analysis transcript) as [reply|].
  - destruct (generateCoachingPlanFromAnalysis_Ok analysis transcript) as [p Hp].
    rewrite Hp. reflexivity.
  - reflexivity.
Qed.

(** C5. Whatever the generation service does (answer or fail),
    [generateCoachingPlan] returns exactly the plan computed locally by
    [generateCoachingPlanFromAnalysis], it returns normally, and the
    [recommendations], [resources] and [quiz] of the plan are non-empty
    sequences. *)
Theorem generateCoachingPlan_is_structured_plan :
  forall (svc : AI.Services) (analysis : AI.Analysis) (transcript : option string),
    AI.generateCoachingPlan svc analysis transcript =
      AI.generateCoachingPlanFromAnalysis analysis transcript /\
    exists plan,
      AI.generateCoachingPlan svc analysis transcript = Ok plan /\
      AI.Plan.recommendations plan <> [] /\
      AI.Plan.resources plan <> [] /\
      AI.Plan.quiz plan <> [].
Proof.
  intros svc analysis transcript. split.
  - apply generateCoachingPlan_local.
  - rewrite generateCoachingPlan_local.
    unfold AI.generateCoachingPlanFromAnalysis. cbv zeta.
    unfold AI.Array_isArray. cbn [negb].
    eexists. split; [reflexivity|].
    cbn [AI.Plan.recommendations AI.Plan.resources AI.Plan.quiz].
    repeat split; discriminate.
Qed.

Lemma plan_depends_on_score (a1 a2 : AI.Analysis) (t1 t2 : option string) :
  AI.overallScore a1 = AI.overallScore a2 ->
  AI.generateCoachingPlanFromAnalysis a1 t1 =
  AI.generateCoachingPlanFromAnalysis a2 t2.
Proof.
  intros H. unfold AI.generateCoachingPlanFromAnalysis. rewrite H. reflexivity.
Qed.

(** C9. The plan of [generateCoachingPlanFromAnalysis] is a function of
    [analysis.overallScore] alone: two calls whose analyses have the same
    overall score return the same result, whatever the transcripts and the
    other fields of the analyses.  For all inputs the recommendations (3),
    the resources (2), the quiz (2) and the completion criteria are the same
    constants; the feedback string is the only part that can differ. *)
Theorem coaching_plan_depends_only_on_overallScore :
  forall (a1 a2 : AI.Analysis) (t1 t2 : option string),
    exists p1 p2,
      AI.generateCoachingPlanFromAnalysis a1 t1 = Ok p1 /\
      AI.generateCoachingPlanFromAnalysis a2 t2 = Ok p2 /\
      (AI.overallScore a1 = AI.overallScore a2 -> p1 = p2) /\
      AI.Plan.recommendations p1 = AI.Plan.recommendations p2 /\
      List.length (AI.Plan.recommendations p1) = 3%nat /\
      AI.Plan.resources p1 = AI.Plan.resources p2 /\
      List.length (AI.Plan.resources p1) = 2%nat /\
      AI.Plan.quiz p1 = AI.Plan.quiz p2 /\
      List.length (AI.Plan.quiz p1) = 2%nat /\
      AI.Plan.completionCriteria p1 = AI.Plan.completionCriteria p2.
Proof.
  intros a1 a2 t1 t2.
  destruct (generateCoachingPlanFromAnalysis_Ok a1 t1) as [p1 H1].
  destruct (generateCoachingPlanFromAnalysis_Ok a2 t2) as [p2 H2].
  exists p1, p2. split; [exact H1|]. split; [exact H2|]. split.
  - intros Heq. rewrite (plan_depends_on_score a1 a2 t1 t2 Heq) in H1.
    congruence.
  - unfold AI.generateCoachingPlanFromAnalysis in H1, H2. cbv zeta in H1, H2.
    unfold AI.Array_isArray in H1, H2. cbn [negb] in H1, H2.
    injection H1 as <-. injection H2 as <-.
    cbn [AI.Plan.recommendations AI.Plan.resources AI.Plan.quiz
         AI.Plan.completionCriteria List.length].
    repeat split; reflexivity.
Qed.

Lemma coaching_plan_depends_only_on_overallScore_witness :
  exists p1 p2,
    AI.generateCoachingPlanFromAnalysis
      (AI.analyze Samples.all_down Samples.greeting) (Some Samples.greeting)
      = Ok p1 /\
    AI.generateCoachingPlanFromAnalysis
      (Samples.analysis_scored (Some (Int 63))) None = Ok p2 /\
    p1 = p2.
Proof.
  destruct (coaching_plan_depends_only_on_overallScore
              (AI.analyze Samples.all_down Samples.greeting)
              (Samples.analysis_scored (Some (Int 63)))
              (Some Samples.greeting) None)
    as (p1 & p2 & H1 & H2 & Hsame & _).
  exists p1, p2. split; [exact H1|]. split; [exact H2|].
  apply Hsame. vm_compute. reflexivity.
Defined.

(** C10. An overall score of 0, like an absent one, is replaced by the
    default 75 (it is falsy): the plan is the plan of a score of 75, whose
    feedback is the middle tier, not the lowest one. *)
Theorem zero_overallScore_gets_middle_tier :
  forall (analysis : AI.Analysis) (transcript : option string),
    AI.overallScore analysis = Some (Int 0) \/ AI.overallScore analysis = None ->
    AI.generateCoachingPlanFromAnalysis analysis transcript =
      AI.generateCoachingPlanFromAnalysis
        (Samples.analysis_scored (Some (Int 75))) transcript /\
    exists plan,
      AI.generateCoachingPlanFromAnalysis analysis transcript = Ok plan /\
      AI.Plan.feedback plan =
        "Good performance with specific areas for improvement." /\
      AI.Plan.feedback plan <>
        "Performance needs improvement. Focus on the recommendations below.".
Proof.
  intros analysis transcript H.
  assert (Hgen : AI.generateCoachingPlanFromAnalysis analysis transcript =
                 AI.generateCoachingPlanFromAnalysis
                   (Samples.analysis_scored (Some (Int 75))) transcript).
  { unfold AI.generateCoachingPlanFromAnalysis.
    destruct H as [H | H]; rewrite H; reflexivity. }
  split; [exact Hgen|].
  rewrite Hgen. eexists. split; [reflexivity|].
  cbn [AI.Plan.feedback]. split; [reflexivity | discriminate].
Qed.

Lemma zero_overallScore_gets_middle_tier_witness :
  exists plan,
    AI.generateCoachingPlanFromAnalysis
      (Samples.analysis_scored (Some (Int 0))) (Some Samples.greeting) = Ok plan /\
    AI.Plan.feedback plan =
      "Good performance with specific areas for improvement.".
Proof.
  destruct (zero_overallScore_gets_middle_tier
              (Samples.analysis_scored (Some (Int 0))) (Some Samples.greeting))
    as (_ & plan & H1 & H2 & _).
  - left. reflexivity.
  - exists plan. split; assumption.
Defined.

End CoachingGenerator.

(** ** The scoring engine *)

Section ScoringEngine.

Lemma round_mean_3 (a b c : num) :
  Math_round (div (add (add a b) c) (Int 3)) = Spec.rounded_mean [a; b; c].
Proof.
  unfold Spec.rounded_mean.
  destruct a as [|x]; [cbn; reflexivity|].
  destruct b as [|y]; [cbn; reflexivity|].
  destruct c as [|z]; [cbn; reflexivity|].
  cbn [fold_left List.length]. change (Z.of_nat 3) with 3.
  unfold add, div, Math_round, Int.
  change (Qeq_bool (inject_Z 3) 0) with false. cbv iota.
  do 2 f_equal. apply Qfloor_comp. rewrite Qplus_0_l. reflexivity.
Qed.

Lemma round_mean_5 (a b c d e : num) :
  Math_round (div (add (add (add (add a b) c) d) e) (Int 5)) =
  Spec.rounded_mean [a; b; c; d; e].
Proof.
  unfold Spec.rounded_mean.
  destruct a as [|x]; [cbn; reflexivity|].
  destruct b as [|y]; [cbn; reflexivity|].
  destruct c as [|z]; [cbn; reflexivity|].
  destruct d as [|u]; [cbn; reflexivity|].
  destruct e as [|v]; [cbn; reflexivity|].
  cbn [fold_left List.length]. change (Z.of_nat 5) with 5.
  unfold add, div, Math_round, Int.
  change (Qeq_bool (inject_Z 5) 0) with false. cbv iota.
  do 2 f_equal. apply Qfloor_comp. rewrite Qplus_0_l. reflexivity.
Qed.

Lemma analyzeCall_string (svc : AI.Services) (t : string) :
  AI.analyzeCall svc (Some t) = Ok (AI.analyze svc t).
Proof. reflexivity. Qed.

Lemma analyzeCall_inv (svc : AI.Services) (v : option string) (a : AI.Analysis) :
  AI.analyzeCall svc v = Ok a -> exists t, v = Some t /\ a = AI.analyze svc t.
Proof.
  destruct v as [t|]; cbn; intros H.
  - exists t. split; [reflexivity | congruence].
  - discriminate.
Qed.

(** C2. For every analysis that [analyzeCall] returns, [overallScore] is
    the rounded mean of the five reported metrics sentimentAnalysis,
    politeness, clarity, engagement and relevance; the other four metrics
    do not enter it: two analyses that agree on the five have the same
    overall score. *)
Theorem overallScore_is_rounded_mean_of_five :
  forall (svc : AI.Services) (transcript : option string) (a : AI.Analysis),
    AI.analyzeCall svc transcript = Ok a ->
    AI.overallScore a =
      Some (Spec.rounded_mean (Spec.overall_components (AI.metrics a))) /\
    forall (svc' : AI.Services) (transcript' : option string) (a' : AI.Analysis),
      AI.analyzeCall svc' transcript' = Ok a' ->
      Spec.overall_components (AI.metrics a') =
        Spec.overall_components (AI.metrics a) ->
      AI.overallScore a' = AI.overallScore a.
Proof.
  assert (Heq : forall svc v a, AI.analyzeCall svc v = Ok a ->
            AI.overallScore a =
              Some (Spec.rounded_mean (Spec.overall_components (AI.metrics a)))).
  { intros svc v a H. apply analyzeCall_inv in H. destruct H as (t & -> & ->).
    unfold AI.analyze, Spec.overall_components. cbv zeta.
    cbn [AI.overallScore AI.metrics AI.sentimentAnalysis AI.politeness
         AI.clarity AI.engagement AI.relevance].
    f_equal. apply round_mean_5. }
  intros svc v a H. split; [exact (Heq svc v a H)|].
  intros svc' v' a' H' Hsame.
  rewrite (Heq svc v a H), (Heq svc' v' a' H'), Hsame. reflexivity.
Qed.

Lemma overallScore_is_rounded_mean_of_five_witness :
  AI.overallScore (AI.analyze Samples.all_down Samples.greeting) =
    Some (Spec.rounded_mean [Int 70; Int 80; Int 70; Int 85; Int 11]).
Proof.
  exact (proj1 (overallScore_is_rounded_mean_of_five
                  Samples.all_down (Some Samples.greeting)
                  (AI.analyze Samples.all_down Samples.greeting)
                  (analyzeCall_string _ _))).
Defined.

(** C8. For every analysis that [analyzeCall] returns, the csatScore
    metric is the rounded mean of the reported sentimentAnalysis,
    politeness and relevance metrics. *)
Theorem csatScore_is_rounded_mean_of_three :
  forall (svc : AI.Services) (transcript : option string) (a : AI.Analysis),
    AI.analyzeCall svc transcript = Ok a ->
    AI.csatScore (AI.metrics a) =
      Spec.rounded_mean (Spec.csat_components (AI.metrics a)).
Proof.
  intros svc v a H. apply analyzeCall_inv in H. destruct H as (t & -> & ->).
  unfold AI.analyze, Spec.csat_components. cbv zeta.
  cbn [AI.metrics AI.csatScore AI.sentimentAnalysis AI.politeness AI.relevance].
  apply round_mean_3.
Qed.

Lemma csatScore_is_rounded_mean_of_three_witness :
  AI.csatScore (AI.metrics (AI.analyze Samples.all_down Samples.greeting)) =
    Spec.rounded_mean [Int 70; Int 80; Int 11].
Proof.
  exact (csatScore_is_rounded_mean_of_three
           Samples.all_down (Some Samples.greeting)
           (AI.analyze Samples.all_down Samples.greeting)
           (analyzeCall_string _ _)).
Defined.

(** C6, as the code has it.  [analyzeCall] has no validation of its own: it
    throws exactly when the transcript is not a string (its [split] cannot
    be called); for every string, the empty one included, and whatever the
    sentiment and toxicity services do, it returns an analysis. *)
Theorem analyzeCall_throws_iff_not_a_string :
  forall (svc : AI.Services) (transcript : option string),
    ((exists e, AI.analyzeCall svc transcript = Throw e) <-> transcript = None) /\
    ((exists a, AI.analyzeCall svc transcript = Ok a) <->
     (exists t, transcript = Some t)).
Proof.
  intros svc [t|]; cbn; split; split.
  - intros [e H]. discriminate.
  - discriminate.
  - intros _. exists t. reflexivity.
  - intros _. eexists. reflexivity.
  - reflexivity.
  - intros _. eexists. reflexivity.
  - intros [a H]. discriminate.
  - intros [t H]. discriminate.
Qed.

(** C6, counterexample: the empty transcript does not make [analyzeCall]
    throw; it returns an analysis whose overall score is [NaN]. *)
Lemma analyzeCall_empty_transcript_returns :
  (exists a, AI.analyzeCall Samples.all_down (Some EmptyString) = Ok a /\
             AI.overallScore a = Some NaN) /\
  ~ (exists e, AI.analyzeCall Samples.all_down (Some EmptyString) = Throw e).
Proof.
  split.
  - eexists. split; [reflexivity|]. vm_compute. reflexivity.
  - intros [e H]. discriminate.
Qed.

Lemma sentiment_loop_down (svc : AI.Services) :
  (forall i s, AI.sentimentApi svc i s = None) ->
  forall sentences,
    AI.analyzeSentiment svc sentences = map AI.sentiment_fallback sentences.
Proof.
  intros Hdown [|s rest]; unfold AI.analyzeSentiment; cbn.
  - reflexivity.
  - rewrite Hdown. reflexivity.
Qed.

Lemma toxicity_loop_down (svc : AI.Services) :
  (forall i s, AI.toxicityApi svc i s = None) ->
  forall sentences,
    AI.analyzeToxicity svc sentences = map AI.toxicity_fallback sentences.
Proof.
  intros Hdown [|s rest]; unfold AI.analyzeToxicity; cbn.
  - reflexivity.
  - rewrite Hdown. reflexivity.
Qed.

Lemma fallback_sentiment_is_70 (sentences : list string) :
  sentences <> [] ->
  AI.calculateOverallSentiment
    (map AI.sentiment_fallback (AI.slice_0_3 sentences)) = Int 70.
Proof.
  destruct sentences as [|a [|b [|c rest]]]; intros H;
    [contradiction | reflexivity | reflexivity | reflexivity].
Qed.

Lemma fallback_politeness_is_80 (sentences : list string) :
  sentences <> [] ->
  AI.calculateOverallPoliteness
    (map AI.toxicity_fallback (AI.slice_0_3 sentences)) = Int 80.
Proof.
  destruct sentences as [|a [|b [|c rest]]]; intros H;
    [contradiction | reflexivity | reflexivity | reflexivity].
Qed.

(** One request of the loop fails exactly when the loop gives nothing. *)
Lemma sentiment_loop_None (svc : AI.Services) (sentences : list string) :
  forall i scores,
    AI.sentiment_loop svc i sentences scores = None <->
    exists j s, nth_error sentences j = Some s /\
                AI.sentimentApi svc (i + j) s = None.
Proof.
  induction sentences as [|s0 rest IH]; intros i scores; cbn.
  - split; [discriminate|]. intros ([|j] & s & Hj & _); discriminate.
  - destruct (AI.sentimentApi svc i s0) as [r0|] eqn:Hr0.
    + rewrite IH. split.
      * intros (j & s & Hj & Hs). exists (S j), s. rewrite Nat.add_succ_r.
        split; assumption.
      * intros ([|j] & s & Hj & Hs); cbn in Hj.
        -- injection Hj as <-. rewrite Nat.add_0_r in Hs. congruence.
        -- exists j, s. rewrite Nat.add_succ_r in Hs. split; assumption.
    + split; [|reflexivity]. intros _. exists 0%nat, s0.
      rewrite Nat.add_0_r. split; [reflexivity | exact Hr0].
Qed.

Lemma toxicity_loop_None (svc : AI.Services) (sentences : list string) :
  forall i scores,
    AI.toxicity_loop svc i sentences scores = None <->
    exists j s, nth_error sentences j = Some s /\
                AI.toxicityApi svc (i + j) s = None.
Proof.
  induction sentences as [|s0 rest IH]; intros i scores; cbn.
  - split; [discriminate|]. intros ([|j] & s & Hj & _); discriminate.
  - destruct (AI.toxicityApi svc i s0) as [r0|] eqn:Hr0.
    + rewrite IH. split.
      * intros (j & s & Hj & Hs). exists (S j), s. rewrite Nat.add_succ_r.
        split; assumption.
      * intros ([|j] & s & Hj & Hs); cbn in Hj.
        -- injection Hj as <-. rewrite Nat.add_0_r in Hs. congruence.
        -- exists j, s. rewrite Nat.add_succ_r in Hs. split; assumption.
    + split; [|reflexivity]. intros _. exists 0%nat, s0.
      rewrite Nat.add_0_r. split; [reflexivity | exact Hr0].
Qed.

Lemma sentence_at_position {A : Type} (l : list A) (j : nat) (x : A) :
  nth_error (AI.slice_0_3 l) j = Some x -> l <> [].
Proof. intros H ->. destruct j; discriminate. Qed.

(** C3, as the code has it.  [analyzeCall] returns an analysis for every
    string, whatever the sentiment and toxicity services do.  As soon as
    one sentiment request fails, on any of the sentences sent, every
    per-sentence sentiment score is the fallback (positive 0.7, negative
    0.3), those of the sentences already answered included, and the
    reported sentimentAnalysis is 70; as soon as one toxicity request
    fails, every per-sentence politeness is the fallback 0.8 and the
    reported politeness is 80; each whatever the other service does.  In
    particular, when every request fails and the transcript has at least
    one non-blank sentence, sentimentAnalysis is 70 and politeness is 80. *)
Theorem analyzeCall_falls_back_when_services_fail :
  forall (svc : AI.Services) (transcript : string),
    let sentences := AI.slice_0_3 (AI.sentences_of transcript) in
    exists a,
      AI.analyzeCall svc (Some transcript) = Ok a /\
      ((exists j s, nth_error sentences j = Some s /\
                    AI.sentimentApi svc j s = None) ->
       AI.analyzeSentiment svc sentences = map AI.sentiment_fallback sentences /\
       Forall (fun s => AI.positive s = 7 # 10 /\ AI.negative s = 3 # 10)
              (AI.analyzeSentiment svc sentences) /\
       AI.sentimentAnalysis (AI.metrics a) = Int 70) /\
      ((exists j s, nth_error sentences j = Some s /\
                    AI.toxicityApi svc j s = None) ->
       AI.analyzeToxicity svc sentences = map AI.toxicity_fallback sentences /\
       Forall (fun s => AI.t_politeness s = 8 # 10)
              (AI.analyzeToxicity svc sentences) /\
       AI.politeness (AI.metrics a) = Int 80) /\
      ((forall i s, AI.sentimentApi svc i s = None) ->
       (forall i s, AI.toxicityApi svc i s = None) ->
       AI.sentences_of transcript <> [] ->
       AI.sentimentAnalysis (AI.metrics a) = Int 70 /\
       AI.politeness (AI.metrics a) = Int 80).
Proof.
  intros svc t sentences. exists (AI.analyze svc t).
  split; [reflexivity|].
  assert (Hsentiment :
            (exists j s, nth_error sentences j = Some s /\
                         AI.sentimentApi svc j s = None) ->
            AI.analyzeSentiment svc sentences =
              map AI.sentiment_fallback sentences).
  { intros Hfail. unfold AI.analyzeSentiment.
    rewrite (proj2 (sentiment_loop_None svc sentences 0 [])); [reflexivity|].
    exact Hfail. }
  assert (Htoxicity :
            (exists j s, nth_error sentences j = Some s /\
                         AI.toxicityApi svc j s = None) ->
            AI.analyzeToxicity svc sentences =
              map AI.toxicity_fallback sentences).
  { intros Hfail. unfold AI.analyzeToxicity.
    rewrite (proj2 (toxicity_loop_None svc sentences 0 [])); [reflexivity|].
    exact Hfail. }
  split; [|split].
  - intros Hfail. rewrite (Hsentiment Hfail).
    split; [reflexivity|]. split.
    + apply Forall_forall. intros x Hx. apply in_map_iff in Hx.
      destruct Hx as (s & <- & _). split; reflexivity.
    + unfold AI.analyze. cbv zeta. cbn [AI.metrics AI.sentimentAnalysis].
      fold sentences. rewrite (Hsentiment Hfail).
      destruct Hfail as (j & s & Hj & _).
      apply fallback_sentiment_is_70.
      exact (sentence_at_position _ _ _ Hj).
  - intros Hfail. rewrite (Htoxicity Hfail).
    split; [reflexivity|]. split.
    + apply Forall_forall. intros x Hx. apply in_map_iff in Hx.
      destruct Hx as (s & <- & _). reflexivity.
    + unfold AI.analyze. cbv zeta. cbn [AI.metrics AI.politeness].
      fold sentences. rewrite (Htoxicity Hfail).
      destruct Hfail as (j & s & Hj & _).
      apply fallback_politeness_is_80.
      exact (sentence_at_position _ _ _ Hj).
  - intros Hs Ht Hne. unfold AI.analyze. cbv zeta.
    cbn [AI.metrics AI.sentimentAnalysis AI.politeness].
    rewrite (sentiment_loop_down svc Hs), (toxicity_loop_down svc Ht).
    split.
    + apply fallback_sentiment_is_70. exact Hne.
    + apply fallback_politeness_is_80. exact Hne.
Qed.

(** One sentiment request fails, on the second sentence, after the first
    has been answered; the toxicity service answers. *)
Lemma analyzeCall_falls_back_when_services_fail_witness :
  AI.sentimentApi Samples.flaky 0 "Hello, thank you for calling" <> None /\
  AI.sentimentApi Samples.flaky 1 " How can I help" = None /\
  exists a,
    AI.analyzeCall Samples.flaky (Some Samples.greeting) = Ok a /\
    AI.sentimentAnalysis (AI.metrics a) = Int 70 /\
    AI.politeness (AI.metrics a) = Int 99.
Proof.
  split; [discriminate|]. split; [reflexivity|].
  destruct (analyzeCall_falls_back_when_services_fail
              Samples.flaky Samples.greeting)
    as (a & Ha & Hsentiment & _ & _).
  exists a. split; [exact Ha|]. split.
  - apply Hsentiment. exists 1%nat, " How can I help".
    split; reflexivity.
  - injection Ha as <-. vm_compute. reflexivity.
Defined.

(** C3, counterexample: with every external request failing, the
    non-empty transcript "." (no sentence in it) is analysed without an
    exception, but its sentimentAnalysis and politeness are [NaN], not 70
    and 80. *)
Lemma fallback_scores_NaN_without_sentence :
  "." <> EmptyString /\
  (forall i s, AI.sentimentApi Samples.all_down i s = None) /\
  (forall i s, AI.toxicityApi Samples.all_down i s = None) /\
  exists a,
    AI.analyzeCall Samples.all_down (Some ".") = Ok a /\
    AI.sentimentAnalysis (AI.metrics a) = NaN /\
    AI.politeness (AI.metrics a) = NaN /\
    AI.sentimentAnalysis (AI.metrics a) <> Int 70 /\
    AI.politeness (AI.metrics a) <> Int 80.
Proof.
  split; [discriminate|]. split; [reflexivity|]. split; [reflexivity|].
  eexists. split; [reflexivity|].
  repeat split; try (vm_compute; reflexivity); vm_compute; discriminate.
Qed.

End ScoringEngine.

(** ** The pipeline orchestrator *)

Section Pipeline.

Variable env : CC.Env.

(** *** One step of a run *)

Lemma upd_same m k v : CC.upd m k v k = Some v.
Proof. unfold CC.upd. rewrite Nat.eqb_refl. reflexivity. Qed.

Lemma bind_ok {A B : Type} (m : CC.M A) (k : A -> CC.M B) w a w' :
  m w = (Ok a, w') -> CC.bind m k w = k a w'.
Proof. intros H. unfold CC.bind. rewrite H. reflexivity. Qed.

Lemma bind_throw {A B : Type} (m : CC.M A) (k : A -> CC.M B) w e w' :
  m w = (Throw e, w') -> CC.bind m k w = (Throw e, w').
Proof. intros H. unfold CC.bind. rewrite H. reflexivity. Qed.

Lemma bind_assoc {A B C : Type} (m : CC.M A) (f : A -> CC.M B)
  (g : B -> CC.M C) w :
  CC.bind (CC.bind m f) g w = CC.bind m (fun a => CC.bind (f a) g) w.
Proof. unfold CC.bind. destruct (m w) as [[a|e] w']; reflexivity. Qed.

Lemma bind_now {B : Type} (k : Z -> CC.M B) w :
  CC.bind (CC.now env) k w = k (CC.clock env (CC.ticks w)) (CC.tick w).
Proof. reflexivity. Qed.

Lemma bind_emit {B : Type} (k : unit -> CC.M B) e w :
  CC.bind (CC.emit env e) k w =
  k tt (if CC.global_io env then CC.publish e w else w).
Proof. reflexivity. Qed.

Lemma bind_ret {A B : Type} (a : A) (k : A -> CC.M B) w :
  CC.bind (CC.ret a) k w = k a w.
Proof. reflexivity. Qed.

Lemma bind_findById {B : Type} (k : option CC.Document -> CC.M B) callId w c :
  CC.db w callId = Some c ->
  CC.bind (CC.findById callId) k w = k (Some (CC.mkDocument callId c [])) w.
Proof. intros H. unfold CC.bind, CC.findById. rewrite H. reflexivity. Qed.

(** A [save] that the validation lets through. *)
Lemma save_stored d w stored :
  CC.Schema.valid (CC.doc d) = true ->
  CC.db w (CC.doc_id d) = Some stored ->
  CC.save env d w =
  (Ok (CC.mkDocument (CC.doc_id d) (CC.doc d) []),
   CC.store (CC.doc_id d)
            (fold_left (CC.write_path (CC.doc d)) (CC.modified d) stored)
            (if existsb CC.is_PStatus (CC.modified d)
             then [CC.status (CC.doc d)] else [])
            w).
Proof. intros Hv H. unfold CC.save. rewrite Hv, H. reflexivity. Qed.

(** A [save] that the validation refuses: nothing is written. *)
Lemma save_refused d w :
  CC.Schema.valid (CC.doc d) = false ->
  CC.save env d w = (Throw (CC.ValidationError env (CC.doc d)), w).
Proof. intros Hv. unfold CC.save. rewrite Hv. reflexivity. Qed.

Lemma bind_save {B : Type} (k : CC.Document -> CC.M B) d w stored :
  CC.Schema.valid (CC.doc d) = true ->
  CC.db w (CC.doc_id d) = Some stored ->
  CC.bind (CC.save env d) k w =
  k (CC.mkDocument (CC.doc_id d) (CC.doc d) [])
    (CC.store (CC.doc_id d)
              (fold_left (CC.write_path (CC.doc d)) (CC.modified d) stored)
              (if existsb CC.is_PStatus (CC.modified d)
               then [CC.status (CC.doc d)] else [])
              w).
Proof. intros Hv H. apply bind_ok. apply save_stored; assumption. Qed.

Lemma bind_updateOne {B : Type} (k : unit -> CC.M B) callId set newStatus w stored :
  CC.db w callId = Some stored ->
  CC.bind (CC.updateOne callId set newStatus) k w =
  k tt (CC.store callId (set stored)
                 match newStatus with Some s => [s] | None => [] end w).
Proof. intros H. unfold CC.bind, CC.updateOne. rewrite H. reflexivity. Qed.

(** The validation looks at the history and at the analysis only. *)
Lemma valid_history_snoc hi step status message timestamp duration error :
  forallb CC.Schema.valid_entry hi = true ->
  Text.includes CC.Schema.steps step = true ->
  forallb CC.Schema.valid_entry
    (hi ++ [CC.mkHistoryEntry step status message timestamp duration error]) =
  true.
Proof.
  intros Hhi Hstep. rewrite forallb_app, Hhi. cbn [forallb andb].
  unfold CC.Schema.valid_entry. cbn [CC.step]. rewrite Hstep. reflexivity.
Qed.

Lemma invalid_history_snoc hi step status message timestamp duration error :
  Text.includes CC.Schema.steps step = false ->
  forallb CC.Schema.valid_entry
    (hi ++ [CC.mkHistoryEntry step status message timestamp duration error]) =
  false.
Proof.
  intros Hstep. rewrite forallb_app. cbn [forallb].
  unfold CC.Schema.valid_entry at 2. cbn [CC.step]. rewrite Hstep.
  cbn [andb]. apply andb_false_r.
Qed.

Lemma valid_parts (c : CC.Call) :
  CC.Schema.valid c = true ->
  forallb CC.Schema.valid_entry (CC.processingHistory c) = true /\
  match CC.analysis c with
  | Some a => CC.Schema.valid_analysis a
  | None => true
  end = true.
Proof. intros H. apply andb_prop in H. exact H. Qed.

(** [addProcessingStep] with a step of the schema and a status other than
    [failed]: one reading of the clock and one write, of the history
    alone. *)
Lemma addProcessingStep_progress d step status message duration w stored :
  status <> CC.Step.failed ->
  CC.modified d = [] ->
  Text.includes CC.Schema.steps step = true ->
  CC.Schema.valid (CC.doc d) = true ->
  CC.db w (CC.doc_id d) = Some stored ->
  CC.addProcessingStep env d step status message duration None w =
  (Ok (CC.mkDocument (CC.doc_id d)
         (CC.set_processingHistory
            (CC.processingHistory (CC.doc d) ++
             [CC.mkHistoryEntry step status message (CC.clock env (CC.ticks w))
                                duration None])
            (CC.doc d))
         []),
   CC.store (CC.doc_id d)
     (CC.set_processingHistory
        (CC.processingHistory (CC.doc d) ++
         [CC.mkHistoryEntry step status message (CC.clock env (CC.ticks w))
                            duration None])
        stored)
     [] (CC.tick w)).
Proof.
  intros Hst Hmod Hstep Hvalid Hdb. unfold CC.addProcessingStep.
  rewrite bind_now. cbv beta.
  destruct (valid_parts _ Hvalid) as [Hhi Han].
  assert (Hnew : forall ts,
            CC.Schema.valid
              (CC.set_processingHistory
                 (CC.processingHistory (CC.doc d) ++
                  [CC.mkHistoryEntry step status message ts duration None])
                 (CC.doc d)) = true).
  { intros ts. unfold CC.Schema.valid, CC.set_processingHistory.
    cbn [CC.processingHistory CC.analysis].
    rewrite (valid_history_snoc _ _ _ _ _ _ _ Hhi Hstep), Han. reflexivity. }
  destruct status; try contradiction; rewrite bind_ret;
    (erewrite save_stored;
       [ | unfold CC.assign; cbn [CC.doc]; apply Hnew
         | unfold CC.assign; cbn [CC.doc_id CC.tick CC.db]; exact Hdb ]);
    unfold CC.assign; cbn [CC.doc_id CC.doc CC.modified]; rewrite Hmod;
    reflexivity.
Qed.

Lemma bind_addProcessingStep {B : Type} (k : CC.Document -> CC.M B)
  d step status message duration w stored :
  status <> CC.Step.failed ->
  CC.modified d = [] ->
  Text.includes CC.Schema.steps step = true ->
  CC.Schema.valid (CC.doc d) = true ->
  CC.db w (CC.doc_id d) = Some stored ->
  CC.bind (CC.addProcessingStep env d step status message duration None) k w =
  k (CC.mkDocument (CC.doc_id d)
       (CC.set_processingHistory
          (CC.processingHistory (CC.doc d) ++
           [CC.mkHistoryEntry step status message (CC.clock env (CC.ticks w))
                              duration None])
          (CC.doc d))
       [])
    (CC.store (CC.doc_id d)
       (CC.set_processingHistory
          (CC.processingHistory (CC.doc d) ++
           [CC.mkHistoryEntry step status message (CC.clock env (CC.ticks w))
                              duration None])
          stored)
       [] (CC.tick w)).
Proof.
  intros Hst Hmod Hstep Hvalid Hdb. apply bind_ok.
  apply addProcessingStep_progress; assumption.
Qed.

(** [addProcessingStep] for a [failed] step that is not in the enumeration
    of the schema: the entry is pushed and the [error] field assigned in
    memory, the clock is read twice, and the [save] is refused. *)
Lemma addProcessingStep_failed_refused d step message duration err w :
  Text.includes CC.Schema.steps step = false ->
  CC.addProcessingStep env d step CC.Step.failed message duration (Some err) w =
  (Throw
     (CC.ValidationError env
        (CC.set_error
           (Some (CC.mkCallError
                    (str_or (err_message err) message)
                    match err_code err with
                    | Some c => str_or c "PROCESSING_ERROR"
                    | None => "PROCESSING_ERROR"
                    end
                    (CC.clock env (S (CC.ticks w))) step None))
           (CC.set_processingHistory
              (CC.processingHistory (CC.doc d) ++
               [CC.mkHistoryEntry step CC.Step.failed message
                  (CC.clock env (CC.ticks w)) duration (Some err)])
              (CC.doc d)))),
   CC.tick (CC.tick w)).
Proof.
  intros Hstep.
  unfold CC.addProcessingStep, CC.bind, CC.now, CC.ret. cbv beta iota.
  rewrite save_refused.
  - unfold CC.assign. cbn [CC.doc_id CC.doc CC.modified CC.tick CC.ticks].
    destruct err as [msg [code|] stack]; reflexivity.
  - unfold CC.assign. cbn [CC.doc]. unfold CC.Schema.valid, CC.set_error,
      CC.set_processingHistory. cbn [CC.processingHistory CC.analysis].
    rewrite (invalid_history_snoc _ _ _ _ _ _ _ Hstep). reflexivity.
Qed.

Ltac side Hdb :=
  cbn [CC.doc_id CC.doc CC.modified CC.db];
  first [exact Hdb | apply upd_same].

Ltac tidy :=
  cbv beta iota zeta;
  unfold CC.assign, CC.tick, CC.publish, CC.store;
  cbn [CC.doc_id CC.doc CC.modified fold_left app existsb orb CC.is_PStatus
       CC.write_path CC.db CC.emitted CC.statusWrites CC.ticks map];
  unfold CC.set_status, CC.set_transcript, CC.set_duration, CC.set_analysis,
    CC.set_coachingPlan, CC.set_processingHistory, CC.set_error,
    CC.set_performance, CC.set_transcriptionTime, CC.set_analysisTime;
  cbn [CC.filePath CC.originalName CC.duration CC.status CC.transcript
       CC.analysis CC.coachingPlan CC.processingHistory CC.error
       CC.performance CC.processingTime CC.transcriptionTime CC.analysisTime
       CC.coachingTime].

(** The document in memory passes the validation: its history is the
    valid history [Hhi] with entries of the schema appended, its analysis
    is the one of [Han] or of [Hva]. *)
Ltac validity :=
  cbn [CC.doc]; unfold CC.Schema.valid;
  cbn [CC.processingHistory CC.analysis];
  apply andb_true_intro; split;
  [ repeat (apply valid_history_snoc; [ | reflexivity ]); assumption
  | assumption ].

Lemma emit_explicit (io : bool) dbf em sw tk (e : CC.Event) :
  (if io then CC.mkWorld dbf (em ++ [e]) sw tk else CC.mkWorld dbf em sw tk) =
  CC.mkWorld dbf (em ++ if io then [e] else []) sw tk.
Proof. destruct io; [reflexivity | rewrite app_nil_r; reflexivity]. Qed.

Ltac finish :=
  cbn [CC.db CC.statusWrites CC.emitted CC.ticks];
  rewrite ?upd_same, ?app_nil_r, <- ?app_assoc; cbn [app map].

Ltac step Hdb :=
  first
    [ rewrite bind_assoc
    | rewrite bind_now
    | rewrite bind_emit; tidy; rewrite emit_explicit
    | rewrite bind_ret
    | erewrite bind_findById by side Hdb
    | erewrite bind_save; [ | validity | side Hdb ]
    | erewrite bind_updateOne by side Hdb
    | erewrite bind_addProcessingStep;
        [ | discriminate | reflexivity | reflexivity | validity | side Hdb ] ];
  tidy.

Ltac last_emit := unfold CC.emit; tidy; rewrite emit_explicit.

(** The [catch] block on a stored Call: its first write holds a history
    entry whose step, [error], is not a step of the schema, so the [save]
    of [addProcessingStep] is refused.  The block throws the validation
    error; it stores nothing, writes no status and sends nothing. *)
Lemma on_failure_refused (callId : CC.CallId) (w : CC.World) (c : CC.Call)
  (e : Error) :
  CC.db w callId = Some c ->
  exists refused,
    CC.on_failure env callId e w =
      (Throw (CC.ValidationError env refused), CC.tick (CC.tick w)) /\
    CC.Schema.valid refused = false /\
    CC.processingHistory refused =
      (CC.processingHistory c ++
       [CC.mkHistoryEntry "error" CC.Step.failed (err_message e)
          (CC.clock env (CC.ticks w)) 0 (Some e)])%list.
Proof.
  intros Hdb. unfold CC.on_failure.
  erewrite bind_findById by exact Hdb. cbv beta iota.
  rewrite bind_assoc.
  erewrite bind_throw
    by (apply addProcessingStep_failed_refused; reflexivity).
  eexists. split; [reflexivity|]. split; [|reflexivity].
  unfold CC.Schema.valid, CC.set_error, CC.set_processingHistory.
  cbn [CC.doc CC.processingHistory CC.analysis].
  rewrite invalid_history_snoc by reflexivity. reflexivity.
Qed.

(** The run up to the speech-to-text request, when that request fails. *)
Lemma pipeline_transcription_fails (callId : CC.CallId) (w : CC.World)
  (c : CC.Call) (httpStatus : option Z) (startTime : Z) :
  CC.db w callId = Some c ->
  CC.Schema.valid c = true ->
  AI.whisper (CC.svc env) (CC.filePath c) = AI.SttFail httpStatus ->
  exists W e history events,
    CC.pipeline env callId startTime w = (Throw e, W) /\
    AI.transcribeAudio (CC.svc env) (CC.filePath c) = Throw e /\
    CC.db W callId =
      Some (CC.mkCall (CC.filePath c) (CC.originalName c) (CC.duration c)
              CC.Status.transcribing (CC.transcript c) (CC.analysis c)
              (CC.coachingPlan c) (CC.processingHistory c ++ history)%list
              (CC.error c) (CC.performance c)) /\
    map (fun h => (CC.step h, CC.h_status h, CC.h_error h)) history =
      [ ("upload", CC.Step.completed, None);
        ("transcribe", CC.Step.started, None) ] /\
    CC.statusWrites W =
      (CC.statusWrites w ++ [(callId, CC.Status.transcribing)])%list /\
    CC.emitted W = (CC.emitted w ++ events)%list /\
    map CC.ev_status events =
      (if CC.global_io env
       then [ CC.Status.uploaded; CC.Status.transcribing ] else []) /\
    (forall k, k <> callId -> CC.db W k = CC.db w k).
Proof.
  intros Hdb Hvalid Hw. unfold CC.pipeline.
  destruct (valid_parts _ Hvalid) as [Hhi Han].
  destruct w as [dbf em sw tk]. cbn [CC.db CC.ticks CC.statusWrites CC.emitted] in *.
  destruct c as [fp on du st tr an cp hi er pf].
  cbn [CC.filePath CC.processingHistory CC.analysis] in *.
  repeat step Hdb.
  unfold CC.lift at 1, AI.transcribeAudio. rewrite Hw.
  erewrite bind_throw by reflexivity.
  do 4 eexists. split; [reflexivity|]. split; [reflexivity|].
  cbn [CC.db CC.statusWrites CC.emitted].
  rewrite upd_same, <- ?app_assoc. cbn [app].
  split; [reflexivity|]. split; [reflexivity|]. split; [reflexivity|].
  split; [reflexivity|]. split.
  - destruct (CC.global_io env); reflexivity.
  - intros k Hk. unfold CC.upd. apply Nat.eqb_neq in Hk. rewrite Hk. reflexivity.
Qed.

(** The [try] block, when the speech-to-text reply has no text: the
    analysis throws. *)
Lemma pipeline_analysis_fails (callId : CC.CallId) (w : CC.World) (c : CC.Call)
  (startTime : Z) :
  CC.db w callId = Some c ->
  CC.Schema.valid c = true ->
  AI.whisper (CC.svc env) (CC.filePath c) = AI.SttOk None ->
  exists W e transcription history transcriptionTime events,
    CC.pipeline env callId startTime w = (Throw e, W) /\
    AI.analyzeCall (CC.svc env) None = Throw e /\
    AI.transcribeAudio (CC.svc env) (CC.filePath c) = Ok transcription /\
    CC.db W callId =
      Some (CC.mkCall (CC.filePath c) (CC.originalName c) 45
              CC.Status.analyzing (Some transcription) (CC.analysis c)
              (CC.coachingPlan c) (CC.processingHistory c ++ history)%list
              (CC.error c)
              (CC.mkPerformance (CC.processingTime (CC.performance c))
                 (Some transcriptionTime)
                 (CC.analysisTime (CC.performance c))
                 (CC.coachingTime (CC.performance c)))) /\
    map (fun h => (CC.step h, CC.h_status h, CC.h_error h)) history =
      [ ("upload", CC.Step.completed, None);
        ("transcribe", CC.Step.started, None);
        ("transcribe", CC.Step.completed, None);
        ("analyze", CC.Step.started, None) ] /\
    CC.statusWrites W =
      (CC.statusWrites w ++
       map (pair callId)
           [ CC.Status.transcribing; CC.Status.transcribed;
             CC.Status.analyzing ])%list /\
    CC.emitted W = (CC.emitted w ++ events)%list /\
    map CC.ev_status events =
      (if CC.global_io env
       then [ CC.Status.uploaded; CC.Status.transcribing;
              CC.Status.transcribed; CC.Status.analyzing ] else []) /\
    (forall k, k <> callId -> CC.db W k = CC.db w k).
Proof.
  intros Hdb Hvalid Hw. unfold CC.pipeline.
  destruct (valid_parts _ Hvalid) as [Hhi Han].
  destruct w as [dbf em sw tk]. cbn [CC.db CC.ticks CC.statusWrites CC.emitted] in *.
  destruct c as [fp on du st tr an cp hi er pf].
  cbn [CC.filePath CC.processingHistory CC.analysis] in *.
  repeat step Hdb.
  unfold CC.lift at 1, AI.transcribeAudio. rewrite Hw.
  rewrite (bind_ok _ _ _ _ _ eq_refl). tidy.
  repeat step Hdb.
  cbn [AI.text]. unfold CC.lift at 1.
  erewrite bind_throw by reflexivity.
  do 6 eexists. split; [reflexivity|]. split; [reflexivity|].
  split; [reflexivity|].
  cbn [CC.db CC.statusWrites CC.emitted].
  rewrite upd_same, <- ?app_assoc. cbn [app].
  split; [reflexivity|]. split; [reflexivity|]. split; [reflexivity|].
  split; [reflexivity|]. split.
  - destruct (CC.global_io env); reflexivity.
  - intros k Hk. unfold CC.upd. apply Nat.eqb_neq in Hk. rewrite Hk. reflexivity.
Qed.

(** The [try] block, when the analysis of the text does not pass the
    schema (a score that is NaN or outside 0..100): the [save] of the
    analysis is refused, and the stored Call is left at [analyzing]. *)
Lemma pipeline_analysis_refused (callId : CC.CallId) (w : CC.World)
  (c : CC.Call) (t : string) (startTime : Z) :
  CC.db w callId = Some c ->
  CC.Schema.valid c = true ->
  AI.whisper (CC.svc env) (CC.filePath c) = AI.SttOk (Some t) ->
  CC.Schema.valid_analysis (AI.analyze (CC.svc env) t) = false ->
  exists W refused transcription history transcriptionTime events,
    CC.pipeline env callId startTime w =
      (Throw (CC.ValidationError env refused), W) /\
    CC.analysis refused = Some (AI.analyze (CC.svc env) t) /\
    AI.transcribeAudio (CC.svc env) (CC.filePath c) = Ok transcription /\
    CC.db W callId =
      Some (CC.mkCall (CC.filePath c) (CC.originalName c) 45
              CC.Status.analyzing (Some transcription) (CC.analysis c)
              (CC.coachingPlan c) (CC.processingHistory c ++ history)%list
              (CC.error c)
              (CC.mkPerformance (CC.processingTime (CC.performance c))
                 (Some transcriptionTime)
                 (CC.analysisTime (CC.performance c))
                 (CC.coachingTime (CC.performance c)))) /\
    map (fun h => (CC.step h, CC.h_status h, CC.h_error h)) history =
      [ ("upload", CC.Step.completed, None);
        ("transcribe", CC.Step.started, None);
        ("transcribe", CC.Step.completed, None);
        ("analyze", CC.Step.started, None) ] /\
    CC.statusWrites W =
      (CC.statusWrites w ++
       map (pair callId)
           [ CC.Status.transcribing; CC.Status.transcribed;
             CC.Status.analyzing ])%list /\
    CC.emitted W = (CC.emitted w ++ events)%list /\
    map CC.ev_status events =
      (if CC.global_io env
       then [ CC.Status.uploaded; CC.Status.transcribing;
              CC.Status.transcribed; CC.Status.analyzing ] else []) /\
    (forall k, k <> callId -> CC.db W k = CC.db w k).
Proof.
  intros Hdb Hvalid Hw Hva. unfold CC.pipeline.
  destruct (valid_parts _ Hvalid) as [Hhi Han].
  destruct w as [dbf em sw tk]. cbn [CC.db CC.ticks CC.statusWrites CC.emitted] in *.
  destruct c as [fp on du st tr an cp hi er pf].
  cbn [CC.filePath CC.processingHistory CC.analysis] in *.
  repeat step Hdb.
  unfold CC.lift at 1, AI.transcribeAudio. rewrite Hw.
  rewrite (bind_ok _ _ _ _ _ eq_refl). tidy.
  repeat step Hdb.
  cbn [AI.text]. unfold CC.lift at 1. rewrite analyzeCall_string.
  rewrite (bind_ok _ _ _ _ _ eq_refl). tidy.
  rewrite bind_now. tidy.
  erewrite bind_throw;
    [ | apply save_refused; cbn [CC.doc]; unfold CC.Schema.valid;
        cbn [CC.processingHistory CC.analysis]; rewrite Hva;
        apply andb_false_r ].
  do 6 eexists. split; [reflexivity|]. split; [reflexivity|].
  split; [reflexivity|].
  cbn [CC.db CC.statusWrites CC.emitted].
  rewrite upd_same, <- ?app_assoc. cbn [app].
  split; [reflexivity|]. split; [reflexivity|]. split; [reflexivity|].
  split; [reflexivity|]. split.
  - destruct (CC.global_io env); reflexivity.
  - intros k Hk. unfold CC.upd. apply Nat.eqb_neq in Hk. rewrite Hk. reflexivity.
Qed.

(** The whole [try] block, when speech-to-text returns a text whose
    analysis passes the schema. *)
Lemma pipeline_succeeds (callId : CC.CallId) (w : CC.World) (c : CC.Call)
  (t : string) (startTime : Z) :
  CC.db w callId = Some c ->
  CC.Schema.valid c = true ->
  AI.whisper (CC.svc env) (CC.filePath c) = AI.SttOk (Some t) ->
  CC.Schema.valid_analysis (AI.analyze (CC.svc env) t) = true ->
  exists W transcription plan history times events,
    CC.pipeline env callId startTime w = (Ok tt, W) /\
    AI.transcribeAudio (CC.svc env) (CC.filePath c) = Ok transcription /\
    AI.generateCoachingPlanFromAnalysis (AI.analyze (CC.svc env) t) (Some t) =
      Ok plan /\
    CC.db W callId =
      Some (CC.mkCall (CC.filePath c) (CC.originalName c) 45
              CC.Status.completed (Some transcription)
              (Some (AI.analyze (CC.svc env) t))
              (CC.mkStoredPlan true (Some (AI.Plan.feedback plan))
                 (Some (CC.JSON_stringify (AI.Plan.recommendations plan)))
                 (Some (CC.JSON_stringify (AI.Plan.resources plan)))
                 (Some (CC.JSON_stringify (AI.Plan.quiz plan)))
                 (Some (AI.Plan.completionCriteria plan)))
              (CC.processingHistory c ++ history)%list
              (CC.error c) times) /\
    map (fun h => (CC.step h, CC.h_status h, CC.h_error h)) history =
      [ ("upload", CC.Step.completed, None);
        ("transcribe", CC.Step.started, None);
        ("transcribe", CC.Step.completed, None);
        ("analyze", CC.Step.started, None);
        ("analyze", CC.Step.completed, None);
        ("coaching", CC.Step.started, None);
        ("coaching", CC.Step.completed, None) ] /\
    (CC.processingTime times <> None /\ CC.transcriptionTime times <> None /\
     CC.analysisTime times <> None /\ CC.coachingTime times <> None) /\
    CC.statusWrites W =
      (CC.statusWrites w ++
       map (pair callId)
           [ CC.Status.transcribing; CC.Status.transcribed;
             CC.Status.analyzing; CC.Status.analyzed; CC.Status.completed ])%list /\
    CC.emitted W = (CC.emitted w ++ events)%list /\
    map CC.ev_status events =
      (if CC.global_io env
       then [ CC.Status.uploaded; CC.Status.transcribing; CC.Status.transcribed;
              CC.Status.analyzing; CC.Status.analyzed;
              CC.Status.generating_coaching; CC.Status.completed ]
       else []) /\
    (forall k, k <> callId -> CC.db W k = CC.db w k).
Proof.
  intros Hdb Hvalid Hw Hva. unfold CC.pipeline.
  destruct (valid_parts _ Hvalid) as [Hhi Han].
  destruct w as [dbf em sw tk]. cbn [CC.db CC.ticks CC.statusWrites CC.emitted] in *.
  destruct c as [fp on du st tr an cp hi er pf].
  cbn [CC.filePath CC.processingHistory CC.analysis] in *.
  destruct (AI.generateCoachingPlanFromAnalysis
              (AI.analyze (CC.svc env) t) (Some t)) as [plan|] eqn:Hplan;
    [| destruct (generateCoachingPlanFromAnalysis_Ok
                   (AI.analyze (CC.svc env) t) (Some t)) as [p Hp];
       rewrite Hp in Hplan; discriminate ].
  repeat step Hdb.
  unfold CC.lift at 1, AI.transcribeAudio. rewrite Hw.
  rewrite (bind_ok _ _ _ _ _ eq_refl). tidy.
  repeat step Hdb.
  cbn [AI.text]. unfold CC.lift at 1. rewrite analyzeCall_string.
  rewrite (bind_ok _ _ _ _ _ eq_refl). tidy.
  repeat step Hdb.
  unfold CC.lift at 1. rewrite generateCoachingPlan_local, Hplan.
  rewrite (bind_ok _ _ _ _ _ eq_refl). tidy.
  repeat step Hdb. last_emit.
  do 6 eexists. split; [reflexivity|]. split; [reflexivity|].
  split; [reflexivity|].
  cbn [CC.db CC.statusWrites CC.emitted].
  rewrite !upd_same, <- ?app_assoc. cbn [app].
  split; [reflexivity|]. split; [reflexivity|].
  split.
  { cbn [CC.processingTime CC.transcriptionTime CC.analysisTime CC.coachingTime].
    repeat split; discriminate. }
  split; [reflexivity|]. split; [reflexivity|]. split.
  - destruct (CC.global_io env); reflexivity.
  - intros k Hk. unfold CC.upd. apply Nat.eqb_neq in Hk. rewrite Hk. reflexivity.
Qed.

(** The [try] block on a stored Call that does not pass the schema: its
    first [save] is refused. *)
Lemma pipeline_invalid_start (callId : CC.CallId) (w : CC.World)
  (c : CC.Call) (startTime : Z) :
  CC.db w callId = Some c ->
  CC.Schema.valid c = false ->
  exists refused,
    CC.pipeline env callId startTime w =
      (Throw (CC.ValidationError env refused), CC.tick (CC.tick w)).
Proof.
  intros Hdb Hvalid. unfold CC.pipeline.
  erewrite bind_findById by exact Hdb. cbv beta iota.
  rewrite bind_now. unfold CC.addProcessingStep.
  rewrite bind_assoc, bind_now. cbv beta iota. rewrite bind_assoc, bind_ret.
  erewrite bind_throw.
  - eexists. reflexivity.
  - apply save_refused. unfold CC.assign. cbn [CC.doc].
    unfold CC.Schema.valid, CC.set_processingHistory in *.
    cbn [CC.processingHistory CC.analysis]. rewrite forallb_app.
    destruct (forallb CC.Schema.valid_entry (CC.processingHistory c));
      [| reflexivity].
    cbn [andb] in Hvalid. rewrite Hvalid. apply andb_false_r.
Qed.

(** *** The courses of a run, from end to end *)

Lemma run_missing (callId : CC.CallId) (w : CC.World) :
  CC.db w callId = None ->
  CC.processCallAsync env callId w = (Ok tt, CC.tick w).
Proof.
  intros Hdb. unfold CC.processCallAsync. rewrite bind_now.
  unfold CC.try_catch_m, CC.pipeline, CC.bind, CC.findById.
  cbn [CC.db CC.tick]. rewrite Hdb. reflexivity.
Qed.

(** A stored Call that does not pass the schema: both the [try] and the
    [catch] block are refused their first write. *)
Lemma run_invalid_start (callId : CC.CallId) (w : CC.World) (c : CC.Call) :
  CC.db w callId = Some c ->
  CC.Schema.valid c = false ->
  exists refused W,
    CC.processCallAsync env callId w =
      (Throw (CC.ValidationError env refused), W) /\
    CC.db W = CC.db w /\ CC.statusWrites W = CC.statusWrites w /\
    CC.emitted W = CC.emitted w.
Proof.
  intros Hdb Hvalid.
  unfold CC.processCallAsync. rewrite bind_now. unfold CC.try_catch_m.
  destruct (pipeline_invalid_start callId (CC.tick w) c
              (CC.clock env (CC.ticks w)) Hdb Hvalid) as [r1 Hrun].
  rewrite Hrun.
  destruct (on_failure_refused callId (CC.tick (CC.tick (CC.tick w))) c
              (CC.ValidationError env r1) Hdb) as (refused & Hfail & _).
  rewrite Hfail. exists refused. eexists. split; [reflexivity|].
  destruct w. repeat split; reflexivity.
Qed.

Lemma run_success (callId : CC.CallId) (w : CC.World) (c : CC.Call) (t : string) :
  CC.db w callId = Some c ->
  CC.Schema.valid c = true ->
  AI.whisper (CC.svc env) (CC.filePath c) = AI.SttOk (Some t) ->
  CC.Schema.valid_analysis (AI.analyze (CC.svc env) t) = true ->
  exists W transcription plan history times events,
    CC.processCallAsync env callId w = (Ok tt, W) /\
    AI.transcribeAudio (CC.svc env) (CC.filePath c) = Ok transcription /\
    AI.generateCoachingPlanFromAnalysis (AI.analyze (CC.svc env) t) (Some t) =
      Ok plan /\
    CC.db W callId =
      Some (CC.mkCall (CC.filePath c) (CC.originalName c) 45
              CC.Status.completed (Some transcription)
              (Some (AI.analyze (CC.svc env) t))
              (CC.mkStoredPlan true (Some (AI.Plan.feedback plan))
                 (Some (CC.JSON_stringify (AI.Plan.recommendations plan)))
                 (Some (CC.JSON_stringify (AI.Plan.resources plan)))
                 (Some (CC.JSON_stringify (AI.Plan.quiz plan)))
                 (Some (AI.Plan.completionCriteria plan)))
              (CC.processingHistory c ++ history)%list
              (CC.error c) times) /\
    map (fun h => (CC.step h, CC.h_status h, CC.h_error h)) history =
      [ ("upload", CC.Step.completed, None);
        ("transcribe", CC.Step.started, None);
        ("transcribe", CC.Step.completed, None);
        ("analyze", CC.Step.started, None);
        ("analyze", CC.Step.completed, None);
        ("coaching", CC.Step.started, None);
        ("coaching", CC.Step.completed, None) ] /\
    (CC.processingTime times <> None /\ CC.transcriptionTime times <> None /\
     CC.analysisTime times <> None /\ CC.coachingTime times <> None) /\
    CC.statusWrites W =
      (CC.statusWrites w ++
       map (pair callId)
           [ CC.Status.transcribing; CC.Status.transcribed;
             CC.Status.analyzing; CC.Status.analyzed; CC.Status.completed ])%list /\
    CC.emitted W = (CC.emitted w ++ events)%list /\
    map CC.ev_status events =
      (if CC.global_io env
       then [ CC.Status.uploaded; CC.Status.transcribing; CC.Status.transcribed;
              CC.Status.analyzing; CC.Status.analyzed;
              CC.Status.generating_coaching; CC.Status.completed ]
       else []).
Proof.
  intros Hdb Hvalid Hw Hva.
  unfold CC.processCallAsync. rewrite bind_now. unfold CC.try_catch_m.
  destruct (pipeline_succeeds callId (CC.tick w) c t
              (CC.clock env (CC.ticks w)) Hdb Hvalid Hw Hva)
    as (W & transcription & plan & history & times & events
        & Hrun & Htr & Hplan & HdbW & Hhist & Htimes & Hwr & Hem & Hev & _).
  rewrite Hrun. exists W, transcription, plan, history, times, events.
  repeat split; try assumption; apply Htimes.
Qed.

(** What the three failing courses have in common: the [try] block throws
    with the Call stored under its identifier, and the [catch] block is
    refused. *)
Lemma run_caught_and_refused (callId : CC.CallId) (w W1 : CC.World)
  (c1 : CC.Call) (e : Error) :
  CC.pipeline env callId (CC.clock env (CC.ticks w)) (CC.tick w) = (Throw e, W1) ->
  CC.db W1 callId = Some c1 ->
  exists refused W,
    CC.processCallAsync env callId w =
      (Throw (CC.ValidationError env refused), W) /\
    CC.db W = CC.db W1 /\ CC.statusWrites W = CC.statusWrites W1 /\
    CC.emitted W = CC.emitted W1 /\
    CC.Schema.valid refused = false /\
    CC.processingHistory refused =
      (CC.processingHistory c1 ++
       [CC.mkHistoryEntry "error" CC.Step.failed (err_message e)
          (CC.clock env (CC.ticks W1)) 0 (Some e)])%list.
Proof.
  intros Hrun Hdb1.
  unfold CC.processCallAsync. rewrite bind_now. unfold CC.try_catch_m.
  rewrite Hrun.
  destruct (on_failure_refused callId W1 c1 e Hdb1)
    as (refused & Hfail & Hinvalid & Hhist).
  rewrite Hfail. exists refused. eexists. split; [reflexivity|].
  destruct W1. repeat split; try reflexivity; assumption.
Qed.

Lemma run_transcription_failure (callId : CC.CallId) (w : CC.World)
  (c : CC.Call) (httpStatus : option Z) :
  CC.db w callId = Some c ->
  CC.Schema.valid c = true ->
  AI.whisper (CC.svc env) (CC.filePath c) = AI.SttFail httpStatus ->
  exists W e refused history events timestamp,
    CC.processCallAsync env callId w =
      (Throw (CC.ValidationError env refused), W) /\
    AI.transcribeAudio (CC.svc env) (CC.filePath c) = Throw e /\
    CC.db W callId =
      Some (CC.mkCall (CC.filePath c) (CC.originalName c) (CC.duration c)
              CC.Status.transcribing (CC.transcript c) (CC.analysis c)
              (CC.coachingPlan c) (CC.processingHistory c ++ history)%list
              (CC.error c) (CC.performance c)) /\
    map (fun h => (CC.step h, CC.h_status h, CC.h_error h)) history =
      [ ("upload", CC.Step.completed, None);
        ("transcribe", CC.Step.started, None) ] /\
    CC.statusWrites W =
      (CC.statusWrites w ++ [(callId, CC.Status.transcribing)])%list /\
    CC.emitted W = (CC.emitted w ++ events)%list /\
    map CC.ev_status events =
      (if CC.global_io env
       then [ CC.Status.uploaded; CC.Status.transcribing ] else []) /\
    CC.Schema.valid refused = false /\
    CC.processingHistory refused =
      ((CC.processingHistory c ++ history) ++
       [CC.mkHistoryEntry "error" CC.Step.failed (err_message e) timestamp 0
                          (Some e)])%list.
Proof.
  intros Hdb Hvalid Hw.
  destruct (pipeline_transcription_fails callId (CC.tick w) c httpStatus
              (CC.clock env (CC.ticks w)) Hdb Hvalid Hw)
    as (W1 & e & history & events & Hrun & Hthrow & Hdb1 & Hhist & Hwr & Hem
        & Hev & _).
  destruct (run_caught_and_refused callId w W1 _ e Hrun Hdb1)
    as (refused & W & HrunW & HdbW & HwrW & HemW & Hinvalid & Hrefused).
  exists W, e, refused, history, events. eexists.
  split; [exact HrunW|]. split; [exact Hthrow|].
  rewrite HdbW, HwrW, HemW.
  split; [exact Hdb1|]. split; [exact Hhist|]. split; [exact Hwr|].
  split; [exact Hem|]. split; [exact Hev|]. split; [exact Hinvalid|].
  exact Hrefused.
Qed.

Lemma run_analysis_failure (callId : CC.CallId) (w : CC.World) (c : CC.Call) :
  CC.db w callId = Some c ->
  CC.Schema.valid c = true ->
  AI.whisper (CC.svc env) (CC.filePath c) = AI.SttOk None ->
  exists W e refused transcription history transcriptionTime events timestamp,
    CC.processCallAsync env callId w =
      (Throw (CC.ValidationError env refused), W) /\
    AI.analyzeCall (CC.svc env) None = Throw e /\
    AI.transcribeAudio (CC.svc env) (CC.filePath c) = Ok transcription /\
    CC.db W callId =
      Some (CC.mkCall (CC.filePath c) (CC.originalName c) 45
              CC.Status.analyzing (Some transcription) (CC.analysis c)
              (CC.coachingPlan c) (CC.processingHistory c ++ history)%list
              (CC.error c)
              (CC.mkPerformance (CC.processingTime (CC.performance c))
                 (Some transcriptionTime)
                 (CC.analysisTime (CC.performance c))
                 (CC.coachingTime (CC.performance c)))) /\
    map (fun h => (CC.step h, CC.h_status h, CC.h_error h)) history =
      [ ("upload", CC.Step.completed, None);
        ("transcribe", CC.Step.started, None);
        ("transcribe", CC.Step.completed, None);
        ("analyze", CC.Step.started, None) ] /\
    CC.statusWrites W =
      (CC.statusWrites w ++
       map (pair callId)
           [ CC.Status.transcribing; CC.Status.transcribed;
             CC.Status.analyzing ])%list /\
    CC.emitted W = (CC.emitted w ++ events)%list /\
    map CC.ev_status events =
      (if CC.global_io env
       then [ CC.Status.uploaded; CC.Status.transcribing;
              CC.Status.transcribed; CC.Status.analyzing ] else []) /\
    CC.Schema.valid refused = false /\
    CC.processingHistory refused =
      ((CC.processingHistory c ++ history) ++
       [CC.mkHistoryEntry "error" CC.Step.failed (err_message e) timestamp 0
                          (Some e)])%list.
Proof.
  intros Hdb Hvalid Hw.
  destruct (pipeline_analysis_fails callId (CC.tick w) c
              (CC.clock env (CC.ticks w)) Hdb Hvalid Hw)
    as (W1 & e & transcription & history & ttime & events
        & Hrun & Hthrow & Htr & Hdb1 & Hhist & Hwr & Hem & Hev & _).
  destruct (run_caught_and_refused callId w W1 _ e Hrun Hdb1)
    as (refused & W & HrunW & HdbW & HwrW & HemW & Hinvalid & Hrefused).
  exists W, e, refused, transcription, history, ttime, events. eexists.
  split; [exact HrunW|]. split; [exact Hthrow|]. split; [exact Htr|].
  rewrite HdbW, HwrW, HemW.
  split; [exact Hdb1|]. split; [exact Hhist|]. split; [exact Hwr|].
  split; [exact Hem|]. split; [exact Hev|]. split; [exact Hinvalid|].
  exact Hrefused.
Qed.

Lemma run_analysis_refused (callId : CC.CallId) (w : CC.World) (c : CC.Call)
  (t : string) :
  CC.db w callId = Some c ->
  CC.Schema.valid c = true ->
  AI.whisper (CC.svc env) (CC.filePath c) = AI.SttOk (Some t) ->
  CC.Schema.valid_analysis (AI.analyze (CC.svc env) t) = false ->
  exists W first refused transcription history transcriptionTime events
         timestamp,
    CC.processCallAsync env callId w =
      (Throw (CC.ValidationError env refused), W) /\
    CC.analysis first = Some (AI.analyze (CC.svc env) t) /\
    AI.transcribeAudio (CC.svc env) (CC.filePath c) = Ok transcription /\
    CC.db W callId =
      Some (CC.mkCall (CC.filePath c) (CC.originalName c) 45
              CC.Status.analyzing (Some transcription) (CC.analysis c)
              (CC.coachingPlan c) (CC.processingHistory c ++ history)%list
              (CC.error c)
              (CC.mkPerformance (CC.processingTime (CC.performance c))
                 (Some transcriptionTime)
                 (CC.analysisTime (CC.performance c))
                 (CC.coachingTime (CC.performance c)))) /\
    map (fun h => (CC.step h, CC.h_status h, CC.h_error h)) history =
      [ ("upload", CC.Step.completed, None);
        ("transcribe", CC.Step.started, None);
        ("transcribe", CC.Step.completed, None);
        ("analyze", CC.Step.started, None) ] /\
    CC.statusWrites W =
      (CC.statusWrites w ++
       map (pair callId)
           [ CC.Status.transcribing; CC.Status.transcribed;
             CC.Status.analyzing ])%list /\
    CC.emitted W = (CC.emitted w ++ events)%list /\
    map CC.ev_status events =
      (if CC.global_io env
       then [ CC.Status.uploaded; CC.Status.transcribing;
              CC.Status.transcribed; CC.Status.analyzing ] else []) /\
    CC.Schema.valid refused = false /\
    CC.processingHistory refused =
      ((CC.processingHistory c ++ history) ++
       [CC.mkHistoryEntry "error" CC.Step.failed
          (err_message (CC.ValidationError env first)) timestamp 0
          (Some (CC.ValidationError env first))])%list.
Proof.
  intros Hdb Hvalid Hw Hva.
  destruct (pipeline_analysis_refused callId (CC.tick w) c t
              (CC.clock env (CC.ticks w)) Hdb Hvalid Hw Hva)
    as (W1 & first & transcription & history & ttime & events
        & Hrun & Hfirst & Htr & Hdb1 & Hhist & Hwr & Hem & Hev & _).
  destruct (run_caught_and_refused callId w W1 _ _ Hrun Hdb1)
    as (refused & W & HrunW & HdbW & HwrW & HemW & Hinvalid & Hrefused).
  exists W, first, refused, transcription, history, ttime, events. eexists.
  split; [exact HrunW|]. split; [exact Hfirst|]. split; [exact Htr|].
  rewrite HdbW, HwrW, HemW.
  split; [exact Hdb1|]. split; [exact Hhist|]. split; [exact Hwr|].
  split; [exact Hem|]. split; [exact Hev|]. split; [exact Hinvalid|].
  exact Hrefused.
Qed.

End Pipeline.

(** *** The claims on the pipeline *)

Section PipelineClaims.

Variable env : CC.Env.



(** The values that a run writes to the stored [status], in every case:
    the start of the sequence transcribing, transcribed, analyzing,
    analyzed, completed, as far as the run gets.  Neither
    [generating-coaching] nor [error] is ever written. *)
Lemma run_statusWrites (callId : CC.CallId) (w : CC.World) :
  CC.statusWrites (snd (CC.processCallAsync env callId w)) =
  (CC.statusWrites w ++
   map (pair callId)
     match CC.db w callId with
     | None => []
     | Some c =>
         if CC.Schema.valid c then
           match AI.whisper (CC.svc env) (CC.filePath c) with
           | AI.SttFail _ => [ CC.Status.transcribing ]
           | AI.SttOk None =>
               [ CC.Status.transcribing; CC.Status.transcribed;
                 CC.Status.analyzing ]
           | AI.SttOk (Some t) =>
               if CC.Schema.valid_analysis (AI.analyze (CC.svc env) t)
               then [ CC.Status.transcribing; CC.Status.transcribed;
                      CC.Status.analyzing; CC.Status.analyzed;
                      CC.Status.completed ]
               else [ CC.Status.transcribing; CC.Status.transcribed;
                      CC.Status.analyzing ]
           end
         else []
     end)%list.
Proof.
  destruct (CC.db w callId) as [c|] eqn:Hdb.
  - destruct (CC.Schema.valid c) eqn:Hvalid.
    + destruct (AI.whisper (CC.svc env) (CC.filePath c)) as [[t|]|st] eqn:Hw.
      * destruct (CC.Schema.valid_analysis (AI.analyze (CC.svc env) t)) eqn:Hva.
        -- destruct (run_success env callId w c t Hdb Hvalid Hw Hva)
             as (W & ? & ? & ? & ? & ? & Hrun & _ & _ & _ & _ & _ & Hwr & _).
           rewrite Hrun. exact Hwr.
        -- destruct (run_analysis_refused env callId w c t Hdb Hvalid Hw Hva)
             as (W & ? & ? & ? & ? & ? & ? & ? & Hrun & _ & _ & _ & _ & Hwr & _).
           rewrite Hrun. exact Hwr.
      * destruct (run_analysis_failure env callId w c Hdb Hvalid Hw)
          as (W & ? & ? & ? & ? & ? & ? & ? & Hrun & _ & _ & _ & _ & Hwr & _).
        rewrite Hrun. exact Hwr.
      * destruct (run_transcription_failure env callId w c st Hdb Hvalid Hw)
          as (W & ? & ? & ? & ? & ? & Hrun & _ & _ & _ & Hwr & _).
        rewrite Hrun. exact Hwr.
    + destruct (run_invalid_start env callId w c Hdb Hvalid)
        as (? & W & Hrun & _ & Hwr & _).
      rewrite Hrun. cbn [snd map]. rewrite Hwr, app_nil_r. reflexivity.
  - rewrite (run_missing env callId w Hdb). cbn. symmetry. apply app_nil_r.
Qed.


(** C1, on the code.  No run writes [generating-coaching] to the stored
    [status], whatever the stored Call and the services are.  And a run
    whose three stages succeed, on a stored Call and with an analysis that
    pass the schema, writes to the stored [status], in this order,
    transcribing, transcribed, analyzing, analyzed and completed:
    [generating-coaching] is sent to the subscribers of the call but never
    stored, so the stored status goes from analyzed to completed and the
    stored sequence does not follow the forward order. *)
Theorem stored_status_skips_generating_coaching :
  forall (callId : CC.CallId) (w : CC.World) (c : CC.Call) (t : string),
    CC.db w callId = Some c ->
    AI.whisper (CC.svc env) (CC.filePath c) = AI.SttOk (Some t) ->
    (exists written,
       CC.statusWrites (snd (CC.processCallAsync env callId w)) =
         (CC.statusWrites w ++ map (pair callId) written)%list /\
       ~ In CC.Status.generating_coaching written) /\
    (CC.Schema.valid c = true ->
     CC.Schema.valid_analysis (AI.analyze (CC.svc env) t) = true ->
     exists W writes,
       CC.processCallAsync env callId w = (Ok tt, W) /\
       CC.statusWrites W = (CC.statusWrites w ++ map (pair callId) writes)%list /\
       writes = [ CC.Status.transcribing; CC.Status.transcribed;
                  CC.Status.analyzing; CC.Status.analyzed;
                  CC.Status.completed ] /\
       ~ In CC.Status.generating_coaching writes /\
       Lifecycle.follows (CC.status c) writes = false /\
       map CC.ev_status (CC.emitted W) =
         (map CC.ev_status (CC.emitted w) ++
          if CC.global_io env
          then [ CC.Status.uploaded; CC.Status.transcribing;
                 CC.Status.transcribed; CC.Status.analyzing; CC.Status.analyzed;
                 CC.Status.generating_coaching; CC.Status.completed ]
          else [])%list).
Proof.
  intros callId w c t Hdb Hw. split.
  - eexists. split; [apply run_statusWrites|].
    rewrite Hdb, Hw.
    destruct (CC.Schema.valid c);
      [destruct (CC.Schema.valid_analysis (AI.analyze (CC.svc env) t))|];
      cbn [In]; intros H;
      repeat (destruct H as [H | H]; [discriminate|]); exact H.
  - intros Hvalid Hva.
    destruct (run_success env callId w c t Hdb Hvalid Hw Hva)
      as (W & ? & ? & ? & ? & events & Hrun & _ & _ & _ & _ & _ & Hwr & Hem & Hev).
    exists W. eexists. split; [exact Hrun|].
    split; [exact Hwr|]. split; [reflexivity|]. split; [|split].
    + cbn [In]. intros H. repeat (destruct H as [H | H]; [discriminate|]).
      exact H.
    + destruct (CC.status c); reflexivity.
    + rewrite Hem, map_app, Hev. reflexivity.
Qed.


End PipelineClaims.

(** *** The theorems of the pipeline at sample runs *)

Lemma stored_status_skips_generating_coaching_witness :
  exists W,
    CC.processCallAsync (Samples.env_of Samples.all_up) 7%nat
                        (Samples.store_of Samples.fresh_call) = (Ok tt, W) /\
    map snd (CC.statusWrites W) =
      [ CC.Status.transcribing; CC.Status.transcribed; CC.Status.analyzing;
        CC.Status.analyzed; CC.Status.completed ] /\
    Lifecycle.follows CC.Status.uploaded (map snd (CC.statusWrites W)) = false /\
    In CC.Status.generating_coaching (map CC.ev_status (CC.emitted W)).
Proof.
  destruct (stored_status_skips_generating_coaching
              (Samples.env_of Samples.all_up) 7%nat
              (Samples.store_of Samples.fresh_call) Samples.fresh_call
              Samples.greeting eq_refl eq_refl)
    as [_ Hcompleted].
  destruct (Hcompleted eq_refl ltac:(vm_compute; reflexivity))
    as (W & writes & Hrun & Hwr & -> & _ & _ & Hev).
  exists W. split; [exact Hrun|]. rewrite Hwr, Hev.
  split; [reflexivity|]. split; [reflexivity|].
  cbn. tauto.
Defined.



(** * Further properties of the code *)

(** ** The ranges of the scores and the findings of an analysis *)

Section ScoreRanges.

Lemma gtb_20_not_ltb_5 (a : num) :
  gtb a (Int 20) = true -> ltb a (Int 5) = false.
Proof.
  destruct a as [|q]; cbn; [discriminate|].
  intros H. apply negb_true_iff in H. apply negb_false_iff.
  apply Qle_bool_iff.
  destruct (Qlt_le_dec 20 q) as [Hlt | Hle].
  - apply Qlt_le_weak. eapply Qle_lt_trans; [|exact Hlt]. discriminate.
  - apply Qle_bool_iff in Hle. unfold inject_Z in H. congruence.
Qed.

Lemma analyzeClarity_values (transcript : string) :
  exists z, AI.analyzeClarity transcript = Int z /\ In z [80; 70; 65; 60; 55].
Proof.
  unfold AI.analyzeClarity. cbv zeta.
  set (avg := div _ _).
  destruct (gtb avg (Int 20)) eqn:Hlong.
  - rewrite (gtb_20_not_ltb_5 avg Hlong).
    destruct (_ <? 3)%nat; (eexists; split; [reflexivity | cbn; tauto]).
  - destruct (ltb avg (Int 5)); destruct (_ <? 3)%nat;
      (eexists; split; [reflexivity | cbn; tauto]).
Qed.

(** X1 (analyzeClarity, getClarityFeedback): the clarity score starts at 80
    and only loses points, so it is one of 80, 70, 65, 60 and 55, and the
    feedback for a score of 85 or more is never given. *)
Theorem clarity_is_never_excellent :
  forall transcript : string,
    (exists z, AI.analyzeClarity transcript = Int z /\ In z [80; 70; 65; 60; 55]) /\
    AI.getClarityFeedback (AI.analyzeClarity transcript) <>
      "Excellent clarity and coherent communication".
Proof.
  intros t. destruct (analyzeClarity_values t) as (z & Hz & Hin).
  split; [exists z; split; assumption|].
  rewrite Hz. cbn in Hin.
  destruct Hin as [<- | [<- | [<- | [<- | [<- | []]]]]];
    vm_compute; discriminate.
Qed.

Lemma analyzeEngagement_values (transcript : string) :
  exists z, AI.analyzeEngagement transcript = Int z /\ In z [70; 80; 85; 95; 100].
Proof.
  unfold AI.analyzeEngagement. cbv zeta.
  set (words := AI.words_of transcript).
  destruct (gtb _ _);
    destruct (50 <? List.length words)%nat eqn:H50;
    destruct (100 <? List.length words)%nat eqn:H100;
    try (eexists; split; [reflexivity | cbn; tauto]);
    apply Nat.ltb_lt in H100; apply Nat.ltb_ge in H50; lia.
Qed.

Lemma ltb_Int (a b : Z) : ltb (Int a) (Int b) = (a <? b).
Proof.
  unfold ltb, Int. destruct (Z.ltb_spec a b) as [H | H].
  - apply negb_true_iff. destruct (Qle_bool (inject_Z b) (inject_Z a)) eqn:E;
      [|reflexivity].
    apply Qle_bool_iff in E. rewrite <- Zle_Qle in E. lia.
  - apply negb_false_iff. apply Qle_bool_iff. rewrite <- Zle_Qle. exact H.
Qed.

Lemma geb_Int (a b : Z) : geb (Int a) (Int b) = (b <=? a).
Proof.
  unfold geb, Int. destruct (Z.leb_spec b a) as [H | H].
  - apply Qle_bool_iff. rewrite <- Zle_Qle. exact H.
  - destruct (Qle_bool (inject_Z b) (inject_Z a)) eqn:E; [|reflexivity].
    apply Qle_bool_iff in E. rewrite <- Zle_Qle in E. lia.
Qed.

(** X2 (analyzeEngagement, identifyIssues, generateRecommendations,
    getEngagementFeedback): the engagement score starts at 70 and only gains
    points, so the branches for an engagement under 70 are dead: the issue,
    the recommendation and the feedback of a low engagement never appear
    in an analysis. *)
Theorem engagement_is_never_flagged :
  forall (svc : AI.Services) (transcript : string),
    Ranges.between 70 100 (AI.engagement (AI.metrics (AI.analyze svc transcript))) /\
    ~ In "Engagement level could be higher"
         (AI.issues (AI.analyze svc transcript)) /\
    ~ In "Expand vocabulary and be more descriptive"
         (AI.recommendations (AI.analyze svc transcript)) /\
    AI.fb_engagement (AI.feedback (AI.analyze svc transcript)) <>
      "Engagement needs improvement - use more descriptive language".
Proof.
  intros svc t.
  destruct (analyzeEngagement_values t) as (z & Hz & Hin).
  assert (Hge : 70 <= z <= 100) by (cbn in Hin; lia).
  assert (Hlt : ltb (AI.analyzeEngagement t) (Int 70) = false).
  { rewrite Hz, ltb_Int. apply Z.ltb_ge. lia. }
  unfold AI.analyze. cbv zeta.
  cbn [AI.metrics AI.engagement AI.issues AI.recommendations AI.feedback
       AI.fb_engagement].
  split; [exists z; split; [exact Hz | lia]|].
  unfold AI.identifyIssues, AI.generateRecommendations. cbv zeta.
  rewrite Hlt.
  split; [|split].
  - destruct (ltb (AI.analyzeClarity t) (Int 70));
      destruct (ltb (AI.analyzeRelevance t) (Int 70));
      destruct (AI.some_impolite _); cbn;
      intros H; repeat (destruct H as [H | H]; [discriminate|]); exact H.
  - destruct (ltb (AI.analyzeClarity t) (Int 70));
      destruct (ltb (AI.analyzeRelevance t) (Int 70));
      destruct (AI.some_impolite _); cbn;
      intros H; repeat (destruct H as [H | H]; [discriminate|]); exact H.
  - unfold AI.getEngagementFeedback. rewrite Hz, !geb_Int.
    destruct (85 <=? z); [discriminate|].
    destruct (70 <=? z) eqn:E; [discriminate|]. apply Z.leb_gt in E. lia.
Qed.

Lemma round_percentage (q : Q) :
  (0 <= q <= 100)%Q -> Ranges.percentage (Math_round (Num q)).
Proof.
  intros [Hlo Hhi]. exists (Qfloor (q + (1 # 2))). split; [reflexivity|].
  split.
  - change 0 with (Qfloor 0). apply Qfloor_resp_le.
    apply Qle_trans with q; [exact Hlo|].
    rewrite <- (Qplus_0_r q) at 1. apply Qplus_le_compat; [apply Qle_refl|].
    discriminate.
  - change 100 with (Qfloor (100 + (1 # 2))). apply Qfloor_resp_le.
    apply Qplus_le_compat; [exact Hhi | apply Qle_refl].
Qed.

Lemma ratio_percentage (k n : Z) :
  0 <= k <= n -> 0 < n ->
  (0 <= inject_Z k / inject_Z n * 100 <= 100)%Q.
Proof.
  intros Hk Hn.
  assert (Hn' : (0 < inject_Z n)%Q).
  { change (inject_Z 0 < inject_Z n)%Q. rewrite <- Zlt_Qlt. exact Hn. }
  assert (Hk0 : (0 <= inject_Z k)%Q).
  { change (inject_Z 0 <= inject_Z k)%Q. rewrite <- Zle_Qle. lia. }
  assert (Hkn : (inject_Z k <= inject_Z n)%Q) by (rewrite <- Zle_Qle; lia).
  split.
  - apply Qmult_le_0_compat; [|discriminate].
    apply Qle_shift_div_l; [exact Hn'|]. rewrite Qmult_0_l. exact Hk0.
  - setoid_replace 100%Q with (1 * 100)%Q at 2 by reflexivity.
    apply Qmult_le_compat_r; [|discriminate].
    apply Qle_shift_div_r; [exact Hn'|]. rewrite Qmult_1_l. exact Hkn.
Qed.

Lemma split_runs_nonempty (sep : ascii -> bool) (s cur : string) (inrun : bool) :
  Text.split_runs sep s cur inrun <> [].
Proof.
  revert cur inrun. induction s as [|c s IH]; intros cur inrun; cbn.
  - discriminate.
  - destruct (sep c); [destruct inrun; [apply IH | discriminate] | apply IH].
Qed.

Lemma words_of_nonempty (transcript : string) :
  (0 < List.length (AI.words_of transcript))%nat.
Proof.
  unfold AI.words_of, Text.split_regex.
  destruct (Text.split_runs _ _ _ _) eqn:E.
  - exfalso. revert E. apply split_runs_nonempty.
  - cbn. lia.
Qed.

Lemma len_positive {A : Type} (l : list A) :
  (0 < List.length l)%nat ->
  Qeq_bool (inject_Z (Z.of_nat (List.length l))) 0 = false.
Proof.
  intros H. destruct (Qeq_bool _ _) eqn:E; [|reflexivity].
  apply Qeq_bool_iff in E. unfold Qeq in E. cbn in E. lia.
Qed.

Lemma analyzeRelevance_percentage :
  forall transcript : string,
    Ranges.percentage (AI.analyzeRelevance transcript).
Proof.
  intros t. unfold AI.analyzeRelevance. cbv zeta.
  set (words := AI.words_of t).
  set (relevant := filter _ words).
  unfold AI.len, div, Int.
  rewrite (len_positive words (words_of_nonempty t)).
  unfold mul. apply round_percentage. apply ratio_percentage.
  - split; [lia|]. apply Nat2Z.inj_le. apply filter_length_le.
  - pose proof (words_of_nonempty t). fold words in H. lia.
Qed.

(** X3 (analyzeRelevance): the relevance score is the rounded share of the
    words that are customer service keywords, an integer from 0 to 100; the
    division is never by zero, as [split] gives a word for every
    transcript, the empty one included. *)
Theorem relevance_is_a_percentage :
  forall transcript : string,
    Ranges.percentage (AI.analyzeRelevance transcript) /\
    (0 < List.length (AI.words_of transcript))%nat.
Proof.
  intros t. split; [apply analyzeRelevance_percentage | apply words_of_nonempty].
Qed.

End ScoreRanges.

Section Classifiers.

Import Scores.

Variable svc : AI.Services.

Lemma sentiment_loop_Some (sentences : list string) :
  forall i scores result,
    AI.sentiment_loop svc i sentences scores = Some result ->
    exists tail,
      result = (scores ++ tail)%list /\
      map AI.s_sentence tail = sentences /\
      forall j s,
        nth_error sentences j = Some s ->
        exists r,
          AI.sentimentApi svc (i + j) s = Some r /\
          nth_error tail j = Some (sentiment_of s r).
Proof.
  induction sentences as [|s0 rest IH]; intros i scores result H; cbn in H.
  - injection H as <-. exists []. split; [rewrite app_nil_r; reflexivity|].
    split; [reflexivity|]. intros [|j] s Hj; discriminate.
  - destruct (AI.sentimentApi svc i s0) as [r0|] eqn:Hr0; [|discriminate].
    apply IH in H. destruct H as (tail & -> & Hmap & Hnth).
    exists (sentiment_of s0 r0 :: tail). split; [rewrite <- app_assoc; reflexivity|].
    split; [cbn; rewrite Hmap; reflexivity|].
    intros [|j] s Hj; cbn in Hj.
    + injection Hj as <-. exists r0. rewrite Nat.add_0_r. split; [exact Hr0|].
      reflexivity.
    + destruct (Hnth j s Hj) as (r & Hr & Hres). exists r.
      rewrite Nat.add_succ_r. split; [exact Hr | exact Hres].
Qed.

Lemma analyzeSentiment_sentences (sentences : list string) :
  map AI.s_sentence (AI.analyzeSentiment svc sentences) = sentences.
Proof.
  unfold AI.analyzeSentiment.
  destruct (AI.sentiment_loop svc 0 sentences []) as [result|] eqn:Hloop.
  - apply sentiment_loop_Some in Hloop.
    destruct Hloop as (tail & -> & Hmap & _). exact Hmap.
  - rewrite map_map. cbn. apply map_id.
Qed.

(** X4 (analyzeSentiment): there is one score for each sentence, in order.
    One failing request makes every score the fallback, those already
    obtained from the service included; without a failure every score is
    the one read from the reply for its sentence. *)
Theorem analyzeSentiment_all_or_nothing :
  forall sentences : list string,
    map AI.s_sentence (AI.analyzeSentiment svc sentences) = sentences /\
    ((exists j s, nth_error sentences j = Some s /\
                  AI.sentimentApi svc j s = None) ->
     AI.analyzeSentiment svc sentences = map AI.sentiment_fallback sentences) /\
    ((forall j s, nth_error sentences j = Some s ->
                  AI.sentimentApi svc j s <> None) ->
     forall j s, nth_error sentences j = Some s ->
       exists r, AI.sentimentApi svc j s = Some r /\
                 nth_error (AI.analyzeSentiment svc sentences) j =
                   Some (sentiment_of s r)).
Proof.
  intros sentences. unfold AI.analyzeSentiment.
  destruct (AI.sentiment_loop svc 0 sentences []) as [result|] eqn:Hloop.
  - apply sentiment_loop_Some in Hloop.
    destruct Hloop as (tail & -> & Hmap & Hnth). cbn [app].
    split; [exact Hmap|]. split.
    + intros (j & s & Hj & Hfail). destruct (Hnth j s Hj) as (r & Hr & _).
      cbn in Hr. congruence.
    + intros _ j s Hj. exact (Hnth j s Hj).
  - split; [|split].
    + rewrite map_map. cbn. apply map_id.
    + reflexivity.
    + intros Hall. apply sentiment_loop_None in Hloop.
      destruct Hloop as (j & s & Hj & Hfail). exfalso.
      exact (Hall j s Hj Hfail).
Qed.

Lemma fold_sum_bounds {A : Type} (f : A -> Q) (l : list A) :
  Forall (fun x => unit (f x)) l ->
  forall a : Q,
    (a <= fold_left (fun sum s => sum + f s) l a
       <= a + inject_Z (Z.of_nat (List.length l)))%Q.
Proof.
  induction 1 as [|x l Hx Hl IH]; intros a; cbn [fold_left List.length].
  - change (inject_Z (Z.of_nat 0)) with 0%Q. lra.
  - specialize (IH (a + f x)%Q). destruct Hx as [Hx0 Hx1].
    rewrite Nat2Z.inj_succ. unfold Z.succ. rewrite inject_Z_plus.
    change (inject_Z 1) with 1%Q. lra.
Qed.

Lemma ratio_percentage_Q (q : Q) (n : nat) :
  (0 <= q <= inject_Z (Z.of_nat n))%Q -> (0 < n)%nat ->
  (0 <= q / inject_Z (Z.of_nat n) * 100 <= 100)%Q.
Proof.
  intros [Hq0 Hqn] Hn.
  assert (Hn' : (0 < inject_Z (Z.of_nat n))%Q).
  { change (inject_Z 0 < inject_Z (Z.of_nat n))%Q. rewrite <- Zlt_Qlt. lia. }
  split.
  - apply Qmult_le_0_compat; [|discriminate].
    apply Qle_shift_div_l; [exact Hn'|]. rewrite Qmult_0_l. exact Hq0.
  - setoid_replace 100%Q with (1 * 100)%Q at 2 by reflexivity.
    apply Qmult_le_compat_r; [|discriminate].
    apply Qle_shift_div_r; [exact Hn'|]. rewrite Qmult_1_l. exact Hqn.
Qed.

Lemma mean_percentage {A : Type} (f : A -> Q) (l : list A) :
  Forall (fun x => unit (f x)) l -> l <> [] ->
  Ranges.percentage
    (Math_round
       (mul (div (Num (fold_left (fun sum s => (sum + f s)%Q) l 0%Q)) (AI.len l))
            (Int 100))).
Proof.
  intros Hall Hne.
  assert (Hlen : (0 < List.length l)%nat) by (destruct l; [contradiction | cbn; lia]).
  unfold AI.len, div, Int. rewrite (len_positive l Hlen). unfold mul.
  apply round_percentage. apply ratio_percentage_Q; [|exact Hlen].
  pose proof (fold_sum_bounds f l Hall 0%Q) as [H0 H1]. split; [exact H0|].
  rewrite Qplus_0_l in H1. exact H1.
Qed.

Lemma score_of_unit (label : string) (r : AI.Classification) :
  Ranges.unit_scores r -> unit (AI.score_of label r).
Proof.
  intros Hr. unfold AI.score_of.
  destruct (find _ r) as [entry|] eqn:E.
  - apply find_some in E. destruct E as [Hin _].
    unfold Ranges.unit_scores in Hr. rewrite Forall_forall in Hr.
    exact (Hr entry Hin).
  - split; discriminate.
Qed.

Lemma toxicity_loop_Some (sentences : list string) :
  forall i scores result,
    AI.toxicity_loop svc i sentences scores = Some result ->
    exists tail,
      result = (scores ++ tail)%list /\
      map AI.t_sentence tail = sentences /\
      forall j s,
        nth_error sentences j = Some s ->
        exists r,
          AI.toxicityApi svc (i + j) s = Some r /\
          nth_error tail j = Some (toxicity_of s r).
Proof.
  induction sentences as [|s0 rest IH]; intros i scores result H; cbn in H.
  - injection H as <-. exists []. split; [rewrite app_nil_r; reflexivity|].
    split; [reflexivity|]. intros [|j] s Hj; discriminate.
  - destruct (AI.toxicityApi svc i s0) as [r0|] eqn:Hr0; [|discriminate].
    apply IH in H. destruct H as (tail & -> & Hmap & Hnth).
    exists (toxicity_of s0 r0 :: tail). split; [rewrite <- app_assoc; reflexivity|].
    split; [cbn; rewrite Hmap; reflexivity|].
    intros [|j] s Hj; cbn in Hj.
    + injection Hj as <-. exists r0. rewrite Nat.add_0_r. split; [exact Hr0|].
      reflexivity.
    + destruct (Hnth j s Hj) as (r & Hr & Hres). exists r.
      rewrite Nat.add_succ_r. split; [exact Hr | exact Hres].
Qed.

Lemma analyzeToxicity_sentences (sentences : list string) :
  map AI.t_sentence (AI.analyzeToxicity svc sentences) = sentences.
Proof.
  unfold AI.analyzeToxicity.
  destruct (AI.toxicity_loop svc 0 sentences []) as [result|] eqn:Hloop.
  - apply toxicity_loop_Some in Hloop.
    destruct Hloop as (tail & -> & Hmap & _). exact Hmap.
  - rewrite map_map. cbn. apply map_id.
Qed.

(** X5 (analyzeToxicity): there is one score for each sentence, in order;
    one failing request makes every score the fallback, and without a
    failure every score is the one read from the reply for its sentence. *)
Theorem analyzeToxicity_all_or_nothing :
  forall sentences : list string,
    map AI.t_sentence (AI.analyzeToxicity svc sentences) = sentences /\
    ((exists j s, nth_error sentences j = Some s /\
                  AI.toxicityApi svc j s = None) ->
     AI.analyzeToxicity svc sentences = map AI.toxicity_fallback sentences) /\
    ((forall j s, nth_error sentences j = Some s ->
                  AI.toxicityApi svc j s <> None) ->
     forall j s, nth_error sentences j = Some s ->
       exists r, AI.toxicityApi svc j s = Some r /\
                 nth_error (AI.analyzeToxicity svc sentences) j =
                   Some (toxicity_of s r)).
Proof.
  intros sentences. unfold AI.analyzeToxicity.
  destruct (AI.toxicity_loop svc 0 sentences []) as [result|] eqn:Hloop.
  - apply toxicity_loop_Some in Hloop.
    destruct Hloop as (tail & -> & Hmap & Hnth). cbn [app].
    split; [exact Hmap|]. split.
    + intros (j & s & Hj & Hfail). destruct (Hnth j s Hj) as (r & Hr & _).
      cbn in Hr. congruence.
    + intros _ j s Hj. exact (Hnth j s Hj).
  - split; [|split].
    + rewrite map_map. cbn. apply map_id.
    + reflexivity.
    + intros Hall. apply toxicity_loop_None in Hloop.
      destruct Hloop as (j & s & Hj & Hfail). exfalso.
      exact (Hall j s Hj Hfail).
Qed.

Lemma Math_max5_unit (a b c d e : Q) :
  unit a -> unit b -> unit c -> unit d -> unit e -> unit (AI.Math_max5 a b c d e).
Proof.
  intros Ha Hb Hc Hd He. unfold AI.Math_max5.
  assert (Hmax : forall x y, unit x -> unit y -> unit (Qmax x y)).
  { intros x y Hx Hy. apply Q.max_case; [|exact Hx | exact Hy].
    intros u v Huv [H0 H1]. unfold unit. rewrite <- Huv. split; assumption. }
  auto.
Qed.

Hypothesis Hunit : Ranges.classifiers_in_unit svc.

Lemma analyzeSentiment_unit (sentences : list string) :
  Forall (fun s => unit (AI.positive s)) (AI.analyzeSentiment svc sentences).
Proof.
  apply Forall_forall. intros x Hx. unfold AI.analyzeSentiment in Hx.
  destruct (AI.sentiment_loop svc 0 sentences []) as [result|] eqn:Hloop.
  - apply sentiment_loop_Some in Hloop.
    destruct Hloop as (tail & -> & Hmap & Hnth). cbn [app] in Hx.
    apply In_nth_error in Hx. destruct Hx as [j Hj].
    assert (Hlt : (j < List.length sentences)%nat).
    { rewrite <- Hmap, length_map. apply nth_error_Some. congruence. }
    apply nth_error_Some in Hlt.
    destruct (nth_error sentences j) as [s|] eqn:Hs; [|contradiction].
    destruct (Hnth j s Hs) as (r & Hr & Hres).
    rewrite Hj in Hres. injection Hres as ->. cbn.
    apply score_of_unit. exact (proj1 Hunit _ _ _ Hr).
  - apply in_map_iff in Hx. destruct Hx as (s & <- & _). cbn.
    split; discriminate.
Qed.

Lemma analyzeToxicity_unit (sentences : list string) :
  Forall (fun s => unit (AI.t_politeness s)) (AI.analyzeToxicity svc sentences).
Proof.
  apply Forall_forall. intros x Hx. unfold AI.analyzeToxicity in Hx.
  destruct (AI.toxicity_loop svc 0 sentences []) as [result|] eqn:Hloop.
  - apply toxicity_loop_Some in Hloop.
    destruct Hloop as (tail & -> & Hmap & Hnth). cbn [app] in Hx.
    apply In_nth_error in Hx. destruct Hx as [j Hj].
    assert (Hlt : (j < List.length sentences)%nat).
    { rewrite <- Hmap, length_map. apply nth_error_Some. congruence. }
    apply nth_error_Some in Hlt.
    destruct (nth_error sentences j) as [s|] eqn:Hs; [|contradiction].
    destruct (Hnth j s Hs) as (r & Hr & Hres).
    rewrite Hj in Hres. injection Hres as ->. cbn [toxicity_of AI.t_politeness].
    pose proof (proj2 Hunit _ _ _ Hr) as Hr'.
    pose proof (Math_max5_unit _ _ _ _ _
                  (score_of_unit "toxic" r Hr') (score_of_unit "hate" r Hr')
                  (score_of_unit "obscene" r Hr') (score_of_unit "threat" r Hr')
                  (score_of_unit "insult" r Hr')) as [H0 H1].
    unfold unit. lra.
  - apply in_map_iff in Hx. destruct Hx as (s & <- & _). cbn.
    split; discriminate.
Qed.

Lemma round_mean_5_percentage (a b c d e : num) :
  Ranges.percentage a -> Ranges.percentage b -> Ranges.percentage c ->
  Ranges.percentage d -> Ranges.percentage e ->
  Ranges.percentage
    (Math_round (div (add (add (add (add a b) c) d) e) (Int 5))).
Proof.
  intros (za & -> & Ha) (zb & -> & Hb) (zc & -> & Hc) (zd & -> & Hd)
         (ze & -> & He).
  unfold add, div, Int. change (Qeq_bool (inject_Z 5) 0) with false. cbv iota.
  apply round_percentage.
  rewrite <- !inject_Z_plus.
  assert (H0 : (inject_Z 0 <= inject_Z (za + zb + zc + zd + ze))%Q)
    by (rewrite <- Zle_Qle; lia).
  assert (H1 : (inject_Z (za + zb + zc + zd + ze) <= inject_Z 500)%Q)
    by (rewrite <- Zle_Qle; lia).
  change (inject_Z 0) with 0%Q in H0. change (inject_Z 500) with 500%Q in H1.
  change (inject_Z 5) with 5%Q.
  split.
  - apply Qle_shift_div_l; [reflexivity|]. rewrite Qmult_0_l. exact H0.
  - apply Qle_shift_div_r; [reflexivity|]. exact H1.
Qed.

Lemma round_mean_3_percentage (a b c : num) :
  Ranges.percentage a -> Ranges.percentage b -> Ranges.percentage c ->
  Ranges.percentage (Math_round (div (add (add a b) c) (Int 3))).
Proof.
  intros (za & -> & Ha) (zb & -> & Hb) (zc & -> & Hc).
  unfold add, div, Int. change (Qeq_bool (inject_Z 3) 0) with false. cbv iota.
  apply round_percentage.
  rewrite <- !inject_Z_plus.
  assert (H0 : (inject_Z 0 <= inject_Z (za + zb + zc))%Q)
    by (rewrite <- Zle_Qle; lia).
  assert (H1 : (inject_Z (za + zb + zc) <= inject_Z 300)%Q)
    by (rewrite <- Zle_Qle; lia).
  change (inject_Z 0) with 0%Q in H0. change (inject_Z 300) with 300%Q in H1.
  change (inject_Z 3) with 3%Q.
  split.
  - apply Qle_shift_div_l; [reflexivity|]. rewrite Qmult_0_l. exact H0.
  - apply Qle_shift_div_r; [reflexivity|]. exact H1.
Qed.

Lemma keyword_score_range (b1 b2 b3 : bool) (n1 n2 n3 : Z) :
  0 <= n1 -> 0 <= n2 -> 0 <= n3 ->
  Ranges.between 60 100
    (Int (Z.min 100 (60 + AI.bonus b1 n1 + AI.bonus b2 n2 + AI.bonus b3 n3))).
Proof.
  intros H1 H2 H3. eexists. split; [reflexivity|].
  unfold AI.bonus. destruct b1, b2, b3; lia.
Qed.

(** X6 (analyzeCallOpening, analyzeIssueUnderstanding,
    analyzeResolutionQuality): the three keyword scores start at 60 and are
    capped at 100, whatever the transcript. *)
Theorem keyword_scores_between_60_and_100 :
  forall transcript : string,
    Ranges.between 60 100 (AI.analyzeCallOpening transcript) /\
    Ranges.between 60 100 (AI.analyzeIssueUnderstanding transcript) /\
    Ranges.between 60 100 (AI.analyzeResolutionQuality transcript).
Proof.
  intros t. repeat split;
    (unfold AI.analyzeCallOpening, AI.analyzeIssueUnderstanding,
       AI.analyzeResolutionQuality; cbv zeta;
     apply keyword_score_range; lia).
Qed.

Lemma between_weaken (lo hi lo' hi' : Z) (n : num) :
  lo' <= lo -> hi <= hi' -> Ranges.between lo hi n -> Ranges.between lo' hi' n.
Proof. intros Hlo Hhi (z & -> & Hz). exists z. split; [reflexivity | lia]. Qed.

(** X7 (analyzeCall): with classifiers that score in [0, 1] and a
    transcript that has a sentence, the nine metrics and the overall score
    of the analysis are integers from 0 to 100. *)
Theorem metrics_are_percentages :
  forall transcript : string,
    AI.sentences_of transcript <> [] ->
    let a := AI.analyze svc transcript in
    let m := AI.metrics a in
    Ranges.percentage (AI.callOpening m) /\
    Ranges.percentage (AI.issueUnderstanding m) /\
    Ranges.percentage (AI.sentimentAnalysis m) /\
    Ranges.percentage (AI.politeness m) /\
    Ranges.percentage (AI.clarity m) /\
    Ranges.percentage (AI.engagement m) /\
    Ranges.percentage (AI.relevance m) /\
    Ranges.percentage (AI.csatScore m) /\
    Ranges.percentage (AI.resolutionQuality m) /\
    exists overall, AI.overallScore a = Some overall /\ Ranges.percentage overall.
Proof.
  intros t Hne a m.
  assert (Hopen : Ranges.between 60 100 (AI.analyzeCallOpening t))
    by (unfold AI.analyzeCallOpening; cbv zeta; apply keyword_score_range; lia).
  assert (Hissue : Ranges.between 60 100 (AI.analyzeIssueUnderstanding t))
    by (unfold AI.analyzeIssueUnderstanding; cbv zeta;
        apply keyword_score_range; lia).
  assert (Hres : Ranges.between 60 100 (AI.analyzeResolutionQuality t))
    by (unfold AI.analyzeResolutionQuality; cbv zeta;
        apply keyword_score_range; lia).
  assert (Hslice : AI.slice_0_3 (AI.sentences_of t) <> []).
  { destruct (AI.sentences_of t); [contradiction | discriminate]. }
  assert (Hsent : Ranges.percentage (AI.sentimentAnalysis m)).
  { apply mean_percentage; [apply analyzeSentiment_unit|].
    intros E.
    pose proof (analyzeSentiment_sentences
                  (AI.slice_0_3 (AI.sentences_of t))) as Hmap.
    rewrite E in Hmap. exact (Hslice (eq_sym Hmap)). }
  assert (Hpol : Ranges.percentage (AI.politeness m)).
  { apply mean_percentage; [apply analyzeToxicity_unit|].
    intros E.
    pose proof (analyzeToxicity_sentences
                  (AI.slice_0_3 (AI.sentences_of t))) as Hmap.
    rewrite E in Hmap. exact (Hslice (eq_sym Hmap)). }
  assert (Hcla : Ranges.percentage (AI.clarity m)).
  { destruct (analyzeClarity_values t) as (z & Hz & Hin).
    exists z. split; [exact Hz | cbn in Hin; lia]. }
  assert (Heng : Ranges.percentage (AI.engagement m)).
  { destruct (analyzeEngagement_values t) as (z & Hz & Hin).
    exists z. split; [exact Hz | cbn in Hin; lia]. }
  assert (Hrel : Ranges.percentage (AI.relevance m))
    by apply analyzeRelevance_percentage.
  split; [eapply between_weaken; [| |exact Hopen]; lia|].
  split; [eapply between_weaken; [| |exact Hissue]; lia|].
  split; [exact Hsent|]. split; [exact Hpol|]. split; [exact Hcla|].
  split; [exact Heng|]. split; [exact Hrel|].
  split; [apply round_mean_3_percentage; assumption|].
  split; [eapply between_weaken; [| |exact Hres]; lia|].
  eexists. split; [reflexivity|].
  apply round_mean_5_percentage; assumption.
Qed.

End Classifiers.

Section Findings.

Import Scores.

(** X8 (identifyIssues, generateRecommendations): the recommendations
    answer the issues one for one, in the same order; an analysis without
    an issue has the one default recommendation. *)
Theorem recommendations_answer_issues :
  forall (svc : AI.Services) (transcript : string),
    let a := AI.analyze svc transcript in
    (AI.issues a = [] /\
     AI.recommendations a = ["Continue current good practices"]) \/
    (AI.issues a <> [] /\
     Forall2 (fun issue recommendation => In (issue, recommendation) advice)
             (AI.issues a) (AI.recommendations a)).
Proof.
  intros svc t a. unfold a, AI.analyze. cbv zeta.
  cbn [AI.issues AI.recommendations].
  unfold AI.identifyIssues, AI.generateRecommendations. cbv zeta.
  destruct (ltb (AI.analyzeClarity t) (Int 70));
    destruct (ltb (AI.analyzeEngagement t) (Int 70));
    destruct (ltb (AI.analyzeRelevance t) (Int 70));
    destruct (AI.some_impolite _); cbn;
    first [ left; split; reflexivity
          | right; split; [discriminate|];
            repeat constructor; cbn; tauto ].
Qed.

(** X9 (extractKeyPoints): there are between one and five key points, and
    the default key point only ever stands alone. *)
Theorem keyPoints_are_never_empty :
  forall transcript : string,
    (1 <= List.length (AI.extractKeyPoints transcript) <= 5)%nat /\
    (In "Customer service interaction" (AI.extractKeyPoints transcript) ->
     AI.extractKeyPoints transcript = ["Customer service interaction"]).
Proof.
  intros t. unfold AI.extractKeyPoints. cbv zeta.
  destruct (Text.regex_test_i ["hello"; "greeting"] t);
    destruct (Text.regex_test_i ["issue"; "problem"] t);
    destruct (Text.regex_test_i ["understand"; "clarify"] t);
    destruct (Text.regex_test_i ["resolve"; "fix"] t);
    destruct (Text.regex_test_i ["thank"; "appreciate"] t); cbn;
    (split; [lia|]);
    first [ reflexivity
          | intros H; exfalso;
            repeat (destruct H as [H | H]; [discriminate|]); exact H ].
Qed.

Lemma Qfloor_ge_iff (z : Z) (x : Q) : z <= Qfloor x <-> (inject_Z z <= x)%Q.
Proof.
  split; intros H.
  - apply Qle_trans with (inject_Z (Qfloor x)); [|apply Qfloor_le].
    rewrite <- Zle_Qle. exact H.
  - rewrite <- (Qfloor_Z z). apply Qfloor_resp_le. exact H.
Qed.

Lemma csat_bands :
  forall s p r : Z,
    (AI.getCSATFeedback (Int s) (Int p) (Int r) =
       "Excellent customer satisfaction potential" <-> 255 <= s + p + r) /\
    exists z,
      Math_round (div (add (add (Int s) (Int p)) (Int r)) (Int 3)) = Int z /\
      (85 <= z <-> 254 <= s + p + r).
Proof.
  intros s p r. split.
  - unfold AI.getCSATFeedback. cbv zeta. unfold add, div, Int.
    change (Qeq_bool (inject_Z 3) 0) with false. cbv iota.
    rewrite <- !inject_Z_plus. unfold geb.
    destruct (Qle_bool (inject_Z 85) (inject_Z (s + p + r) / inject_Z 3)) eqn:E.
    + split; [intros _ | reflexivity].
      apply Qle_bool_iff in E. unfold Qle in E. cbn in E. lia.
    + split.
      * destruct (Qle_bool (inject_Z 70) _); discriminate.
      * intros H. assert (E' : Qle_bool (inject_Z 85)
                                 (inject_Z (s + p + r) / inject_Z 3) = true).
        { apply Qle_bool_iff. unfold Qle. cbn. lia. }
        congruence.
  - unfold add, div, Int. change (Qeq_bool (inject_Z 3) 0) with false. cbv iota.
    rewrite <- !inject_Z_plus. eexists. split; [reflexivity|].
    rewrite Qfloor_ge_iff. unfold Qle. cbn. lia.
Qed.

(** X10 (analyzeCall, getCSATFeedback): the CSAT feedback is chosen on the
    mean of sentiment, politeness and relevance before rounding, the
    csatScore is that mean rounded: when the three scores sum to 254 the
    csatScore is 85 and the feedback is not the one for 85 and more. *)
Theorem csat_feedback_and_score_can_disagree :
  forall (svc : AI.Services) (transcript : string) (s p r : Z),
    let a := AI.analyze svc transcript in
    AI.sentimentAnalysis (AI.metrics a) = Int s ->
    AI.politeness (AI.metrics a) = Int p ->
    AI.relevance (AI.metrics a) = Int r ->
    (AI.fb_csatScore (AI.feedback a) =
       "Excellent customer satisfaction potential" <-> 255 <= s + p + r) /\
    exists z, AI.csatScore (AI.metrics a) = Int z /\
              (85 <= z <-> 254 <= s + p + r).
Proof.
  intros svc t s p r a. unfold a, AI.analyze. cbv zeta.
  cbn [AI.metrics AI.feedback AI.sentimentAnalysis AI.politeness AI.relevance
       AI.fb_csatScore AI.csatScore].
  intros -> -> ->. apply csat_bands.
Qed.

Lemma starts_with_inv (p s : string) :
  Text.starts_with p s = true -> exists rest, s = p ++ rest.
Proof.
  revert s. induction p as [|a p IH]; intros s H.
  - exists s. reflexivity.
  - destruct s as [|b s]; [discriminate|]. cbn in H.
    apply andb_true_iff in H. destruct H as [Hab H].
    apply Ascii.eqb_eq in Hab. subst b.
    destruct (IH s H) as [rest ->]. exists rest. reflexivity.
Qed.

Lemma starts_with_app (p rest : string) : Text.starts_with p (p ++ rest) = true.
Proof.
  induction p as [|a p IH]; [reflexivity|].
  cbn. rewrite Ascii.eqb_refl. exact IH.
Qed.

Lemma starts_with_prefix (p q s : string) :
  Text.starts_with (p ++ q) s = true -> Text.starts_with p s = true.
Proof.
  intros H. apply starts_with_inv in H. destruct H as [rest ->].
  revert q rest. induction p as [|a p IH]; intros q rest; [reflexivity|].
  cbn. rewrite Ascii.eqb_refl. apply IH.
Qed.

Lemma contains_tail (p : string) (c : ascii) (s : string) :
  Text.contains p s = true -> Text.contains p (String c s) = true.
Proof.
  intros H. cbn [Text.contains]. rewrite H. apply orb_true_r.
Qed.

Lemma contains_drop_first (c : ascii) (p s : string) :
  Text.contains (String c p) s = true -> Text.contains p s = true.
Proof.
  induction s as [|b s IH]; cbn [Text.contains]; intros H.
  - rewrite orb_false_r in H. discriminate.
  - apply orb_true_iff in H. destruct H as [H | H].
    + cbn in H. apply andb_true_iff in H. destruct H as [_ H].
      apply contains_tail. destruct s; cbn [Text.contains]; rewrite H; reflexivity.
    + apply contains_tail. apply IH. exact H.
Qed.

Lemma contains_prefix (p q s : string) :
  Text.contains (p ++ q) s = true -> Text.contains p s = true.
Proof.
  induction s as [|b s IH]; cbn [Text.contains]; intros H.
  - rewrite orb_false_r in H. rewrite (starts_with_prefix _ _ _ H). reflexivity.
  - apply orb_true_iff in H. destruct H as [H | H].
    + rewrite (starts_with_prefix _ _ _ H). reflexivity.
    + rewrite (IH H). apply orb_true_r.
Qed.

(** X11 (analyzeCallOpening): the greeting pattern has the alternative
    [hi], which occurs inside [this]: a transcript that says "this is"
    is scored as greeting and as introducing, 90 at least, also when
    it greets nobody. *)
Theorem this_is_counts_as_a_greeting :
  forall transcript : string,
    Text.regex_test_i ["this is"] transcript = true ->
    exists z, AI.analyzeCallOpening transcript = Int z /\ 90 <= z.
Proof.
  intros t H. unfold Text.regex_test_i in H. cbn [existsb] in H.
  rewrite orb_false_r in H.
  assert (Hhi : Text.contains "hi" (Text.map_string Text.lower_ascii t) = true).
  { apply contains_drop_first with (c := "t"%char).
    apply contains_prefix with (q := "s is"). exact H. }
  unfold AI.analyzeCallOpening. cbv zeta.
  assert (Hgreet : Text.regex_test_i ["hello"; "hi"; "good"; "thank you"] t = true).
  { unfold Text.regex_test_i. cbn [existsb].
    change (Text.map_string Text.lower_ascii "hi") with "hi".
    rewrite Hhi. rewrite orb_true_r. reflexivity. }
  assert (Hintro : Text.regex_test_i ["my name is"; "i'm"; "this is"] t = true).
  { unfold Text.regex_test_i. cbn [existsb].
    change (Text.map_string Text.lower_ascii "this is") with "this is" in H |- *.
    rewrite H. rewrite !orb_true_r. reflexivity. }
  rewrite Hgreet, Hintro. eexists. split; [reflexivity|].
  unfold AI.bonus.
  destruct (Text.regex_test_i ["how can i help"; "what can i do"; "assist"] t);
    cbv iota; lia.
Qed.

End Findings.

(** *** The theorems with a hypothesis, at samples *)

Lemma metrics_are_percentages_witness :
  Ranges.classifiers_in_unit Samples.all_up /\
  AI.sentences_of Samples.greeting <> [] /\
  Ranges.percentage
    (AI.csatScore (AI.metrics (AI.analyze Samples.all_up Samples.greeting))) /\
  exists overall,
    AI.overallScore (AI.analyze Samples.all_up Samples.greeting) = Some overall /\
    Ranges.percentage overall.
Proof.
  assert (Hunit : Ranges.classifiers_in_unit Samples.all_up).
  { split; intros i s r H; injection H as <-;
      repeat constructor; cbn; discriminate. }
  assert (Hsentence : AI.sentences_of Samples.greeting <> [])
    by (vm_compute; discriminate).
  split; [exact Hunit|]. split; [exact Hsentence|].
  pose proof (metrics_are_percentages Samples.all_up Hunit Samples.greeting
                Hsentence) as H.
  cbv zeta in H. split; apply H.
Defined.

Lemma csat_feedback_and_score_can_disagree_witness :
  AI.csatScore (AI.metrics (AI.analyze Samples.all_up Samples.borderline)) =
    Int 85 /\
  AI.fb_csatScore (AI.feedback (AI.analyze Samples.all_up Samples.borderline)) <>
    "Excellent customer satisfaction potential".
Proof.
  destruct (csat_feedback_and_score_can_disagree
              Samples.all_up Samples.borderline 90 99 65
              ltac:(vm_compute; reflexivity) ltac:(vm_compute; reflexivity)
              ltac:(vm_compute; reflexivity))
    as [Hfeedback (z & Hz & Hscore)].
  split.
  - vm_compute. reflexivity.
  - intros H. apply Hfeedback in H. lia.
Defined.

Lemma this_is_counts_as_a_greeting_witness :
  exists z, AI.analyzeCallOpening "So this is the order" = Int z /\ 90 <= z.
Proof.
  apply this_is_counts_as_a_greeting. reflexivity.
Defined.

(** ** What a run may change *)

Section ConfinedRuns.

Import Confinement.

Variable env : CC.Env.
Variable k : CC.CallId.

Lemma confined_refl (w : CC.World) : confined k w w.
Proof.
  constructor.
  - reflexivity.
  - exists []. split; [symmetry; apply app_nil_r | constructor].
  - exists []. symmetry. apply app_nil_r.
  - intros c H. exists c. repeat split; assumption.
  - lia.
Qed.

Lemma confined_trans (w1 w2 w3 : CC.World) :
  confined k w1 w2 -> confined k w2 w3 -> confined k w1 w3.
Proof.
  intros [Ho1 (e1 & He1 & Hr1) (v1 & Hv1) Hf1 Hc1]
         [Ho2 (e2 & He2 & Hr2) (v2 & Hv2) Hf2 Hc2].
  constructor.
  - intros k' Hk. rewrite (Ho2 k' Hk). apply Ho1. exact Hk.
  - exists (e1 ++ e2)%list. split.
    + rewrite He2, He1, app_assoc. reflexivity.
    + apply Forall_app. split; assumption.
  - exists (v1 ++ v2)%list. rewrite Hv2, Hv1, map_app, app_assoc. reflexivity.
  - intros c Hc. destruct (Hf1 c Hc) as (c' & Hc' & Hp & Hn).
    destruct (Hf2 c' Hc') as (c'' & Hc'' & Hp' & Hn').
    exists c''. repeat split; congruence.
  - lia.
Qed.

Lemma keeps_ret {A : Type} (P : A -> Prop) (a : A) :
  P a -> keeps k P (CC.ret a).
Proof.
  intros HP w. split; [apply confined_refl|].
  cbn. intros a' H. injection H as <-. exact HP.
Qed.

Lemma keeps_lift {A : Type} (r : result A) :
  keeps k (fun _ => True) (CC.lift r).
Proof. intros w. split; [apply confined_refl | trivial]. Qed.

Lemma keeps_bind {A B : Type} (P : A -> Prop) (Q : B -> Prop)
  (m : CC.M A) (f : A -> CC.M B) :
  keeps k P m -> (forall a, P a -> keeps k Q (f a)) ->
  keeps k Q (CC.bind m f).
Proof.
  intros Hm Hf w. unfold CC.bind.
  destruct (Hm w) as [Hc HP]. destruct (m w) as [[a|e] w1]; cbn in *.
  - destruct (Hf a (HP a eq_refl) w1) as [Hc' HQ]. split.
    + eapply confined_trans; eassumption.
    + exact HQ.
  - split; [exact Hc | discriminate].
Qed.

Lemma keeps_weaken {A : Type} (P Q : A -> Prop) (m : CC.M A) :
  (forall a, P a -> Q a) -> keeps k P m -> keeps k Q m.
Proof.
  intros HPQ Hm w. destruct (Hm w) as [Hc HP]. split; [exact Hc|].
  intros a Ha. apply HPQ. apply HP. exact Ha.
Qed.

Lemma keeps_try_catch {A : Type} (P : A -> Prop) (body : CC.M A)
  (handler : Error -> CC.M A) :
  keeps k P body -> (forall e, keeps k P (handler e)) ->
  keeps k P (CC.try_catch_m body handler).
Proof.
  intros Hb Hh w. unfold CC.try_catch_m.
  destruct (Hb w) as [Hc HP]. destruct (body w) as [[a|e] w1]; cbn in *.
  - split; [exact Hc | exact HP].
  - destruct (Hh e w1) as [Hc' HP']. split.
    + eapply confined_trans; eassumption.
    + exact HP'.
Qed.

Lemma keeps_now : keeps k (fun _ => True) (CC.now env).
Proof.
  intros w. split; [|trivial]. cbn. constructor; cbn.
  - reflexivity.
  - exists []. split; [symmetry; apply app_nil_r | constructor].
  - exists []. symmetry. apply app_nil_r.
  - intros c H. exists c. repeat split; assumption.
  - lia.
Qed.

Lemma keeps_emit (e : CC.Event) :
  CC.room e = k -> CC.ev_callId e = k ->
  keeps k (fun _ => True) (CC.emit env e).
Proof.
  intros Hroom Hid w. split; [|trivial]. cbn.
  destruct (CC.global_io env); [|apply confined_refl].
  constructor; cbn.
  - reflexivity.
  - exists [e]. split; [reflexivity|]. constructor; [split; assumption | constructor].
  - exists []. symmetry. apply app_nil_r.
  - intros c H. exists c. repeat split; assumption.
  - lia.
Qed.

Lemma keeps_findById :
  keeps k (fun found => match found with
                        | Some d => of_call k d /\ CC.modified d = []
                        | None => True
                        end)
        (CC.findById k).
Proof.
  intros w. split; [apply confined_refl|]. cbn.
  intros a H. injection H as <-.
  destruct (CC.db w k); [split; reflexivity | trivial].
Qed.

Lemma write_path_keeps_file (src dst : CC.Call) (p : CC.Path) :
  CC.filePath (CC.write_path src dst p) = CC.filePath dst /\
  CC.originalName (CC.write_path src dst p) = CC.originalName dst.
Proof. destruct p; split; reflexivity. Qed.

Lemma fold_write_keeps_file (src : CC.Call) (paths : list CC.Path) :
  forall dst,
    CC.filePath (fold_left (CC.write_path src) paths dst) = CC.filePath dst /\
    CC.originalName (fold_left (CC.write_path src) paths dst) =
      CC.originalName dst.
Proof.
  induction paths as [|p paths IH]; intros dst; cbn [fold_left].
  - split; reflexivity.
  - destruct (IH (CC.write_path src dst p)) as [H1 H2].
    destruct (write_path_keeps_file src dst p) as [H3 H4].
    split; congruence.
Qed.

Lemma confined_store (w : CC.World) (stored v : CC.Call)
  (written : list CC.Status.t) :
  CC.db w k = Some stored ->
  CC.filePath v = CC.filePath stored ->
  CC.originalName v = CC.originalName stored ->
  confined k w (CC.store k v written w).
Proof.
  intros Hdb Hp Hn. constructor; cbn.
  - intros k' Hk. unfold CC.upd. destruct (Nat.eqb_spec k' k);
      [contradiction | reflexivity].
  - exists []. split; [symmetry; apply app_nil_r | constructor].
  - exists written. reflexivity.
  - intros c Hc. exists v. unfold CC.upd. rewrite Nat.eqb_refl.
    split; [reflexivity|]. split; congruence.
  - lia.
Qed.

Lemma keeps_save (d : CC.Document) :
  of_call k d ->
  keeps k (fun d' => of_call k d' /\ CC.modified d' = []) (CC.save env d).
Proof.
  intros Hd w. unfold CC.save. unfold of_call in Hd. rewrite Hd.
  destruct (CC.Schema.valid (CC.doc d)).
  - destruct (CC.db w k) as [stored|] eqn:Hdb; cbn.
    + split.
      * destruct (fold_write_keeps_file (CC.doc d) (CC.modified d) stored).
        apply confined_store with stored; assumption.
      * intros a H. injection H as <-. split; reflexivity.
    + split; [apply confined_refl | discriminate].
  - cbn. split; [apply confined_refl | discriminate].
Qed.

Lemma keeps_updateOne (set : CC.Call -> CC.Call) (newStatus : option CC.Status.t) :
  keeps_file set ->
  keeps k (fun _ => True) (CC.updateOne k set newStatus).
Proof.
  intros Hset w. unfold CC.updateOne.
  destruct (CC.db w k) as [stored|] eqn:Hdb; cbn.
  - split; [|trivial]. destruct (Hset stored).
    apply confined_store with stored; assumption.
  - split; [apply confined_refl | trivial].
Qed.

Lemma keeps_addProcessingStep (d : CC.Document) step status message duration error :
  of_call k d ->
  keeps k (fun d' => of_call k d' /\ CC.modified d' = [])
        (CC.addProcessingStep env d step status message duration error).
Proof.
  intros Hd. unfold CC.addProcessingStep.
  eapply keeps_bind; [apply keeps_now|]. intros timestamp _.
  eapply keeps_bind with (P := of_call k).
  - destruct status; try (apply keeps_ret; exact Hd).
    eapply keeps_bind; [apply keeps_now|]. intros date _.
    apply keeps_ret. exact Hd.
  - intros d' Hd'. apply keeps_save. exact Hd'.
Qed.

Ltac doc_of_call :=
  cbv beta in *; unfold of_call in *; unfold CC.assign; cbn [CC.doc_id];
  intuition congruence.

Ltac confine :=
  repeat first
    [ apply keeps_now
    | apply keeps_lift
    | apply keeps_emit; reflexivity
    | apply keeps_ret; exact I
    | apply keeps_findById
    | apply keeps_save; doc_of_call
    | apply keeps_addProcessingStep; doc_of_call
    | apply keeps_updateOne; intros c; split; reflexivity
    | eapply keeps_bind; [| intros ] ].

Lemma keeps_pipeline (startTime : Z) :
  keeps k (fun _ => True) (CC.pipeline env k startTime).
Proof.
  unfold CC.pipeline.
  eapply keeps_bind; [apply keeps_findById|]. intros [call|] Hcall.
  - confine.
  - apply keeps_ret. exact I.
Qed.

Lemma keeps_on_failure (error : Error) :
  keeps k (fun _ => True) (CC.on_failure env k error).
Proof.
  unfold CC.on_failure.
  eapply keeps_bind; [apply keeps_findById|]. intros [call|] Hcall.
  - confine.
  - confine.
Qed.

Lemma processCallAsync_confined (w : CC.World) :
  confined k w (snd (CC.processCallAsync env k w)).
Proof.
  assert (H : keeps k (fun _ => True) (CC.processCallAsync env k)).
  { unfold CC.processCallAsync.
    eapply keeps_bind; [apply keeps_now|]. intros startTime _.
    apply keeps_try_catch; [apply keeps_pipeline|].
    intros e. apply keeps_on_failure. }
  exact (proj1 (H w)).
Qed.

End ConfinedRuns.

(** X12 (processCallAsync): a run works on its own call only: the other documents are left as
    they are, every event goes to the room of the call, and the status
    values written are those of the call. *)
Theorem run_is_confined_to_its_call :
  forall (env : CC.Env) (callId : CC.CallId) (w : CC.World),
    let w' := snd (CC.processCallAsync env callId w) in
    (forall other, other <> callId -> CC.db w' other = CC.db w other) /\
    (exists events,
       CC.emitted w' = (CC.emitted w ++ events)%list /\
       Forall (fun e => CC.room e = callId /\ CC.ev_callId e = callId) events) /\
    (exists values,
       CC.statusWrites w' =
         (CC.statusWrites w ++ map (pair callId) values)%list).
Proof.
  intros env callId w w'.
  destruct (processCallAsync_confined env callId w) as [H1 H2 H3 _ _].
  repeat split; assumption.
Qed.

(** X13 (processCallAsync): a run never removes the document of its call and never changes the
    file it points to. *)
Theorem run_keeps_the_call_and_its_file :
  forall (env : CC.Env) (callId : CC.CallId) (w : CC.World) (c : CC.Call),
    CC.db w callId = Some c ->
    exists c',
      CC.db (snd (CC.processCallAsync env callId w)) callId = Some c' /\
      CC.filePath c' = CC.filePath c /\
      CC.originalName c' = CC.originalName c.
Proof.
  intros env callId w c H.
  exact (Confinement.file_kept _ _ _ (processCallAsync_confined env callId w) c H).
Qed.

Lemma run_keeps_the_call_and_its_file_witness :
  exists c',
    CC.db (snd (CC.processCallAsync (Samples.env_of Samples.all_up) 7%nat
                  (Samples.store_of Samples.fresh_call))) 7%nat = Some c' /\
    CC.filePath c' = "uploads/call.mp3" /\
    CC.originalName c' = "call.mp3".
Proof.
  exact (run_keeps_the_call_and_its_file
           (Samples.env_of Samples.all_up) 7%nat
           (Samples.store_of Samples.fresh_call) Samples.fresh_call eq_refl).
Defined.

(** ** The runs of the pipeline, from end to end *)

Section Runs.

Variable env : CC.Env.

Lemma map_last_inv {A B : Type} (f : A -> B) (l : list A) (pre : list B) (x : B) :
  map f l = (pre ++ [x])%list ->
  exists l' y, l = (l' ++ [y])%list /\ f y = x.
Proof.
  destruct l as [|a l0 _] using rev_ind; intros H.
  - symmetry in H. apply app_eq_nil in H. destruct H as [_ H]. discriminate.
  - rewrite map_app in H. cbn in H. apply app_inj_tail in H.
    exists l0, a. split; [reflexivity | apply H].
Qed.



(** Every run on a stored Call that passes the schema, in one statement:
    the result, the stored status, the entries added to the history and
    the events sent. *)
Lemma run_summary (callId : CC.CallId) (w : CC.World) (c : CC.Call) :
  CC.db w callId = Some c ->
  CC.Schema.valid c = true ->
  exists r W c' history rows events sent,
    CC.processCallAsync env callId w = (r, W) /\
    CC.db W callId = Some c' /\
    CC.processingHistory c' = (CC.processingHistory c ++ history)%list /\
    CC.error c' = CC.error c /\
    map (fun h => (CC.step h, CC.h_status h, CC.h_error h)) history =
      ("upload", CC.Step.completed, None) :: rows /\
    (1 <= List.length rows <= 6)%nat /\
    Forall (fun x => snd (fst x) <> CC.Step.failed /\ snd x = None) rows /\
    CC.emitted W = (CC.emitted w ++ events)%list /\
    map CC.ev_status events =
      (if CC.global_io env then sent ++ [CC.status c'] else [])%list /\
    (CC.status c' = CC.Status.completed \/
     CC.status c' = CC.Status.transcribing \/
     CC.status c' = CC.Status.analyzing) /\
    (CC.status c' = CC.Status.completed <-> r = Ok tt) /\
    (r = Ok tt <->
     exists t, AI.whisper (CC.svc env) (CC.filePath c) = AI.SttOk (Some t) /\
               CC.Schema.valid_analysis (AI.analyze (CC.svc env) t) = true).
Proof.
  intros Hdb Hvalid.
  destruct (AI.whisper (CC.svc env) (CC.filePath c)) as [[t|]|st] eqn:Hw.
  - destruct (CC.Schema.valid_analysis (AI.analyze (CC.svc env) t)) eqn:Hva.
    + destruct (run_success env callId w c t Hdb Hvalid Hw Hva)
        as (W & ? & ? & history & ? & events
            & Hrun & _ & _ & HdbW & Hhist & _ & _ & Hem & Hev).
      exists (Ok tt), W. eexists. exists history. eexists. exists events.
      exists [ CC.Status.uploaded; CC.Status.transcribing; CC.Status.transcribed;
               CC.Status.analyzing; CC.Status.analyzed;
               CC.Status.generating_coaching ].
      split; [exact Hrun|]. split; [exact HdbW|].
      cbn [CC.processingHistory CC.error CC.status].
      split; [reflexivity|]. split; [reflexivity|]. split; [exact Hhist|].
      split; [cbn; lia|]. split; [repeat constructor; discriminate|].
      split; [exact Hem|]. split; [exact Hev|]. split; [left; reflexivity|].
      split; [split; reflexivity|].
      split; [intros _; exists t; split; [reflexivity | exact Hva] | reflexivity].
    + destruct (run_analysis_refused env callId w c t Hdb Hvalid Hw Hva)
        as (W & ? & refused & ? & history & ? & events & ?
            & Hrun & _ & _ & HdbW & Hhist & _ & Hem & Hev & _).
      exists (Throw (CC.ValidationError env refused)), W. eexists.
      exists history. eexists. exists events.
      exists [ CC.Status.uploaded; CC.Status.transcribing; CC.Status.transcribed ].
      split; [exact Hrun|]. split; [exact HdbW|].
      cbn [CC.processingHistory CC.error CC.status].
      split; [reflexivity|]. split; [reflexivity|]. split; [exact Hhist|].
      split; [cbn; lia|]. split; [repeat constructor; discriminate|].
      split; [exact Hem|]. split; [exact Hev|].
      split; [right; right; reflexivity|].
      split; [split; discriminate|].
      split; [discriminate|]. intros (t' & Ht' & Hva'). congruence.
  - destruct (run_analysis_failure env callId w c Hdb Hvalid Hw)
      as (W & ? & refused & ? & history & ? & events & ?
          & Hrun & _ & _ & HdbW & Hhist & _ & Hem & Hev & _).
    exists (Throw (CC.ValidationError env refused)), W. eexists.
    exists history. eexists. exists events.
    exists [ CC.Status.uploaded; CC.Status.transcribing; CC.Status.transcribed ].
    split; [exact Hrun|]. split; [exact HdbW|].
    cbn [CC.processingHistory CC.error CC.status].
    split; [reflexivity|]. split; [reflexivity|]. split; [exact Hhist|].
    split; [cbn; lia|]. split; [repeat constructor; discriminate|].
    split; [exact Hem|]. split; [exact Hev|].
    split; [right; right; reflexivity|].
    split; [split; discriminate|].
    split; [discriminate|]. intros (t' & Ht' & _). discriminate.
  - destruct (run_transcription_failure env callId w c st Hdb Hvalid Hw)
      as (W & ? & refused & history & events & ?
          & Hrun & _ & HdbW & Hhist & _ & Hem & Hev & _).
    exists (Throw (CC.ValidationError env refused)), W. eexists.
    exists history. eexists. exists events.
    exists [ CC.Status.uploaded ].
    split; [exact Hrun|]. split; [exact HdbW|].
    cbn [CC.processingHistory CC.error CC.status].
    split; [reflexivity|]. split; [reflexivity|]. split; [exact Hhist|].
    split; [cbn; lia|]. split; [repeat constructor; discriminate|].
    split; [exact Hem|]. split; [exact Hev|].
    split; [right; left; reflexivity|].
    split; [split; discriminate|].
    split; [discriminate|]. intros (t' & Ht' & _). discriminate.
Qed.


(** X15 (processCallAsync): a run for an id under which no Call is stored
    writes nothing and sends nothing, not even the error notification: it
    only reads the clock. *)
Theorem run_without_its_call_is_silent (callId : CC.CallId) (w : CC.World) :
  CC.db w callId = None ->
  exists W,
    CC.processCallAsync env callId w = (Ok tt, W) /\
    CC.db W = CC.db w /\
    CC.emitted W = CC.emitted w /\
    CC.statusWrites W = CC.statusWrites w.
Proof.
  intros Hdb. exists (CC.tick w). rewrite (run_missing env callId w Hdb).
  destruct w. repeat split; reflexivity.
Qed.


(** X17 (processCallAsync): when the socket server is there, the last
    notification of a run on a stored Call that passes the schema carries
    the status that the run leaves in the store, also when the run
    fails. *)
Theorem last_notification_carries_the_stored_status
  (callId : CC.CallId) (w : CC.World) (c : CC.Call) :
  CC.global_io env = true ->
  CC.db w callId = Some c ->
  CC.Schema.valid c = true ->
  exists c' events last,
    CC.db (snd (CC.processCallAsync env callId w)) callId = Some c' /\
    CC.emitted (snd (CC.processCallAsync env callId w)) =
      (events ++ [last])%list /\
    CC.ev_status last = CC.status c'.
Proof.
  intros Hio Hdb Hvalid.
  destruct (run_summary callId w c Hdb Hvalid)
    as (r & W & c' & ? & ? & events & sent & Hrun & HdbW & _ & _ & _ & _ & _
        & Hem & Hev & _).
  rewrite Hrun. cbn [snd]. rewrite Hio in Hev.
  destruct (map_last_inv _ _ _ _ Hev) as (events' & last & -> & Hlast).
  exists c', (CC.emitted w ++ events')%list, last.
  split; [exact HdbW|]. split; [|exact Hlast].
  rewrite Hem. apply app_assoc.
Qed.


(** X19 (processCallAsync): when the speech-to-text service gives a text
    and the stored Call and the analysis of the text pass the schema, the
    run stores the transcription, the analysis of that text, the coaching
    plan generated from the analysis, the four processing times and the
    constant duration 45 of [transcribeAudio]; the [error] field is not
    touched. *)
Theorem successful_run_stores_its_results
  (callId : CC.CallId) (w : CC.World) (c : CC.Call) (t : string) :
  CC.db w callId = Some c ->
  CC.Schema.valid c = true ->
  AI.whisper (CC.svc env) (CC.filePath c) = AI.SttOk (Some t) ->
  CC.Schema.valid_analysis (AI.analyze (CC.svc env) t) = true ->
  exists W c' transcription plan,
    CC.processCallAsync env callId w = (Ok tt, W) /\
    CC.db W callId = Some c' /\
    CC.status c' = CC.Status.completed /\
    CC.transcript c' = Some transcription /\
    AI.text transcription = Some t /\
    CC.duration c' = 45 /\
    CC.analysis c' = Some (AI.analyze (CC.svc env) t) /\
    AI.generateCoachingPlanFromAnalysis (AI.analyze (CC.svc env) t) (Some t) =
      Ok plan /\
    CC.generated (CC.coachingPlan c') = true /\
    CC.sp_feedback (CC.coachingPlan c') = Some (AI.Plan.feedback plan) /\
    CC.sp_recommendations (CC.coachingPlan c') =
      Some (CC.JSON_stringify (AI.Plan.recommendations plan)) /\
    (CC.processingTime (CC.performance c') <> None /\
     CC.transcriptionTime (CC.performance c') <> None /\
     CC.analysisTime (CC.performance c') <> None /\
     CC.coachingTime (CC.performance c') <> None) /\
    CC.error c' = CC.error c.
Proof.
  intros Hdb Hvalid Hw Hva.
  destruct (run_success env callId w c t Hdb Hvalid Hw Hva)
    as (W & transcription & plan & ? & ? & ? & Hrun & Htr & Hplan & HdbW & _
        & Htimes & _).
  exists W. eexists. exists transcription, plan.
  split; [exact Hrun|]. split; [exact HdbW|].
  cbn [CC.status CC.transcript CC.duration CC.analysis CC.coachingPlan
       CC.generated CC.sp_feedback CC.sp_recommendations CC.performance
       CC.error].
  unfold AI.transcribeAudio in Htr. rewrite Hw in Htr. injection Htr as <-.
  repeat split; try reflexivity; try exact Hplan; apply Htimes.
Qed.



End Runs.

(** *** The runs at samples *)


Lemma run_without_its_call_is_silent_witness :
  exists W,
    CC.processCallAsync (Samples.env_of Samples.all_up) 8%nat
                        (Samples.store_of Samples.fresh_call) = (Ok tt, W) /\
    CC.db W = CC.db (Samples.store_of Samples.fresh_call) /\
    CC.emitted W = [] /\
    CC.statusWrites W = [].
Proof.
  exact (run_without_its_call_is_silent
           (Samples.env_of Samples.all_up) 8%nat
           (Samples.store_of Samples.fresh_call) eq_refl).
Defined.


Lemma last_notification_carries_the_stored_status_witness :
  exists c' events last,
    CC.db (snd (CC.processCallAsync (Samples.env_of Samples.all_down) 7%nat
                  (Samples.store_of Samples.fresh_call))) 7%nat = Some c' /\
    CC.emitted (snd (CC.processCallAsync (Samples.env_of Samples.all_down) 7%nat
                       (Samples.store_of Samples.fresh_call))) =
      (events ++ [last])%list /\
    CC.ev_status last = CC.status c'.
Proof.
  exact (last_notification_carries_the_stored_status
           (Samples.env_of Samples.all_down) 7%nat
           (Samples.store_of Samples.fresh_call) Samples.fresh_call
           eq_refl eq_refl eq_refl).
Defined.


Lemma successful_run_stores_its_results_witness :
  exists W c',
    CC.processCallAsync (Samples.env_of Samples.all_up) 7%nat
                        (Samples.store_of Samples.fresh_call) = (Ok tt, W) /\
    CC.db W 7%nat = Some c' /\
    CC.status c' = CC.Status.completed /\
    CC.analysis c' = Some (AI.analyze Samples.all_up Samples.greeting) /\
    CC.duration c' = 45.
Proof.
  destruct (successful_run_stores_its_results
              (Samples.env_of Samples.all_up) 7%nat
              (Samples.store_of Samples.fresh_call) Samples.fresh_call
              Samples.greeting eq_refl eq_refl eq_refl
              ltac:(vm_compute; reflexivity))
    as (W & c' & transcription & plan & Hrun & Hdb & Hstatus & _ & _ & Hduration
        & Hanalysis & _).
  exists W, c'. repeat split; assumption.
Defined.



(** ** The handlers that read a Call after a run *)

Section Handlers.

Variable env : CC.Env.

Lemma getCallAnalysis_refuses (found : CallHandlers.OwnedCall)
  (reqUser : CallHandlers.User) :
  CC.status (CallHandlers.call found) <> CC.Status.analyzed ->
  CallHandlers.getCallAnalysis (Some found) reqUser =
    CallHandlers.mkResponse 403
      (CallHandlers.Failure "Not authorized to access this call" None) \/
  CallHandlers.getCallAnalysis (Some found) reqUser =
    CallHandlers.mkResponse 400
      (CallHandlers.Failure "Call analysis not completed yet"
         (Some (CC.status (CallHandlers.call found)))).
Proof.
  intros Hstatus. unfold CallHandlers.getCallAnalysis.
  destruct (CallHandlers.not_authorized found reqUser); [left; reflexivity|].
  right. destruct (CC.status (CallHandlers.call found));
    first [reflexivity | contradiction].
Qed.

(** X22 (getCallAnalysis, processCallAsync): the analysis is served for the
    status [analyzed] only, and no run leaves that status: after a run on
    a stored Call that passes the schema, whether the run has returned or
    thrown, [getCallAnalysis] answers 403 or 400 to every user, also to
    the owner of a completed call. *)
Theorem analysis_of_a_finished_run_is_refused
  (callId : CC.CallId) (w : CC.World) (c : CC.Call) :
  CC.db w callId = Some c ->
  CC.Schema.valid c = true ->
  exists c',
    CC.db (snd (CC.processCallAsync env callId w)) callId = Some c' /\
    forall (owner : string) (reqUser : CallHandlers.User),
      let response :=
        CallHandlers.getCallAnalysis
          (Some (CallHandlers.mkOwnedCall owner c')) reqUser in
      response =
        CallHandlers.mkResponse 403
          (CallHandlers.Failure "Not authorized to access this call" None) \/
      response =
        CallHandlers.mkResponse 400
          (CallHandlers.Failure "Call analysis not completed yet"
             (Some (CC.status c'))).
Proof.
  intros Hdb Hvalid.
  destruct (run_summary env callId w c Hdb Hvalid)
    as (r & W & c' & ? & ? & ? & ? & Hrun & HdbW & _ & _ & _ & _ & _ & _ & _
        & Hstatus & _).
  rewrite Hrun. cbn [snd]. exists c'. split; [exact HdbW|].
  intros owner reqUser. apply getCallAnalysis_refuses.
  cbn [CallHandlers.call]. intros Hanalyzed. rewrite Hanalyzed in Hstatus.
  destruct Hstatus as [H | [H | H]]; discriminate.
Qed.

(** X23 (getCoachingPlan, processCallAsync): after a successful run (the
    stored Call and the analysis of the text pass the schema) the owner of
    the call gets from [getCoachingPlan] the plan that
    [generateCoachingPlanFromAnalysis] made of the analysis: the lists
    stored as JSON texts come back as they were generated. *)
Theorem coaching_plan_is_served_as_generated
  (callId : CC.CallId) (w : CC.World) (c : CC.Call) (t : string) :
  CC.db w callId = Some c ->
  CC.Schema.valid c = true ->
  AI.whisper (CC.svc env) (CC.filePath c) = AI.SttOk (Some t) ->
  CC.Schema.valid_analysis (AI.analyze (CC.svc env) t) = true ->
  exists W c' plan,
    CC.processCallAsync env callId w = (Ok tt, W) /\
    CC.db W callId = Some c' /\
    AI.generateCoachingPlanFromAnalysis (AI.analyze (CC.svc env) t) (Some t) =
      Ok plan /\
    forall reqUser : CallHandlers.User,
      CallHandlers.getCoachingPlan
        (Some (CallHandlers.mkOwnedCall (CallHandlers.id reqUser) c')) reqUser =
      CallHandlers.mkResponse 200
        (CallHandlers.CoachingData
           (CallHandlers.mkParsedCoachingPlan true
              (Some (AI.Plan.feedback plan))
              (AI.Plan.recommendations plan)
              (AI.Plan.resources plan)
              (AI.Plan.quiz plan)
              (Some (AI.Plan.completionCriteria plan)))
           (Some (AI.analyze (CC.svc env) t))
           CC.Status.completed).
Proof.
  intros Hdb Hvalid Hw Hva.
  destruct (run_success env callId w c t Hdb Hvalid Hw Hva)
    as (W & ? & plan & ? & ? & ? & Hrun & _ & Hplan & HdbW & _).
  exists W. eexists. exists plan.
  split; [exact Hrun|]. split; [exact HdbW|]. split; [exact Hplan|].
  intros reqUser. unfold CallHandlers.getCoachingPlan, CallHandlers.not_authorized.
  cbn [CallHandlers.user CallHandlers.call]. rewrite String.eqb_refl.
  reflexivity.
Qed.

End Handlers.

Lemma analysis_of_a_finished_run_is_refused_witness :
  exists c',
    CC.db (snd (CC.processCallAsync (Samples.env_of Samples.all_up) 7%nat
                  (Samples.store_of Samples.fresh_call))) 7%nat = Some c' /\
    CallHandlers.getCallAnalysis
      (Some (CallHandlers.mkOwnedCall "u1" c'))
      (CallHandlers.mkUser "u1" "agent") =
    CallHandlers.mkResponse 400
      (CallHandlers.Failure "Call analysis not completed yet"
         (Some (CC.status c'))).
Proof.
  destruct (analysis_of_a_finished_run_is_refused
              (Samples.env_of Samples.all_up) 7%nat
              (Samples.store_of Samples.fresh_call) Samples.fresh_call
              eq_refl eq_refl)
    as (c' & Hdb & Hrefused).
  exists c'. split; [exact Hdb|].
  destruct (Hrefused "u1" (CallHandlers.mkUser "u1" "agent")) as [H | H];
    [|exact H].
  unfold CallHandlers.getCallAnalysis, CallHandlers.not_authorized in H.
  cbn in H. destruct (negb _) in H; discriminate.
Defined.

Lemma coaching_plan_is_served_as_generated_witness :
  exists W c' plan,
    CC.processCallAsync (Samples.env_of Samples.all_up) 7%nat
                        (Samples.store_of Samples.fresh_call) = (Ok tt, W) /\
    CC.db W 7%nat = Some c' /\
    CallHandlers.code
      (CallHandlers.getCoachingPlan
         (Some (CallHandlers.mkOwnedCall "u1" c'))
         (CallHandlers.mkUser "u1" "agent")) = 200 /\
    CallHandlers.body
      (CallHandlers.getCoachingPlan
         (Some (CallHandlers.mkOwnedCall "u1" c'))
         (CallHandlers.mkUser "u1" "agent")) =
      CallHandlers.CoachingData
        (CallHandlers.mkParsedCoachingPlan true
           (Some (AI.Plan.feedback plan)) (AI.Plan.recommendations plan)
           (AI.Plan.resources plan) (AI.Plan.quiz plan)
           (Some (AI.Plan.completionCriteria plan)))
        (Some (AI.analyze Samples.all_up Samples.greeting))
        CC.Status.completed.
Proof.
  destruct (coaching_plan_is_served_as_generated
              (Samples.env_of Samples.all_up) 7%nat
              (Samples.store_of Samples.fresh_call) Samples.fresh_call
              Samples.greeting eq_refl eq_refl eq_refl
              ltac:(vm_compute; reflexivity))
    as (W & c' & plan & Hrun & Hdb & _ & Hserved).
  exists W, c', plan. split; [exact Hrun|]. split; [exact Hdb|].
  specialize (Hserved (CallHandlers.mkUser "u1" "agent")).
  cbn [CallHandlers.id] in Hserved. rewrite Hserved.
  split; reflexivity.
Defined.

(** ** The analysis routes *)

Section Routes.

Variable svc : AI.Services.

(** X24 (POST /analyze): for a transcript that is absent or a string, the
    route answers 400 exactly when the transcript is absent or empty, and
    200 with the analysis otherwise; the answer 500 of its [catch] is
    never given. *)
Theorem analyze_route_answers_400_or_200 :
  forall transcript : option string,
    (AnalysisRoutes.missing transcript = true /\
     AnalysisRoutes.analyze svc transcript =
       AnalysisRoutes.mkResponse 400
         (AnalysisRoutes.Failure "Transcript is required")) \/
    (exists t,
       transcript = Some t /\ t <> EmptyString /\
       AnalysisRoutes.analyze svc transcript =
         AnalysisRoutes.mkResponse 200
           (AnalysisRoutes.AnalysisData (AI.analyze svc t))).
Proof.
  intros [[|a t]|]; [left | right | left]; try (split; reflexivity).
  exists (String a t). split; [reflexivity|]. split; [discriminate|].
  reflexivity.
Qed.

(** X25 (POST /coaching): with an analysis and a transcript that is not
    empty the route answers 200 with the plan made from the analysis
    alone, whether the generation service answers or not; without one of
    them it answers 400; it never answers 500. *)
Theorem coaching_route_answers_400_or_200 :
  forall (analysis : option AI.Analysis) (transcript : option string),
    ((analysis = None \/ AnalysisRoutes.missing transcript = true) /\
     AnalysisRoutes.coaching svc analysis transcript =
       AnalysisRoutes.mkResponse 400
         (AnalysisRoutes.Failure "Analysis and transcript are required")) \/
    (exists a plan,
       analysis = Some a /\ AnalysisRoutes.missing transcript = false /\
       AI.generateCoachingPlanFromAnalysis a transcript = Ok plan /\
       AnalysisRoutes.coaching svc analysis transcript =
         AnalysisRoutes.mkResponse 200 (AnalysisRoutes.CoachingData plan)).
Proof.
  intros [a|] transcript; [|left; split; [left; reflexivity | reflexivity]].
  unfold AnalysisRoutes.coaching.
  destruct (AnalysisRoutes.missing transcript) eqn:Hmissing.
  - left. split; [right; reflexivity | reflexivity].
  - right. destruct (generateCoachingPlanFromAnalysis_Ok a transcript)
      as [plan Hplan].
    exists a, plan. split; [reflexivity|]. split; [reflexivity|].
    split; [exact Hplan|].
    rewrite generateCoachingPlan_local, Hplan. reflexivity.
Qed.

End Routes.

(** ** The authentication middleware *)

Section Authentication.

Variable env : Auth.Env.

Lemma append_empty (s : string) : s ++ EmptyString = s.
Proof. induction s as [|a s IH]; cbn; [reflexivity | rewrite IH; reflexivity]. Qed.

Lemma append_assoc (a b c : string) : (a ++ b) ++ c = a ++ (b ++ c).
Proof. induction a as [|x a IH]; cbn; [reflexivity | rewrite IH; reflexivity]. Qed.

Lemma rev_onto_app (s acc : string) :
  Text.rev_onto s acc = Text.rev_onto s EmptyString ++ acc.
Proof.
  revert acc. induction s as [|c s IH]; intros acc; cbn; [reflexivity|].
  rewrite IH, (IH (String c EmptyString)).
  rewrite append_assoc. reflexivity.
Qed.

Lemma rev_push (c : ascii) (cur rest : string) :
  Text.rev (String c cur) ++ rest = Text.rev cur ++ String c rest.
Proof.
  unfold Text.rev. cbn [Text.rev_onto].
  rewrite (rev_onto_app cur (String c EmptyString)).
  rewrite append_assoc. reflexivity.
Qed.

(** Up to the first space the text is read into the current piece. *)
Lemma split_at_piece (piece rest cur : string) :
  ~ In " "%char (list_ascii_of_string piece) ->
  Text.split_at " " (piece ++ String " " rest) cur =
    (Text.rev cur ++ piece) :: Text.split_at " " rest EmptyString.
Proof.
  revert cur. induction piece as [|c piece IH]; intros cur Hno.
  - cbn. rewrite append_empty. reflexivity.
  - cbn [append Text.split_at].
    destruct (Ascii.eqb c " ") eqn:E.
    + apply Ascii.eqb_eq in E. subst c. exfalso. apply Hno. left. reflexivity.
    + rewrite IH by (intros Hin; apply Hno; right; exact Hin).
      rewrite rev_push. reflexivity.
Qed.

Lemma split_at_last (piece cur : string) :
  ~ In " "%char (list_ascii_of_string piece) ->
  Text.split_at " " piece cur = [Text.rev cur ++ piece].
Proof.
  revert cur. induction piece as [|c piece IH]; intros cur Hno.
  - cbn. rewrite append_empty. reflexivity.
  - cbn [Text.split_at].
    destruct (Ascii.eqb c " ") eqn:E.
    + apply Ascii.eqb_eq in E. subst c. exfalso. apply Hno. left. reflexivity.
    + rewrite IH by (intros Hin; apply Hno; right; exact Hin).
      rewrite rev_push. reflexivity.
Qed.

(** X26 (protect): the scheme of the [authorization] header is only checked
    as a prefix, and the token is what stands between the first and the
    second space: [Bearer<x> <token>] and [Bearer<x> <token> <more>] give
    the token for every [x] without a space, and a header with two spaces
    after the scheme gives the empty token, which is refused. *)
Theorem bearer_token_is_the_second_piece :
  forall x token more : string,
    ~ In " "%char (list_ascii_of_string x) ->
    ~ In " "%char (list_ascii_of_string token) ->
    Auth.bearer_token (Some ("Bearer" ++ x ++ " " ++ token)) = Some token /\
    Auth.bearer_token (Some ("Bearer" ++ x ++ " " ++ token ++ " " ++ more)) =
      Some token /\
    Auth.protect env (Some ("Bearer" ++ x ++ "  " ++ token)) =
      Auth.Answer 401 "Not authorized to access this route".
Proof.
  intros x token more Hx Htoken.
  assert (Hstart : forall rest, Text.starts_with "Bearer" ("Bearer" ++ rest) = true)
    by reflexivity.
  assert (Hbearer : ~ In " "%char (list_ascii_of_string ("Bearer" ++ x))).
  { cbn. intros H. repeat (destruct H as [H | H]; [discriminate|]). exact (Hx H). }
  assert (Hsplit : forall rest,
            Text.split_char " " ("Bearer" ++ x ++ " " ++ rest) =
              ("Bearer" ++ x) :: Text.split_at " " rest EmptyString).
  { intros rest. unfold Text.split_char.
    change ("Bearer" ++ x ++ " " ++ rest)
      with (("Bearer" ++ x) ++ String " " rest).
    rewrite split_at_piece by exact Hbearer. reflexivity. }
  split; [|split].
  - unfold Auth.bearer_token. rewrite Hstart, Hsplit.
    rewrite split_at_last by exact Htoken. reflexivity.
  - unfold Auth.bearer_token. rewrite Hstart, Hsplit.
    change (token ++ " " ++ more) with (token ++ String " " more).
    rewrite split_at_piece by exact Htoken. reflexivity.
  - unfold Auth.protect, Auth.bearer_token.
    change ("Bearer" ++ x ++ "  " ++ token)
      with ("Bearer" ++ x ++ " " ++ (EmptyString ++ String " " token)).
    rewrite Hstart, Hsplit.
    rewrite split_at_piece by (intros []). reflexivity.
Qed.

(** X27 (protect): [next] is called only for a header with a token that
    [jwt.verify] accepts under the configured or the fallback secret and
    that names a stored, active user, who becomes [req.user]; every other
    request is answered 401. *)
Theorem protect_passes_verified_active_users_only :
  forall authorization : option string,
    (exists token decoded_id user,
       Auth.bearer_token authorization = Some token /\
       token <> EmptyString /\
       Auth.jwt_verify env token
         (match Auth.JWT_SECRET env with
          | Some secret => str_or secret "omind_ai_fallback_jwt_secret_2024"
          | None => "omind_ai_fallback_jwt_secret_2024"
          end) = Some decoded_id /\
       Auth.findById env decoded_id = Auth.Found user /\
       Auth.isActive user = true /\
       Auth.protect env authorization = Auth.Next (Some user)) \/
    (exists error, Auth.protect env authorization = Auth.Answer 401 error).
Proof.
  intros authorization. unfold Auth.protect. cbv zeta.
  destruct (Auth.bearer_token authorization) as [[|a token]|] eqn:Htoken;
    try (right; eexists; reflexivity).
  destruct (Auth.jwt_verify env (String a token) _) as [decoded_id|] eqn:Hverify;
    [|right; eexists; reflexivity].
  destruct (Auth.findById env decoded_id) as [user| |] eqn:Hfind;
    try (right; eexists; reflexivity).
  destruct (Auth.isActive user) eqn:Hactive;
    [|right; eexists; reflexivity].
  left. exists (String a token), decoded_id, user.
  repeat split; try assumption; try reflexivity. discriminate.
Qed.

(** X28 (protect, authorize): behind [protect], [authorize] never answers
    401: it lets the user of [protect] through when the role is listed and
    answers 403 otherwise. *)
Theorem authorize_behind_protect_never_answers_401 :
  forall (authorization : option string) (roles : list string)
         (reqUser : option Auth.User),
    Auth.protect env authorization = Auth.Next reqUser ->
    exists user,
      reqUser = Some user /\ Auth.isActive user = true /\
      Auth.authorize roles reqUser =
        if Text.includes roles (Auth.role user)
        then Auth.Next (Some user)
        else Auth.Answer 403 ("User role " ++ Auth.role user ++
                              " is not authorized to access this route").
Proof.
  intros authorization roles reqUser. unfold Auth.protect. cbv zeta.
  destruct (Auth.bearer_token authorization) as [[|a token]|];
    try discriminate.
  destruct (Auth.jwt_verify env (String a token) _) as [decoded_id|];
    [|discriminate].
  destruct (Auth.findById env decoded_id) as [user| |]; try discriminate.
  destruct (Auth.isActive user) eqn:Hactive; [|discriminate].
  cbn [negb]. intros H. injection H as <-.
  exists user. split; [reflexivity|]. split; [exact Hactive|].
  unfold Auth.authorize. destruct (Text.includes roles (Auth.role user));
    reflexivity.
Qed.

End Authentication.

Lemma bearer_token_is_the_second_piece_witness :
  Auth.bearer_token (Some "Bearer good") = Some "good" /\
  Auth.bearer_token (Some "Bearer good and more") = Some "good" /\
  Auth.protect Samples.auth_env (Some "Bearer  good") =
    Auth.Answer 401 "Not authorized to access this route".
Proof.
  apply (bearer_token_is_the_second_piece Samples.auth_env
           EmptyString "good" "and more").
  - intros [].
  - cbn. intros H. repeat (destruct H as [H | H]; [discriminate|]). exact H.
Defined.

Lemma authorize_behind_protect_never_answers_401_witness :
  Auth.protect Samples.auth_env (Some "Bearer good") =
    Auth.Next (Some Samples.agent) /\
  exists user,
    Some Samples.agent = Some user /\ Auth.isActive user = true /\
    Auth.authorize ["admin"; "supervisor"] (Some Samples.agent) =
      if Text.includes ["admin"; "supervisor"] (Auth.role user)
      then Auth.Next (Some user)
      else Auth.Answer 403 ("User role " ++ Auth.role user ++
                            " is not authorized to access this route").
Proof.
  split; [reflexivity|].
  exact (authorize_behind_protect_never_answers_401 Samples.auth_env
           (Some "Bearer good") ["admin"; "supervisor"] (Some Samples.agent)
           eq_refl).
Defined.

(** ** The rate limiter *)

Section Limiter.

Lemma Qfloor_half_nonneg (q : Q) : (0 <= q)%Q -> 0 <= Qfloor (q + (1 # 2)).
Proof.
  intros H. change 0 with (Qfloor 0). apply Qfloor_resp_le.
  apply Qle_trans with q; [exact H|].
  rewrite <- (Qplus_0_r q) at 1. apply Qplus_le_compat; [apply Qle_refl|].
  discriminate.
Qed.

Lemma retry_seconds_positive (msBeforeNext : num) :
  (forall q, msBeforeNext = Num q -> (0 <= q)%Q) ->
  exists secs, RateLimiter.retry_seconds msBeforeNext = Int secs /\ 1 <= secs.
Proof.
  intros Hpos. unfold RateLimiter.retry_seconds.
  destruct msBeforeNext as [|q].
  - exists 1. split; [reflexivity | lia].
  - specialize (Hpos q eq_refl).
    unfold div, Int. change (Qeq_bool (inject_Z 1000) 0) with false. cbv iota.
    unfold Math_round, or_else, truthy, Int.
    set (z := Qfloor (q / inject_Z 1000 + (1 # 2))).
    assert (Hz : 0 <= z).
    { apply Qfloor_half_nonneg. apply Qle_shift_div_l; [reflexivity|].
      rewrite Qmult_0_l. exact Hpos. }
    destruct (Qeq_bool (inject_Z z) 0) eqn:E; cbn [negb].
    + exists 1. split; [reflexivity | lia].
    + exists z. split; [reflexivity|].
      destruct (Z.eq_dec z 0) as [Hz0 | Hz0]; [|lia].
      rewrite Hz0 in E. discriminate.
Qed.

(** X29 (rateLimiterMiddleware): a refused request is told to wait a whole
    number of seconds, one at least, also when the limiter reports no
    delay, or less than half a second; the [Retry-After] header, the
    message and the body carry the same number. *)
Theorem refused_request_waits_a_second_at_least :
  forall msBeforeNext : num,
    (forall q, msBeforeNext = Num q -> (0 <= q)%Q) ->
    exists secs,
      1 <= secs /\
      RateLimiter.rateLimiterMiddleware (Some msBeforeNext) =
        RateLimiter.Answer429
          (RateLimiter.mkTooManyRequests
             (RateLimiter.String_of_integer secs)
             "Too many requests"
             ("Rate limit exceeded. Try again in " ++
              RateLimiter.String_of_integer secs ++ " seconds.")
             (Int secs)).
Proof.
  intros ms Hpos.
  destruct (retry_seconds_positive ms Hpos) as (secs & Hsecs & Hone).
  exists secs. split; [exact Hone|].
  unfold RateLimiter.rateLimiterMiddleware. cbv zeta. rewrite Hsecs.
  unfold RateLimiter.String_of, Int. rewrite Qfloor_Z. reflexivity.
Qed.

End Limiter.

Lemma refused_request_waits_a_second_at_least_witness :
  exists secs,
    1 <= secs /\
    RateLimiter.rateLimiterMiddleware (Some (Int 300)) =
      RateLimiter.Answer429
        (RateLimiter.mkTooManyRequests
           (RateLimiter.String_of_integer secs)
           "Too many requests"
           ("Rate limit exceeded. Try again in " ++
            RateLimiter.String_of_integer secs ++ " seconds.")
           (Int secs)).
Proof.
  apply refused_request_waits_a_second_at_least.
  intros q H. injection H as <-. discriminate.
Defined.
